(** * Notification service: a shallow embedding of the processing engine

    The embedding follows the Python sources

    - [app/models/notification.py]           (the ORM models and the bodies
                                              of the requests),
    - [app/core/config.py]                   (the settings read at start-up
                                              and the validator of the
                                              service URL),
    - [app/services/email_provider.py]       ([EmailProvider.send_email]),
    - [app/services/notification_processor.py] ([NotificationProcessor]),
    - [app/api/routes/notifications.py]      (the routes).

    Asynchronous code is written in a state-and-exception monad over a
    [World] that holds the committed tables, the objects of the open ORM
    session, the clock, the exceptions the collaborators are going to raise
    and a trace of what the code did to the outside. *)

From Stdlib Require Import ZArith String Ascii List Bool Lia.
From stdpp Require Import base option list strings pretty gmap sorting.

Open Scope Z_scope.
Open Scope string_scope.
Open Scope list_scope.

(** ** Python values *)

(** A value decoded by [json.loads]. The engine only tests such a value for
    truth, compares it with [None] and formats it with [str()]; a float, a
    list or an object is therefore kept as what those operations observe of
    it, its truth value and its [str()] text. *)
Inductive JVal :=
| JNull
| JBool (b : bool)
| JInt (z : Z)
| JStr (s : string)
| JOther (truth : bool) (text : string).

(** [bool(v)] *)
Definition truthy (v : JVal) : bool :=
  match v with
  | JNull => false
  | JBool b => b
  | JInt z => negb (Z.eqb z 0)
  | JStr s => negb (String.eqb s "")
  | JOther t _ => t
  end.

(** [v is None] *)
Definition is_None (v : JVal) : bool :=
  match v with JNull => true | _ => false end.

(** [str(v)], as an f-string formats it *)
Definition py_str (v : JVal) : string :=
  match v with
  | JNull => "None"
  | JBool true => "True"
  | JBool false => "False"
  | JInt z => pretty z
  | JStr s => s
  | JOther _ t => t
  end.

(** [d.get(k)] and [d.get(k, dflt)] on a [dict] with string keys *)
Definition dict_get (k : string) (d : gmap string JVal) : JVal :=
  default JNull (d !! k).

Definition dict_get_default (k : string) (dflt : JVal) (d : gmap string JVal) : JVal :=
  default dflt (d !! k).

(** Truth of an [Optional[str]]: [None] and the empty string are false. *)
Definition str_truthy (o : option string) : bool :=
  match o with
  | Some s => negb (String.eqb s "")
  | None => false
  end.

(** [s.startswith(p)] *)
Fixpoint startswith (p s : string) : bool :=
  match p, s with
  | EmptyString, _ => true
  | String a p', String b s' => Ascii.eqb a b && startswith p' s'
  | String _ _, EmptyString => false
  end.

(** [s.replace(old, new)] for a non-empty [old]: occurrences are replaced
    from the left and do not overlap. [skip] counts the characters of a
    matched occurrence that are still to be dropped. *)
Fixpoint replace_from (skip : nat) (old new s : string) : string :=
  match s with
  | EmptyString => EmptyString
  | String c s' =>
      match skip with
      | S k => replace_from k old new s'
      | O =>
          if startswith old s
          then new +:+ replace_from (Nat.pred (String.length old)) old new s'
          else String c (replace_from O old new s')
      end
  end.

Definition replace (old new s : string) : string := replace_from O old new s.

(** [sep.join(l)] *)
Fixpoint join (sep : string) (l : list string) : string :=
  match l with
  | [] => ""
  | [x] => x
  | x :: rest => x +:+ sep +:+ join sep rest
  end.

(** [needle in s] *)
Fixpoint contains (needle s : string) : bool :=
  startswith needle s ||
  match s with
  | EmptyString => false
  | String _ s' => contains needle s'
  end.

Definition newline : string := String (ascii_of_nat 10) EmptyString.

(** ** The ORM models ([app/models/notification.py])

    Timestamps are seconds on the clock of the [World]. A column the
    database fills in ([id], [created_at], [updated_at]) is [None] on an
    object that has not been inserted yet. *)

Record NotificationPreference := {
  p_id : Z;
  p_user_id : string;
  p_channel : string;
  p_enabled : bool;
  p_email : option string;
  p_phone : option string;
  p_webhook_url : option string;
  p_settings : option (gmap string JVal)
}.

Record Notification := {
  n_id : option Z;
  n_user_id : option string;
  n_type : string;
  n_channel : string;
  n_subject : option string;
  n_content : string;
  n_status : string;
  n_error_message : option string;
  n_data : option (gmap string JVal);
  n_created_at : option Z;
  n_updated_at : option Z;
  n_sent_at : option Z;
  n_read_at : option Z
}.

Definition with_id (v : option Z) (n : Notification) : Notification :=
  {| n_id := v; n_user_id := n_user_id n; n_type := n_type n;
     n_channel := n_channel n; n_subject := n_subject n;
     n_content := n_content n; n_status := n_status n;
     n_error_message := n_error_message n; n_data := n_data n;
     n_created_at := n_created_at n; n_updated_at := n_updated_at n;
     n_sent_at := n_sent_at n; n_read_at := n_read_at n |}.

Definition with_status (v : string) (n : Notification) : Notification :=
  {| n_id := n_id n; n_user_id := n_user_id n; n_type := n_type n;
     n_channel := n_channel n; n_subject := n_subject n;
     n_content := n_content n; n_status := v;
     n_error_message := n_error_message n; n_data := n_data n;
     n_created_at := n_created_at n; n_updated_at := n_updated_at n;
     n_sent_at := n_sent_at n; n_read_at := n_read_at n |}.

Definition with_error_message (v : option string) (n : Notification) : Notification :=
  {| n_id := n_id n; n_user_id := n_user_id n; n_type := n_type n;
     n_channel := n_channel n; n_subject := n_subject n;
     n_content := n_content n; n_status := n_status n;
     n_error_message := v; n_data := n_data n;
     n_created_at := n_created_at n; n_updated_at := n_updated_at n;
     n_sent_at := n_sent_at n; n_read_at := n_read_at n |}.

Definition with_created_at (v : option Z) (n : Notification) : Notification :=
  {| n_id := n_id n; n_user_id := n_user_id n; n_type := n_type n;
     n_channel := n_channel n; n_subject := n_subject n;
     n_content := n_content n; n_status := n_status n;
     n_error_message := n_error_message n; n_data := n_data n;
     n_created_at := v; n_updated_at := n_updated_at n;
     n_sent_at := n_sent_at n; n_read_at := n_read_at n |}.

Definition with_updated_at (v : option Z) (n : Notification) : Notification :=
  {| n_id := n_id n; n_user_id := n_user_id n; n_type := n_type n;
     n_channel := n_channel n; n_subject := n_subject n;
     n_content := n_content n; n_status := n_status n;
     n_error_message := n_error_message n; n_data := n_data n;
     n_created_at := n_created_at n; n_updated_at := v;
     n_sent_at := n_sent_at n; n_read_at := n_read_at n |}.

Definition with_sent_at (v : option Z) (n : Notification) : Notification :=
  {| n_id := n_id n; n_user_id := n_user_id n; n_type := n_type n;
     n_channel := n_channel n; n_subject := n_subject n;
     n_content := n_content n; n_status := n_status n;
     n_error_message := n_error_message n; n_data := n_data n;
     n_created_at := n_created_at n; n_updated_at := n_updated_at n;
     n_sent_at := v; n_read_at := n_read_at n |}.

Definition with_read_at (v : option Z) (n : Notification) : Notification :=
  {| n_id := n_id n; n_user_id := n_user_id n; n_type := n_type n;
     n_channel := n_channel n; n_subject := n_subject n;
     n_content := n_content n; n_status := n_status n;
     n_error_message := n_error_message n; n_data := n_data n;
     n_created_at := n_created_at n; n_updated_at := n_updated_at n;
     n_sent_at := n_sent_at n; n_read_at := v |}.

(** What a dangling object reference reads as. The session only hands out
    references to objects it holds, so no run of the code reads it. *)
Definition blank : Notification :=
  {| n_id := None; n_user_id := None; n_type := ""; n_channel := "";
     n_subject := None; n_content := ""; n_status := "";
     n_error_message := None; n_data := None; n_created_at := None;
     n_updated_at := None; n_sent_at := None; n_read_at := None |}.

(** ** Configuration ([app/core/config.py]) and the two service objects *)

Record Settings := {
  NOTIFICATION_CHANNEL : string;
  SMTP_HOST : string;
  SMTP_PORT : Z;
  SMTP_USER : option string;
  SMTP_PASSWORD : option string;
  EMAIL_FROM : option string;
  EMAIL_FROM_NAME : string;
  ADMIN_EMAIL : option string;
  NOTIFICATION_BATCH_SIZE : Z;
  NOTIFICATION_PROCESSING_INTERVAL : Z
}.

(** The defaults of [class Settings]. *)
Definition default_settings : Settings :=
  {| NOTIFICATION_CHANNEL := "inventory:low-stock";
     SMTP_HOST := "sandbox.smtp.mailtrap.io";
     SMTP_PORT := 587;
     SMTP_USER := None;
     SMTP_PASSWORD := None;
     EMAIL_FROM := None;
     EMAIL_FROM_NAME := "E-commerce Notifications";
     ADMIN_EMAIL := Some "admin@example.com";
     NOTIFICATION_BATCH_SIZE := 10;
     NOTIFICATION_PROCESSING_INTERVAL := 30 |}.

(** The fields [EmailProvider.__init__] copies from the settings. *)
Record EmailProvider := {
  host : string;
  port : Z;
  username : option string;
  password : option string;
  from_email : option string;
  from_name : string
}.

Definition EmailProvider_init (s : Settings) : EmailProvider :=
  {| host := SMTP_HOST s; port := SMTP_PORT s; username := SMTP_USER s;
     password := SMTP_PASSWORD s; from_email := EMAIL_FROM s;
     from_name := EMAIL_FROM_NAME s |}.

(** ** What the code does to the outside *)

(** The message [send_email] builds: headers and the attached parts, each a
    MIME subtype with its text. *)
Record MimeMessage := {
  msg_From : string;
  msg_To : string;
  msg_Subject : option string;
  msg_Cc : option string;
  msg_parts : list (string * string)
}.

Inductive Event :=
| EvStatus (nid : option Z) (old new : string)
    (* an assignment [notification.status = new] *)
| EvSendEmail (to_email : string) (subject : option string) (html_content : string)
    (* a call of [email_provider.send_email] *)
| EvSmtp (message : MimeMessage) (hostname : string) (smtp_port : Z)
         (user pass : option string)
    (* a call of [aiosmtplib.send] *)
| EvSleep (seconds : Z).
    (* [asyncio.sleep(seconds)] *)

(** ** The world

    - [notifications], [notification_preferences], [next_id]: the committed
      tables and the serial of the notifications table;
    - [session]: the objects of the open ORM session, referred to by their
      position; a commit writes them back;
    - [running], [batch_size], [processing_interval]: the fields of the
      [NotificationProcessor] singleton;
    - [now]: the clock [datetime.utcnow()] and the database read;
    - [faults]: for each coming call into the database driver or the SMTP
      client, whether it raises and with which text (no entry: it succeeds);
      a refusal of the store stays at the head of the list for as long as
      the session it has broken is open;
    - [stop_requests]: for each coming [asyncio.sleep] of the sweep, whether
      another task calls [stop()] while the sweep is suspended;
    - [trace]: the events so far, latest first. *)
Record World := {
  settings : Settings;
  email_provider : EmailProvider;
  running : bool;
  batch_size : Z;
  processing_interval : Z;
  now : Z;
  notifications : list Notification;
  notification_preferences : list NotificationPreference;
  next_id : Z;
  session : list Notification;
  faults : list (option string);
  stop_requests : list bool;
  trace : list Event
}.

Definition set_running (v : bool) (w : World) : World :=
  {| settings := settings w; email_provider := email_provider w;
     running := v; batch_size := batch_size w;
     processing_interval := processing_interval w; now := now w;
     notifications := notifications w;
     notification_preferences := notification_preferences w;
     next_id := next_id w; session := session w; faults := faults w;
     stop_requests := stop_requests w; trace := trace w |}.

Definition set_now (v : Z) (w : World) : World :=
  {| settings := settings w; email_provider := email_provider w;
     running := running w; batch_size := batch_size w;
     processing_interval := processing_interval w; now := v;
     notifications := notifications w;
     notification_preferences := notification_preferences w;
     next_id := next_id w; session := session w; faults := faults w;
     stop_requests := stop_requests w; trace := trace w |}.

Definition set_notifications (v : list Notification) (w : World) : World :=
  {| settings := settings w; email_provider := email_provider w;
     running := running w; batch_size := batch_size w;
     processing_interval := processing_interval w; now := now w;
     notifications := v;
     notification_preferences := notification_preferences w;
     next_id := next_id w; session := session w; faults := faults w;
     stop_requests := stop_requests w; trace := trace w |}.

Definition set_next_id (v : Z) (w : World) : World :=
  {| settings := settings w; email_provider := email_provider w;
     running := running w; batch_size := batch_size w;
     processing_interval := processing_interval w; now := now w;
     notifications := notifications w;
     notification_preferences := notification_preferences w;
     next_id := v; session := session w; faults := faults w;
     stop_requests := stop_requests w; trace := trace w |}.

Definition set_session (v : list Notification) (w : World) : World :=
  {| settings := settings w; email_provider := email_provider w;
     running := running w; batch_size := batch_size w;
     processing_interval := processing_interval w; now := now w;
     notifications := notifications w;
     notification_preferences := notification_preferences w;
     next_id := next_id w; session := v; faults := faults w;
     stop_requests := stop_requests w; trace := trace w |}.

Definition set_faults (v : list (option string)) (w : World) : World :=
  {| settings := settings w; email_provider := email_provider w;
     running := running w; batch_size := batch_size w;
     processing_interval := processing_interval w; now := now w;
     notifications := notifications w;
     notification_preferences := notification_preferences w;
     next_id := next_id w; session := session w; faults := v;
     stop_requests := stop_requests w; trace := trace w |}.

Definition set_stop_requests (v : list bool) (w : World) : World :=
  {| settings := settings w; email_provider := email_provider w;
     running := running w; batch_size := batch_size w;
     processing_interval := processing_interval w; now := now w;
     notifications := notifications w;
     notification_preferences := notification_preferences w;
     next_id := next_id w; session := session w; faults := faults w;
     stop_requests := v; trace := trace w |}.

Definition set_trace (v : list Event) (w : World) : World :=
  {| settings := settings w; email_provider := email_provider w;
     running := running w; batch_size := batch_size w;
     processing_interval := processing_interval w; now := now w;
     notifications := notifications w;
     notification_preferences := notification_preferences w;
     next_id := next_id w; session := session w; faults := faults w;
     stop_requests := stop_requests w; trace := v |}.

(** The process right after start-up: [settings = Settings()], the two
    singletons constructed ([NotificationProcessor.__init__] sets
    [running = False]), empty tables. *)
Definition boot (s : Settings) : World :=
  {| settings := s; email_provider := EmailProvider_init s;
     running := false; batch_size := NOTIFICATION_BATCH_SIZE s;
     processing_interval := NOTIFICATION_PROCESSING_INTERVAL s; now := 0;
     notifications := []; notification_preferences := [];
     next_id := 1; session := []; faults := []; stop_requests := [];
     trace := [] |}.

(** ** Exceptions, and the monad the code runs in *)

(** The exceptions of the modelled code are all instances of [Exception]:
    an error of a collaborator, known by its [str()] text, or the
    [HTTPException] a route raises. *)
Inductive Exn :=
| Error (text : string)
| HTTPException (status_code : Z) (detail : string).

(** [str(e)]. No handler of the modelled code formats an [HTTPException]. *)
Definition exn_str (e : Exn) : string :=
  match e with
  | Error text => text
  | HTTPException _ detail => detail
  end.

Inductive Outcome (A : Type) :=
| Return (a : A)
| Raise (e : Exn).
Arguments Return {A} a.
Arguments Raise {A} e.

Definition M (A : Type) : Type := World -> Outcome A * World.

Definition ret {A} (a : A) : M A := fun w => (Return a, w).

Definition bind {A B} (m : M A) (k : A -> M B) : M B := fun w =>
  match m w with
  | (Return a, w') => k a w'
  | (Raise e, w') => (Raise e, w')
  end.

Definition raise {A} (e : Exn) : M A := fun w => (Raise e, w).

(** [try: body  except Exception as e: handler e] *)
Definition try_except {A} (body : M A) (handler : Exn -> M A) : M A := fun w =>
  match body w with
  | (Return a, w') => (Return a, w')
  | (Raise e, w') => handler e w'
  end.

#[global] Instance M_ret : MRet M := @ret.
#[global] Instance M_bind : MBind M := fun A B k m => bind m k.

Definition get_world : M World := fun w => (Return w, w).
Definition modify (f : World -> World) : M unit := fun w => (Return tt, f w).
Definition emit (e : Event) : M unit := modify (fun w => set_trace (e :: trace w) w).

Fixpoint for_each {A} (f : A -> M unit) (l : list A) : M unit :=
  match l with
  | [] => ret tt
  | x :: rest => f x;; for_each f rest
  end.

(** The calls the code makes into its collaborators: [db.commit()] (the
    flush of the pending changes and the [COMMIT]), a statement sent to the
    database ([db.execute], [db.refresh]), and [aiosmtplib.send]. *)
Inductive Collaborator :=
| Commit
| Statement
| Smtp.

(** The code never calls [db.rollback()]. A session whose flush was refused
    is deactivated by SQLAlchemy: its objects are expired, and until the
    session is closed every statement, every flush and every read of an
    expired attribute raises [PendingRollbackError], with this text. *)
Definition rolled_back : string :=
  "This Session's transaction has been rolled back due to a previous exception during flush".

(** The state of the session is kept where the next answer of the store
    is: a refused commit is not used up by the call it answers, it stays at
    the head of [faults] with the text of [PendingRollbackError], so that
    the next call into the store is refused too, and so does the refusal of
    a statement by a deactivated session. Any other refusal is used up: what
    the store does after it has refused a statement (it may refuse what the
    session sends next, when the transaction is aborted or the connection
    lost, or take it) is in the entries that follow, and so is what the SMTP
    server does. *)
Definition refused (c : Collaborator) (text : string)
    (rest : list (option string)) : list (option string) :=
  match c with
  | Commit => Some rolled_back :: rest
  | Statement => if String.eqb text rolled_back then Some rolled_back :: rest else rest
  | Smtp => rest
  end.

(** A call into a collaborator: it raises when the next entry of [faults]
    says so. *)
Definition call (c : Collaborator) : M unit := fun w =>
  match faults w with
  | [] => (Return tt, w)
  | None :: rest => (Return tt, set_faults rest w)
  | Some text :: rest => (Raise (Error text), set_faults (refused c text rest) w)
  end.

(** The session is deactivated: the objects it holds are expired. *)
Definition deactivated (w : World) : bool :=
  match faults w with
  | Some text :: _ => String.eqb text rolled_back
  | _ => false
  end.

(** Reading an attribute that the code reads where the session may be
    deactivated: an expired attribute has to be loaded again, which a
    deactivated session refuses. *)
Definition loaded : M unit := fun w =>
  if deactivated w then (Raise (Error rolled_back), w) else (Return tt, w).

(** Closing a session ends its transaction, and with it the state a
    refused commit has left it in. *)
Definition release (fs : list (option string)) : list (option string) :=
  match fs with
  | Some text :: rest => if String.eqb text rolled_back then rest else fs
  | _ => fs
  end.

(** [datetime.utcnow()] *)
Definition utcnow : M Z := fun w => (Return (now w), w).

(** ** The ORM session *)

(** Attribute access on the object behind reference [r]. *)
Definition getattr {A} (f : Notification -> A) (r : nat) : M A := fun w =>
  (Return (f (default blank (session w !! r))), w).

Definition setattr (f : Notification -> Notification) (r : nat) : M unit :=
  modify (fun w => set_session (alter f r (session w)) w).

(** [notification.status = v], noted in the trace. *)
Definition set_status (v : string) (r : nat) : M unit :=
  nid ← getattr n_id r;
  old ← getattr n_status r;
  emit (EvStatus nid old v);;
  setattr (with_status v) r.

(** [UPDATE notifications SET ... WHERE id = o.id] *)
Definition write_back (o : Notification) (rows : list Notification) : list Notification :=
  map (fun row => if decide (n_id row = n_id o) then o else row) rows.

(** The row an [INSERT] of [o] creates: the serial gives the id and the
    server defaults [now()] fill the two timestamps left unset. *)
Definition inserted (next t : Z) (o : Notification) : Notification :=
  with_id (Some next)
    (with_created_at (Some (default t (n_created_at o)))
       (with_updated_at (Some (default t (n_updated_at o))) o)).

(** Flushing the session: an object with an id updates its row, an object
    without one is inserted. The three functions give the table, the
    session objects and the serial after the flush. *)
Fixpoint flush_rows (objs : list Notification) (t next : Z)
    (rows : list Notification) : list Notification :=
  match objs with
  | [] => rows
  | o :: rest =>
      match n_id o with
      | Some _ => flush_rows rest t next (write_back o rows)
      | None => flush_rows rest t (next + 1) (rows ++ [inserted next t o])
      end
  end.

Fixpoint flush_session (objs : list Notification) (t next : Z) : list Notification :=
  match objs with
  | [] => []
  | o :: rest =>
      match n_id o with
      | Some _ => o :: flush_session rest t next
      | None => inserted next t o :: flush_session rest t (next + 1)
      end
  end.

Fixpoint flush_next (objs : list Notification) (next : Z) : Z :=
  match objs with
  | [] => next
  | o :: rest =>
      match n_id o with
      | Some _ => flush_next rest next
      | None => flush_next rest (next + 1)
      end
  end.

Definition flush (w : World) : World :=
  set_session (flush_session (session w) (now w) (next_id w))
    (set_next_id (flush_next (session w) (next_id w))
       (set_notifications
          (flush_rows (session w) (now w) (next_id w) (notifications w)) w)).

(** [async with AsyncSessionLocal() as db: body]: a fresh session, closed on
    the way out, also when [body] raises. The routes get theirs from the
    [get_db] dependency, likewise one session for one request. *)
Definition with_session {A} (body : M A) : M A := fun w =>
  let (r, w') := body (set_session [] w) in
  (r, set_faults (release (faults w')) (set_session [] w')).

(** [db.add(o)]; the reference to the object is returned. *)
Definition db_add (o : Notification) : M nat := fun w =>
  (Return (length (session w)), set_session (session w ++ [o]) w).

(** [await db.commit()]: when the store refuses, nothing is written, and
    the session is left deactivated (see [call]). *)
Definition db_commit : M unit := call Commit;; modify flush.

(** [await db.refresh(o)]: the object is read again from its row. *)
Definition db_refresh (r : nat) : M unit :=
  call Statement;;
  w ← get_world;
  nid ← getattr n_id r;
  match List.find (fun row => bool_decide (n_id row = nid)) (notifications w) with
  | Some row => setattr (fun _ => row) r
  | None => ret tt
  end.

(** [ORDER BY created_at]: ascending, [NULL] last, and rows with equal keys
    in table order. *)
Definition created_le (a b : option Z) : bool :=
  match a, b with
  | Some x, Some y => Z.leb x y
  | Some _, None => true
  | None, Some _ => false
  | None, None => true
  end.

Fixpoint insert_by_created (n : Notification) (l : list Notification) : list Notification :=
  match l with
  | [] => [n]
  | m :: rest =>
      if created_le (n_created_at n) (n_created_at m)
      then n :: m :: rest
      else m :: insert_by_created n rest
  end.

Definition order_by_created_at (l : list Notification) : list Notification :=
  foldr insert_by_created [] l.

Definition is_pending (n : Notification) : bool := String.eqb (n_status n) "pending".

(** [select(Notification).where(status == "pending")
      .order_by(created_at).limit(limit)] on the committed table. *)
Definition select_pending (limit : nat) (rows : list Notification) : list Notification :=
  take limit (order_by_created_at (List.filter is_pending rows)).

(** Running that query: the rows found become session objects and their
    references are the result. PostgreSQL refuses a negative [LIMIT]. *)
Definition db_select_pending (limit : Z) : M (list nat) :=
  call Statement;;
  w ← get_world;
  if Z.ltb limit 0 then raise (Error "LIMIT must not be negative")
  else
    let rows := select_pending (Z.to_nat limit) (notifications w) in
    modify (set_session (session w ++ rows));;
    ret (seq (length (session w)) (length rows)).

(** [select(NotificationPreference).where(user_id == u, channel == c)]
    followed by [.scalars().first()]. *)
Definition matches_preference (u c : string) (p : NotificationPreference) : bool :=
  String.eqb (p_user_id p) u && String.eqb (p_channel p) c.

Definition db_first_preference (u c : string) : M (option NotificationPreference) :=
  call Statement;;
  w ← get_world;
  ret (List.find (matches_preference u c) (notification_preferences w)).

(** [select(Notification).where(id == nid)] followed by
    [.scalars().first()]. *)
Definition db_first_notification (nid : Z) : M (option nat) :=
  call Statement;;
  w ← get_world;
  match List.find (fun row => bool_decide (n_id row = Some nid)) (notifications w) with
  | Some row => modify (set_session (session w ++ [row]));; ret (Some (length (session w)))
  | None => ret None
  end.

(** ** [EmailProvider.send_email] ([app/services/email_provider.py]) *)

(** Truth of an [Optional[List[str]]]. *)
Definition list_truthy {A} (o : option (list A)) : bool :=
  match o with
  | Some (_ :: _) => true
  | _ => false
  end.

(** An [Optional[str]] inside an f-string. *)
Definition opt_str (o : option string) : string :=
  match o with
  | Some s => s
  | None => "None"
  end.

(** [await aiosmtplib.send(message, hostname=, port=, username=, password=,
    use_tls=True)] *)
Definition aiosmtplib_send (message : MimeMessage) (hostname : string)
    (smtp_port : Z) (user pass : option string) : M unit :=
  emit (EvSmtp message hostname smtp_port user pass);;
  call Smtp.

(** The strings of the model are texts that can be encoded, so the
    construction of the message does not fail. A Python [str] with a lone
    surrogate is outside the model: on it [MIMEText(..., "utf-8")] raises
    inside the [try] block, and [send_email] returns [False] without calling
    the SMTP client. *)
Definition send_email (to_email : string) (subject : option string)
    (html_content : string) (text_content : option string)
    (cc bcc : option (list string)) : M bool :=
  emit (EvSendEmail to_email subject html_content);;
  w ← get_world;
  let self := email_provider w in
  if negb (str_truthy (username self)) || negb (str_truthy (password self))
     || negb (str_truthy (from_email self))
  then ret false
  else
    try_except
      (let text_part :=
         if str_truthy text_content then opt_str text_content
         else replace "</p>" newline
                (replace "<p>" newline
                   (replace "<br/>" newline
                      (replace "<br>" newline html_content))) in
       let message :=
         {| msg_From := from_name self +:+ " <" +:+ opt_str (from_email self) +:+ ">";
            msg_To := to_email;
            msg_Subject := subject;
            msg_Cc := if list_truthy cc then Some (join ", " (default [] cc)) else None;
            msg_parts := [("plain", text_part); ("html", html_content)] |} in
       let recipients :=
         ([to_email] ++ (if list_truthy cc then default [] cc else [])
                     ++ (if list_truthy bcc then default [] bcc else []))%list in
       aiosmtplib_send message (host self) (port self) (username self) (password self);;
       ret true)
      (fun _ => ret false).

(** ** [NotificationProcessor] ([app/services/notification_processor.py]) *)

Definition start : M unit := modify (set_running true).

Definition stop : M unit := modify (set_running false).

Definition indent12 : string := "            ".
Definition indent16 : string := "                ".

Definition handle_low_stock_notification (data : gmap string JVal) : M unit :=
  let product_id := dict_get "product_id" data in
  let product_name := dict_get_default "product_name" product_id data in
  let current_quantity := dict_get "current_quantity" data in
  let threshold := dict_get "threshold" data in
  if negb (truthy product_id) || is_None current_quantity || is_None threshold
  then ret tt
  else
    let notification_data :=
      {| n_id := None; n_user_id := None;
         n_type := "low_stock";
         n_channel := "database";
         n_subject := Some ("Low Stock Alert: " +:+ py_str product_name);
         n_content := "Product '" +:+ py_str product_name
                      +:+ "' is running low on stock. Current quantity: "
                      +:+ py_str current_quantity +:+ ", Threshold: "
                      +:+ py_str threshold;
         n_status := "pending";
         n_error_message := None;
         n_data := Some data;
         n_created_at := None; n_updated_at := None;
         n_sent_at := None; n_read_at := None |} in
    with_session
      (system_notification ← db_add notification_data;
       db_commit;;
       db_refresh system_notification);;
    w ← get_world;
    if str_truthy (ADMIN_EMAIL (settings w))
    then
      let html_content :=
        newline
        +:+ indent12 +:+ "<h2>Low Stock Alert</h2>" +:+ newline
        +:+ indent12 +:+ "<p>Product <strong>" +:+ py_str product_name
        +:+ "</strong> is running low on stock.</p>" +:+ newline
        +:+ indent12 +:+ "<ul>" +:+ newline
        +:+ indent16 +:+ "<li><strong>Product ID:</strong> "
        +:+ py_str product_id +:+ "</li>" +:+ newline
        +:+ indent16 +:+ "<li><strong>Current Quantity:</strong> "
        +:+ py_str current_quantity +:+ "</li>" +:+ newline
        +:+ indent16 +:+ "<li><strong>Threshold:</strong> "
        +:+ py_str threshold +:+ "</li>" +:+ newline
        +:+ indent12 +:+ "</ul>" +:+ newline
        +:+ indent12 +:+ "<p>Please replenish the inventory as soon as possible.</p>"
        +:+ newline +:+ indent12 in
      success ← send_email (opt_str (ADMIN_EMAIL (settings w)))
                  (Some ("Low Stock Alert: " +:+ py_str product_name))
                  html_content None None None;
      ret tt
    else ret tt.

Definition handle_notification (data : gmap string JVal) : M unit :=
  try_except
    (let notification_type := dict_get "type" data in
     match notification_type with
     | JStr t =>
         if String.eqb t "low_stock" then handle_low_stock_notification data
         else ret tt
     | _ => ret tt
     end)
    (fun _ => ret tt).

(** [send_notification] is given block by block: the first three
    statements of the [try] block, which mark the record as being processed;
    the [if channel == ...] statement, which computes [success]; the rest of
    the [try] block, which records the outcome; the [except] block, whose
    first statement formats [notification.id] into the log line and so reads
    an attribute of the record; and the function itself. *)
Definition mark_processing (notification : nat) : M unit :=
  set_status "processing" notification;;
  t ← utcnow;
  setattr (with_updated_at (Some t)) notification;;
  db_commit.

Definition send_notification_channel (notification : nat) : M bool :=
  channel ← getattr n_channel notification;
  if String.eqb channel "email" then
    user_id ← getattr n_user_id notification;
    if str_truthy user_id then
      preference ← db_first_preference (opt_str user_id) "email";
      match preference with
      | Some p =>
          if str_truthy (p_email p) then
            subject ← getattr n_subject notification;
            content ← getattr n_content notification;
            send_email (opt_str (p_email p)) subject content None None None
          else ret false
      | None => ret false
      end
    else ret false
  else if String.eqb channel "database" then ret true
  else ret false.

Definition record_outcome (notification : nat) (success : bool) : M unit :=
  (if success then
     set_status "sent" notification;;
     t ← utcnow;
     setattr (with_sent_at (Some t)) notification
   else
     set_status "failed" notification;;
     setattr (with_error_message (Some "Failed to send notification")) notification);;
  t ← utcnow;
  setattr (with_updated_at (Some t)) notification;;
  db_commit.

Definition send_notification_try (notification : nat) : M unit :=
  mark_processing notification;;
  success ← send_notification_channel notification;
  record_outcome notification success.

Definition send_notification_except (notification : nat) (e : Exn) : M unit :=
  loaded;;
  set_status "failed" notification;;
  setattr (with_error_message (Some (exn_str e))) notification;;
  t ← utcnow;
  setattr (with_updated_at (Some t)) notification;;
  db_commit.

Definition send_notification (notification : nat) : M unit :=
  try_except (send_notification_try notification)
             (send_notification_except notification).

(** [await asyncio.sleep(seconds)] in the sweep task: the clock moves on
    and, while the task is suspended, another task may call [stop()]. *)
Definition asyncio_sleep (seconds : Z) : M unit :=
  emit (EvSleep seconds);;
  modify (fun w => set_now (now w + Z.max 0 seconds) w);;
  w ← get_world;
  match stop_requests w with
  | [] => ret tt
  | false :: rest => modify (set_stop_requests rest)
  | true :: rest => modify (set_stop_requests rest);; stop
  end.

(** [process_pending_notifications] in three layers: the [try] block of
    the loop body, the loop body, and the [while self.running] loop, which
    is given [fuel] for the number of iterations it may make. *)
Definition process_pending_batch : M unit :=
  with_session
    (w ← get_world;
     pending ← db_select_pending (batch_size w);
     for_each send_notification pending;;
     db_commit).

Definition process_pending_iteration : M unit :=
  try_except process_pending_batch (fun _ => ret tt);;
  w ← get_world;
  asyncio_sleep (processing_interval w).

Inductive Loop :=
| Finished       (* the loop condition was false: the coroutine returned *)
| StillRunning.  (* out of fuel with the loop still going *)

Fixpoint process_pending_notifications (fuel : nat) : M Loop := fun w =>
  match fuel with
  | O => (Return StillRunning, w)
  | S k =>
      if running w
      then (process_pending_iteration;; process_pending_notifications k) w
      else (Return Finished, w)
  end.

(** ** The mark-read routes ([app/api/routes/notifications.py]) *)

Definition mark_notification_read (notification_id : Z) : M Notification :=
  with_session
    (found ← db_first_notification notification_id;
     match found with
     | None =>
         raise (HTTPException 404
                  ("Notification with ID " +:+ pretty notification_id +:+ " not found"))
     | Some notification =>
         t ← utcnow;
         setattr (with_read_at (Some t)) notification;;
         t ← utcnow;
         setattr (with_updated_at (Some t)) notification;;
         db_commit;;
         db_refresh notification;;
         getattr (fun n => n) notification
     end).

(** [update(Notification).where(user_id == u, read_at == None)
      .values(read_at=now, updated_at=now)]: the rows it changes. *)
Definition is_unread_of (u : string) (row : Notification) : bool :=
  bool_decide (n_user_id row = Some u) && bool_decide (n_read_at row = None).

Definition mark_rows_read (u : string) (t : Z) (rows : list Notification) : list Notification :=
  map (fun row =>
         if is_unread_of u row
         then with_updated_at (Some t) (with_read_at (Some t) row)
         else row) rows.

(** The statement runs inside the transaction; its rows are in the table
    once the commit has succeeded. The result is [result.rowcount]. *)
Definition mark_all_notifications_read (user_id : string) : M Z :=
  with_session
    (t ← utcnow;
     call Statement;;
     w ← get_world;
     let rowcount := Z.of_nat (length (List.filter (is_unread_of user_id) (notifications w))) in
     call Commit;;
     modify (fun w => set_notifications (mark_rows_read user_id t (notifications w)) w);;
     ret rowcount).

(** Time passing between two requests. *)
Definition elapse (d : Z) (w : World) : World := set_now (now w + d) w.

(** ** The other routes ([app/api/routes/notifications.py])

    Each route runs in the session of its request. FastAPI calls the body
    of [get_notifications] only with [skip >= 0] and [1 <= limit <= 100].
    As in [send_notification], which reads [notification.channel] after its
    first commit, an object stays loaded after a commit: the id of a new
    record can be read once the commit has returned. *)

(** [ORDER BY created_at DESC]: the reverse of the ascending order, so
    [NULL] comes first. SQL leaves the order of rows with equal keys to the
    database; the function takes them in table order, which is one of the
    orders [page_of] allows. *)
Fixpoint insert_by_created_desc (n : Notification) (l : list Notification)
    : list Notification :=
  match l with
  | [] => [n]
  | m :: rest =>
      if created_le (n_created_at m) (n_created_at n)
      then n :: m :: rest
      else m :: insert_by_created_desc n rest
  end.

Definition order_by_created_at_desc (l : list Notification) : list Notification :=
  foldr insert_by_created_desc [] l.

Definition of_user (u : string) (n : Notification) : bool :=
  bool_decide (n_user_id n = Some u).

(** The [WHERE] clauses of [get_notifications]: the status and the type
    filter are added when the parameter is given and not empty. *)
Definition notifications_query (user_id : string) (status type_ : option string)
    (rows : list Notification) : list Notification :=
  let query := List.filter (of_user user_id) rows in
  let query :=
    if str_truthy status
    then List.filter (fun n => String.eqb (n_status n) (opt_str status)) query
    else query in
  let query :=
    if str_truthy type_
    then List.filter (fun n => String.eqb (n_type n) (opt_str type_)) query
    else query in
  query.

Definition get_notifications (user_id : string) (skip limit : Z)
    (status type_ : option string) : M (list Notification) :=
  with_session
    (call Statement;;
     w ← get_world;
     ret (take (Z.to_nat limit)
            (drop (Z.to_nat skip)
               (order_by_created_at_desc
                  (notifications_query user_id status type_ (notifications w)))))).

(** The summary [{"total": ..., "unread": ...}] as a pair. *)
Definition get_notification_count (user_id : string) : M (Z * Z) :=
  with_session
    (call Statement;;
     w ← get_world;
     let total := Z.of_nat (length (List.filter (of_user user_id) (notifications w))) in
     call Statement;;
     w ← get_world;
     let unread :=
       Z.of_nat (length (List.filter (is_unread_of user_id) (notifications w))) in
     ret (total, unread)).

Definition get_notification_preferences (user_id : string)
    : M (list NotificationPreference) :=
  with_session
    (call Statement;;
     w ← get_world;
     ret (List.filter (fun p => String.eqb (p_user_id p) user_id)
            (notification_preferences w))).

Definition set_notification_preferences (v : list NotificationPreference)
    (w : World) : World :=
  {| settings := settings w; email_provider := email_provider w;
     running := running w; batch_size := batch_size w;
     processing_interval := processing_interval w; now := now w;
     notifications := notifications w;
     notification_preferences := v;
     next_id := next_id w; session := session w; faults := faults w;
     stop_requests := stop_requests w; trace := trace w |}.

(** The body of a [POST /preferences] request
    ([NotificationPreferenceCreate]). *)
Record NotificationPreferenceCreate := {
  c_user_id : string;
  c_channel : string;
  c_enabled : bool;
  c_email : option string;
  c_phone : option string;
  c_webhook_url : option string;
  c_settings : option (gmap string JVal)
}.

(** The ORM object built from the fields of the request, with the id the
    sequence of the table hands out. *)
Definition new_preference (serial : Z) (preference : NotificationPreferenceCreate)
    : NotificationPreference :=
  {| p_id := serial;
     p_user_id := c_user_id preference;
     p_channel := c_channel preference;
     p_enabled := c_enabled preference;
     p_email := c_email preference;
     p_phone := c_phone preference;
     p_webhook_url := c_webhook_url preference;
     p_settings := c_settings preference |}.

(** [serial] is the next value of the sequence. The row is in the table
    once the commit has succeeded. *)
Definition create_notification_preference (serial : Z)
    (preference : NotificationPreferenceCreate) : M NotificationPreference :=
  with_session
    (existing ← db_first_preference (c_user_id preference) (c_channel preference);
     match existing with
     | Some _ =>
         raise (HTTPException 400
                  ("Preference for channel " +:+ c_channel preference
                   +:+ " already exists for this user"))
     | None =>
         let db_preference := new_preference serial preference in
         call Commit;;
         modify (fun w =>
           set_notification_preferences
             (notification_preferences w ++ [db_preference]) w);;
         call Statement;;
         ret db_preference
     end).

(** The body of a [PUT /preferences/{id}] request
    ([NotificationPreferenceUpdate]) as [dict(exclude_unset=True)] sees it:
    for each field, [None] when the request does not name it, and otherwise
    the value it gives, which may be [null]. *)
Record NotificationPreferenceUpdate := {
  u_enabled : option (option bool);
  u_email : option (option string);
  u_phone : option (option string);
  u_webhook_url : option (option string);
  u_settings : option (option (gmap string JVal))
}.

(** The [setattr] loop, on the columns that can hold the value. *)
Definition apply_update (u : NotificationPreferenceUpdate)
    (p : NotificationPreference) : NotificationPreference :=
  {| p_id := p_id p;
     p_user_id := p_user_id p;
     p_channel := p_channel p;
     p_enabled := match u_enabled u with Some (Some b) => b | _ => p_enabled p end;
     p_email := default (p_email p) (u_email u);
     p_phone := default (p_phone p) (u_phone u);
     p_webhook_url := default (p_webhook_url p) (u_webhook_url u);
     p_settings := default (p_settings p) (u_settings u) |}.

(** [select(NotificationPreference).where(id == preference_id)] followed by
    [.scalars().first()]. *)
Definition db_preference_by_id (preference_id : Z) : M (option NotificationPreference) :=
  call Statement;;
  w ← get_world;
  ret (List.find (fun p => Z.eqb (p_id p) preference_id) (notification_preferences w)).

(** [UPDATE notification_preferences SET ... WHERE id = p.id] *)
Definition write_back_preference (p : NotificationPreference)
    (rows : list NotificationPreference) : list NotificationPreference :=
  map (fun q => if Z.eqb (p_id q) (p_id p) then p else q) rows.

(** The column [enabled] is [NOT NULL]: a request that sets it to [null]
    makes the commit raise. *)
Definition update_notification_preference (preference_id : Z)
    (preference_update : NotificationPreferenceUpdate) : M NotificationPreference :=
  with_session
    (db_preference ← db_preference_by_id preference_id;
     match db_preference with
     | None =>
         raise (HTTPException 404
                  ("Preference with ID " +:+ pretty preference_id +:+ " not found"))
     | Some p =>
         let p' := apply_update preference_update p in
         call Commit;;
         match u_enabled preference_update with
         | Some None =>
             raise (Error "null value in column enabled violates not-null constraint")
         | _ =>
             modify (fun w =>
               set_notification_preferences
                 (write_back_preference p' (notification_preferences w)) w);;
             call Statement;;
             ret p'
         end
     end).

Definition delete_notification_preference (preference_id : Z) : M unit :=
  with_session
    (db_preference ← db_preference_by_id preference_id;
     match db_preference with
     | None =>
         raise (HTTPException 404
                  ("Preference with ID " +:+ pretty preference_id +:+ " not found"))
     | Some p =>
         call Commit;;
         modify (fun w =>
           set_notification_preferences
             (List.filter (fun q => negb (Z.eqb (p_id q) (p_id p)))
                (notification_preferences w)) w)
     end).

(** The result [{"message": ..., "notification_id": ...}] as a pair. *)
Definition send_test_notification (user_id channel : string) : M (string * option Z) :=
  with_session
    (preference ← db_first_preference user_id channel;
     match preference with
     | None =>
         raise (HTTPException 404 ("No preference found for channel " +:+ channel))
     | Some _ =>
         let test_notification :=
           {| n_id := None; n_user_id := Some user_id;
              n_type := "test";
              n_channel := channel;
              n_subject := Some "Test Notification";
              n_content := "This is a test notification sent to verify your "
                           +:+ channel +:+ " notification preference.";
              n_status := "pending";
              n_error_message := None;
              n_data := Some (<["test" := JBool true]> ∅);
              n_created_at := None; n_updated_at := None;
              n_sent_at := None; n_read_at := None |} in
         r ← db_add test_notification;
         db_commit;;
         nid ← getattr n_id r;
         ret ("Test notification created successfully", nid)
     end).

(** ** The service URL validator ([app/core/config.py]) *)

(** [validate_service_urls], on the values the environment can give: no
    value, or a string. *)
Definition validate_service_urls (v : option string) : option string :=
  match v with
  | Some s =>
      if negb (startswith "http://" s || startswith "https://" s)
      then Some ("http://" +:+ s)
      else Some s
  | None => None
  end.

(** ** Observations on a world *)

(** The calls of [send_email] in a trace, latest first: recipient, subject
    and HTML body. *)
Definition call_of (e : Event) : option (string * option string * string) :=
  match e with EvSendEmail a s h => Some (a, s, h) | _ => None end.

Definition email_calls (t : list Event) : list (string * option string * string) :=
  omap call_of t.

(** The messages handed to the SMTP client. *)
Definition smtp_of (e : Event) : option MimeMessage :=
  match e with EvSmtp m _ _ _ _ => Some m | _ => None end.

Definition smtp_sends (t : list Event) : list MimeMessage := omap smtp_of t.

(** The sleeps of the sweep. *)
Definition sleep_of (e : Event) : option Z :=
  match e with EvSleep s => Some s | _ => None end.

Definition sleeps (t : list Event) : list Z := omap sleep_of t.

(** The ids of the records whose status was set to "processing". *)
Definition start_of (e : Event) : option (option Z) :=
  match e with
  | EvStatus nid _ v => if String.eqb v "processing" then Some nid else None
  | _ => None
  end.

Definition started (t : list Event) : list (option Z) := omap start_of t.

(** The status assignments: id, old value, new value. *)
Definition transition_of (e : Event) : option (option Z * string * string) :=
  match e with EvStatus nid a b => Some (nid, a, b) | _ => None end.

Definition transitions (t : list Event) : list (option Z * string * string) :=
  omap transition_of t.

(** The object behind a reference. *)
Definition object (r : nat) (w : World) : Notification := default blank (session w !! r).

(** The committed row with a given id. *)
Definition row (nid : Z) (w : World) : option Notification :=
  List.find (fun n => bool_decide (n_id n = Some nid)) (notifications w).

(** None of the next [k] calls into a collaborator raises. *)
Fixpoint quiet (k : nat) (fs : list (option string)) : bool :=
  match k, fs with
  | O, _ => true
  | S _, [] => true
  | S k', None :: rest => quiet k' rest
  | S _, Some _ :: _ => false
  end.

(** How many of the coming calls raise. *)
Definition fault_count (fs : list (option string)) : nat :=
  length (List.filter (fun f => bool_decide (is_Some f)) fs).
Arguments fault_count : simpl never.

(** Two objects carry the same message: what the channel block of
    [send_notification] reads of a record. *)
Definition same_message (n0 n : Notification) : Prop :=
  n_channel n = n_channel n0 ∧ n_user_id n = n_user_id n0 ∧
  n_subject n = n_subject n0 ∧ n_content n = n_content n0.

(** The status a record is left with after [record_outcome]. *)
Definition outcome_recorded (success : bool) (n : Notification) : Prop :=
  n_status n = (if success then "sent" else "failed") ∧
  (success = false → n_error_message n = Some "Failed to send notification").

(** [a] is not created after [b], in the order of the sweep's query. *)
Definition created_before (a b : Notification) : Prop :=
  created_le (n_created_at a) (n_created_at b) = true.

(** Every object of the session has an id, and none has id [i]. *)
Definition away_from (i : Z) (w : World) : Prop :=
  Forall (λ o, is_Some (n_id o) ∧ n_id o ≠ Some i) (session w).

(** The session holds no object with id [i] and keeps none, and the row
    with id [i] is left as it is. *)
Definition spares (i : Z) (w w' : World) : Prop :=
  away_from i w → away_from i w' ∧ row i w' = row i w.

(** A record has no usable e-mail preference: every preference of its
    user for the "email" channel has no address. *)
Definition no_address (n : Notification) (w : World) : Prop :=
  ∀ u p, n_user_id n = Some u → p ∈ notification_preferences w →
         p_user_id p = u → p_channel p = "email" → str_truthy (p_email p) = false.

(** A record as [mark_notification_read] leaves it when called at time
    [t]. *)
Definition stamp_read (t : Z) (n : Notification) : Notification :=
  with_updated_at (Some t) (with_read_at (Some t) n).

(** ** Relations between the world before and after a computation *)

(** [frame R m]: whatever its outcome, [m] takes a world to one related to
    it by [R]. *)
Definition frame (R : World → World → Prop) {A} (m : M A) : Prop :=
  ∀ w, R w (snd (m w)).

(** What makes [R] go through the primitive steps: it is a preorder, and
    it relates a world to the one after an event allowed by [ok_event], after
    an answer of a collaborator, after an attribute update allowed by
    [ok_update] and after a flush. *)
Record framing (R : World → World → Prop) (ok_event : Event → Prop)
    (ok_update : (Notification → Notification) → Prop) : Prop := {
  fr_refl : ∀ w, R w w;
  fr_trans : ∀ a b c, R a b → R b c → R a c;
  fr_emit : ∀ e w, ok_event e → R w (set_trace (e :: trace w) w);
  fr_faults : ∀ fs w, R w (set_faults fs w);
  fr_setattr : ∀ f r w, ok_update f → R w (set_session (alter f r (session w)) w);
  fr_flush : ∀ w, R w (flush w)
}.

(** The events selected by [f] are the same in both worlds. *)
Definition same {X} (f : Event → option X) (w w' : World) : Prop :=
  omap f (trace w') = omap f (trace w).

(** The part [f] of the world is the same in both worlds. *)
Definition fixes {X} (f : World → X) (w w' : World) : Prop := f w' = f w.

(** The trace has grown, by events that all satisfy [ok]. *)
Definition grows (ok : Event → Prop) (w w' : World) : Prop :=
  ∃ more, trace w' = more ++ trace w ∧ Forall ok more.

(** An event of the part of [send_notification] that follows the first
    assignment: a status is only set to "sent" or "failed", and nothing
    sleeps. *)
Definition settles (e : Event) : Prop :=
  match e with
  | EvStatus _ _ v => v = "sent" ∨ v = "failed"
  | EvSleep _ => False
  | _ => True
  end.

(** The object behind [r] is kept, with property [P]. *)
Definition keeps (r : nat) (P : Notification → Prop) (w w' : World) : Prop :=
  ∀ n, session w !! r = Some n → P n → ∃ n', session w' !! r = Some n' ∧ P n'.

(** [m] raises only when a collaborator does: a raise needs a refusal
    among the coming answers, and no step adds one. *)
Definition pays {A} (m : M A) : Prop :=
  ∀ w,
    match m w with
    | (Return _, w') => (fault_count (faults w') ≤ fault_count (faults w))%nat
    | (Raise _, w') =>
        (fault_count (faults w') ≤ fault_count (faults w))%nat ∧
        (0 < fault_count (faults w))%nat
    end.

(** When [m] raises, it is a commit that the store has refused, and the
    session is left deactivated. *)
Definition deactivates {A} (m : M A) : Prop :=
  ∀ w e w', m w = (Raise e, w') → deactivated w' = true.

(** ** Records and worlds of the scenarios *)

(** A stored record: id, user, channel, status, creation time. *)
Definition record (nid : Z) (user : option string) (chan stat : string)
    (created : Z) : Notification :=
  {| n_id := Some nid; n_user_id := user; n_type := "test"; n_channel := chan;
     n_subject := Some "Test Notification"; n_content := "This is a test";
     n_status := stat; n_error_message := None; n_data := None;
     n_created_at := Some created; n_updated_at := Some created;
     n_sent_at := None; n_read_at := None |}.

(** A record that was sent at time 7. *)
Definition sent_record : Notification :=
  with_sent_at (Some 7) (record 1 None "database" "sent" 5).

(** A pending e-mail record for user "u1". *)
Definition email_record : Notification :=
  record 1 (Some "u1") "email" "pending" 5.

(** A pending record for a channel the engine does not know. *)
Definition sms_record : Notification := record 1 (Some "u1") "sms" "pending" 5.

(** The default configuration at time 100, with the given table, the given
    objects in the session and the given faults to come. *)
Definition world_with (rows objs : list Notification)
    (fs : list (option string)) : World :=
  set_faults fs
    (set_session objs
       (set_notifications rows
          (set_next_id 10 (set_now 100 (boot default_settings))))).

(** The e-mail preference of user "u1", switched off. *)
Definition disabled_preference : NotificationPreference :=
  {| p_id := 1; p_user_id := "u1"; p_channel := "email"; p_enabled := false;
     p_email := Some "u1@example.com"; p_phone := None; p_webhook_url := None;
     p_settings := None |}.

(** A world where that preference is stored and the e-mail record of
    "u1" is in the session. *)
Definition disabled_world : World :=
  {| settings := default_settings;
     email_provider := EmailProvider_init default_settings;
     running := true; batch_size := 10; processing_interval := 30; now := 100;
     notifications := [email_record];
     notification_preferences := [disabled_preference];
     next_id := 10; session := [email_record]; faults := [];
     stop_requests := []; trace := [] |}.

(** A running engine with one pending record, a store that is down for
    the first query, and a [stop()] that comes during the second sleep. *)
Definition failing_sweep_world : World :=
  set_stop_requests [false; true]
    (set_running true
       (world_with [record 1 None "database" "pending" 5] []
          [Some "connection lost"])).

(** Three pending records created at [t1], [t2] and [t3], stored in the
    order 3, 1, 2, and an engine with a batch size of 2. *)
Definition three_pending (t1 t2 t3 : Z) : World :=
  {| settings := default_settings;
     email_provider := EmailProvider_init default_settings;
     running := true; batch_size := 2; processing_interval := 30; now := 100;
     notifications := [record 3 None "database" "pending" t3;
                       record 1 None "database" "pending" t1;
                       record 2 None "database" "pending" t2];
     notification_preferences := [];
     next_id := 10; session := []; faults := [];
     stop_requests := []; trace := [] |}.

(** The event of the low-stock scenario. *)
Definition low_stock_event : gmap string JVal :=
  <["type" := JStr "low_stock"]>
    (<["product_id" := JStr "P1"]>
       (<["product_name" := JStr "Widget"]>
          (<["current_quantity" := JInt 2]>
             (<["threshold" := JInt 5]> ∅)))).

(** ** More observations *)

(** The provider has a user name, a password and a sender address. *)
Definition configured (p : EmailProvider) : bool :=
  str_truthy (username p) && str_truthy (password p) && str_truthy (from_email p).

(** The next call into a collaborator raises. *)
Definition next_call_fails (w : World) : bool :=
  match faults w with
  | Some _ :: _ => true
  | _ => false
  end.

(** The character [c] does not occur in [s]. *)
Fixpoint lacks (c : ascii) (s : string) : bool :=
  match s with
  | EmptyString => true
  | String a s' => negb (Ascii.eqb a c) && lacks c s'
  end.

(** The plain text [send_email] makes of an HTML body. *)
Definition text_of_html (html_content : string) : string :=
  replace "</p>" newline
    (replace "<p>" newline
       (replace "<br/>" newline
          (replace "<br>" newline html_content))).

(** Settings with the SMTP account filled in. *)
Definition mail_settings : Settings :=
  {| NOTIFICATION_CHANNEL := "inventory:low-stock";
     SMTP_HOST := "sandbox.smtp.mailtrap.io";
     SMTP_PORT := 587;
     SMTP_USER := Some "mailer";
     SMTP_PASSWORD := Some "secret";
     EMAIL_FROM := Some "shop@example.com";
     EMAIL_FROM_NAME := "E-commerce Notifications";
     ADMIN_EMAIL := Some "admin@example.com";
     NOTIFICATION_BATCH_SIZE := 10;
     NOTIFICATION_PROCESSING_INTERVAL := 30 |}.

(** The event passes the check of [handle_low_stock_notification]: a
    product id that counts as true, and a quantity and a threshold that are
    not [None]. *)
Definition well_formed_event (data : gmap string JVal) : bool :=
  truthy (dict_get "product_id" data)
  && negb (is_None (dict_get "current_quantity" data))
  && negb (is_None (dict_get "threshold" data)).

(** The name the alert uses for the product. *)
Definition alert_name (data : gmap string JVal) : string :=
  py_str (dict_get_default "product_name" (dict_get "product_id" data) data).

(** A low-stock event with everything at zero but the product id. *)
Definition zero_stock_event : gmap string JVal :=
  <["type" := JStr "low_stock"]>
    (<["product_id" := JStr "P9"]>
       (<["current_quantity" := JInt 0]>
          (<["threshold" := JInt 0]> ∅))).

(** The object [record_outcome] leaves when called at time [t] with the
    result [success] of the channel block. *)
Definition settled (success : bool) (t : Z) (n : Notification) : Notification :=
  with_updated_at (Some t)
    (if success then with_sent_at (Some t) (with_status "sent" n)
     else with_error_message (Some "Failed to send notification")
            (with_status "failed" n)).

(** The object the [except] block leaves when called at time [t]. *)
Definition given_up (e : Exn) (t : Z) (n : Notification) : Notification :=
  with_updated_at (Some t)
    (with_error_message (Some (exn_str e)) (with_status "failed" n)).

(** The object the first block of [send_notification] leaves. *)
Definition taken_up (t : Z) (n : Notification) : Notification :=
  with_updated_at (Some t) (with_status "processing" n).

(** What [send_notification] is not meant to touch. *)
Definition same_identity (n0 n : Notification) : Prop :=
  n_id n = n_id n0 ∧ n_user_id n = n_user_id n0 ∧ n_type n = n_type n0 ∧
  n_channel n = n_channel n0 ∧ n_subject n = n_subject n0 ∧
  n_content n = n_content n0 ∧ n_data n = n_data n0 ∧
  n_created_at n = n_created_at n0 ∧ n_read_at n = n_read_at n0.

(** The parts of the world the blocks of [send_notification] read and do
    not write. *)
Definition same_setting (w w' : World) : Prop :=
  now w' = now w ∧ notification_preferences w' = notification_preferences w ∧
  email_provider w' = email_provider w.

(** A world with a configured provider, the e-mail preference of "u1", the
    e-mail record of "u1" both stored and in the session, and the given
    faults to come. *)
Definition mail_world (fs : list (option string)) : World :=
  {| settings := mail_settings;
     email_provider := EmailProvider_init mail_settings;
     running := true; batch_size := 10; processing_interval := 30; now := 100;
     notifications := [email_record];
     notification_preferences := [disabled_preference];
     next_id := 10; session := [email_record]; faults := fs;
     stop_requests := []; trace := [] |}.

(** The outcome of the next call into a collaborator. *)
Definition next_call (fs : list (option string)) : Outcome unit :=
  match fs with
  | Some text :: _ => Raise (Error text)
  | _ => Return tt
  end.

(** What is to come after that call, made to collaborator [c]. *)
Definition answered (c : Collaborator) (fs : list (option string)) : list (option string) :=
  match fs with
  | Some text :: rest => refused c text rest
  | _ => tail fs
  end.

(** What the table of preferences is meant to keep unique: the primary
    key, and the pair of user and channel that [create_notification_preference]
    checks. *)
Definition pref_key (p : NotificationPreference) : string * string :=
  (p_user_id p, p_channel p).

Definition well_keyed (prefs : list NotificationPreference) : Prop :=
  NoDup (p_id <$> prefs) ∧ NoDup (pref_key <$> prefs).

(** The preference with a given id. *)
Definition preference (i : Z) (w : World) : option NotificationPreference :=
  List.find (fun p => Z.eqb (p_id p) i) (notification_preferences w).

(** A request for an e-mail preference of "u1", and a world that has the
    (switched off) preference of "u1" and the given faults to come. *)
Definition email_request : NotificationPreferenceCreate :=
  {| c_user_id := "u1"; c_channel := "email"; c_enabled := true;
     c_email := Some "other@example.com"; c_phone := None;
     c_webhook_url := None; c_settings := None |}.

Definition preference_world (fs : list (option string)) : World :=
  set_faults fs (set_notification_preferences [disabled_preference]
                   (boot default_settings)).

(** A request that switches a preference on and clears its address. *)
Definition switch_on : NotificationPreferenceUpdate :=
  {| u_enabled := Some (Some true); u_email := Some None; u_phone := None;
     u_webhook_url := None; u_settings := None |}.

(** [a] is not created before [b], in the order of [get_notifications]. *)
Definition newer_first (a b : Notification) : Prop :=
  created_le (n_created_at b) (n_created_at a) = true.

(** A record answers a [get_notifications] request: it belongs to the
    user, and it has the status and the type asked for, where the request
    gives one that is not empty. *)
Definition answers (user_id : string) (status type_ : option string)
    (n : Notification) : Prop :=
  n_user_id n = Some user_id ∧
  (∀ s, status = Some s → s ≠ "" → n_status n = s) ∧
  (∀ t, type_ = Some t → t ≠ "" → n_type n = t).

(** The record [send_test_notification] adds to the session. *)
Definition test_record (user_id channel : string) : Notification :=
  {| n_id := None; n_user_id := Some user_id;
     n_type := "test";
     n_channel := channel;
     n_subject := Some "Test Notification";
     n_content := "This is a test notification sent to verify your "
                  +:+ channel +:+ " notification preference.";
     n_status := "pending";
     n_error_message := None;
     n_data := Some (<["test" := JBool true]> ∅);
     n_created_at := None; n_updated_at := None;
     n_sent_at := None; n_read_at := None |}.

(** The objects of the session other than the one behind [r] that have an
    id are left as they are. *)
Definition others (r : nat) (w w' : World) : Prop :=
  ∀ r' n', r' ≠ r → session w !! r' = Some n' → is_Some (n_id n') →
           session w' !! r' = Some n'.

(** The record has been dealt with. *)
Definition dealt_with (n : Notification) : Prop :=
  n_status n = "sent" ∨ n_status n = "failed".

(** Every row has an id and no two rows have the same one. *)
Definition keyed (rows : list Notification) : Prop :=
  Forall (λ n, is_Some (n_id n)) rows ∧ NoDup (n_id <$> rows).

(** The objects of a session all have an id, and keep it. *)
Definition same_ids (w w' : World) : Prop :=
  Forall (λ n, is_Some (n_id n)) (session w) →
  n_id <$> session w' = n_id <$> session w.

(** A row that is in the table stays in it. *)
Definition stays (i : Z) (w w' : World) : Prop :=
  is_Some (row i w) → is_Some (row i w').

(** A status assignment along the path pending, processing, then sent or
    failed. *)
Definition on_path (t : option Z * string * string) : Prop :=
  match t with
  | (_, old, new) =>
      (old = "pending" ∧ new = "processing") ∨
      (old = "processing" ∧ (new = "sent" ∨ new = "failed"))
  end.

(** An answer the database may give to the query of [get_notifications]
    on the rows that pass its [WHERE] clauses: these rows in an order
    that is newest first, from the offset on and cut at the limit. SQL
    leaves the order of rows with the same [created_at] to the database. *)
Definition page_of (rows : list Notification) (skip limit : nat)
    (l : list Notification) : Prop :=
  ∃ all, all ≡ₚ rows ∧ StronglySorted newer_first all ∧ l = take limit (drop skip all).

(** * Properties *)

(** ** Running the monad by hand *)

Ltac unfold_m :=
  unfold mbind, M_bind, mret, M_ret, bind, ret, raise, try_except, emit, modify,
    get_world, utcnow, getattr, setattr in *.

Lemma bind_Return {A B} (m : M A) (k : A → M B) w a w1 :
  m w = (Return a, w1) → (m ≫= k) w = k a w1.
Proof. intros H. unfold mbind, M_bind, bind. now rewrite H. Qed.

Lemma bind_Raise {A B} (m : M A) (k : A → M B) w e w1 :
  m w = (Raise e, w1) → (m ≫= k) w = (Raise e, w1).
Proof. intros H. unfold mbind, M_bind, bind. now rewrite H. Qed.

Lemma bind_inv_Return {A B} (m : M A) (k : A → M B) w b w' :
  (m ≫= k) w = (Return b, w') →
  ∃ a w1, m w = (Return a, w1) ∧ k a w1 = (Return b, w').
Proof.
  unfold mbind, M_bind, bind. destruct (m w) as [[a|e] w1]; [eauto | discriminate].
Qed.

Lemma bind_inv_Raise {A B} (m : M A) (k : A → M B) w e w' :
  (m ≫= k) w = (Raise e, w') →
  m w = (Raise e, w') ∨ ∃ a w1, m w = (Return a, w1) ∧ k a w1 = (Raise e, w').
Proof.
  unfold mbind, M_bind, bind. destruct (m w) as [[a|e1] w1]; intros H.
  - right. exists a, w1. auto.
  - left. now inversion H.
Qed.

(** ** Frame rules

    The rules are proved once for every relation with [framing], and give
    what each block of [send_notification] and the sweep leave related. *)

Section Frames.
Variable R : World → World → Prop.
Variable ok_event : Event → Prop.
Variable ok_update : (Notification → Notification) → Prop.
Hypothesis HR : framing R ok_event ok_update.

Let R_refl := fr_refl _ _ _ HR.
Let R_trans := fr_trans _ _ _ HR.
Let R_emit := fr_emit _ _ _ HR.
Let R_faults := fr_faults _ _ _ HR.
Let R_setattr := fr_setattr _ _ _ HR.
Let R_flush := fr_flush _ _ _ HR.

Lemma frame_ret {A} (a : A) : frame R (mret a).
Proof. intros w. apply R_refl. Qed.

Lemma frame_bind {A B} (m : M A) (k : A → M B) :
  frame R m → (∀ a, frame R (k a)) → frame R (m ≫= k).
Proof.
  intros Hm Hk w. unfold mbind, M_bind, bind.
  specialize (Hm w). destruct (m w) as [[a|e] w1]; cbn in *; [|exact Hm].
  eapply R_trans; [exact Hm | apply Hk].
Qed.

Lemma frame_try {A} (body : M A) (handler : Exn → M A) :
  frame R body → (∀ e, frame R (handler e)) → frame R (try_except body handler).
Proof.
  intros Hm Hk w. unfold try_except.
  specialize (Hm w). destruct (body w) as [[a|e] w1]; cbn in *; [exact Hm|].
  eapply R_trans; [exact Hm | apply Hk].
Qed.

Lemma frame_get_world : frame R get_world.
Proof. intros w. apply R_refl. Qed.

Lemma frame_utcnow : frame R utcnow.
Proof. intros w. apply R_refl. Qed.

Lemma frame_getattr {A} (f : Notification → A) r : frame R (getattr f r).
Proof. intros w. apply R_refl. Qed.

Lemma frame_emit e : ok_event e → frame R (emit e).
Proof. intros H w. apply R_emit, H. Qed.

Lemma frame_setattr f r : ok_update f → frame R (setattr f r).
Proof. intros H w. apply R_setattr, H. Qed.

Lemma frame_call c : frame R (call c).
Proof.
  intros w. unfold call.
  destruct (faults w) as [|[t|] fs] eqn:E; cbn; eauto.
Qed.

Lemma frame_loaded : frame R loaded.
Proof. intros w. unfold loaded. destruct (deactivated w); apply R_refl. Qed.

Lemma frame_commit : frame R db_commit.
Proof.
  apply frame_bind; [apply frame_call|]. intros _ w. apply R_flush.
Qed.

Lemma frame_set_status v r :
  (∀ nid old, ok_event (EvStatus nid old v)) → ok_update (with_status v) →
  frame R (set_status v r).
Proof.
  intros He Hu. unfold set_status.
  repeat (apply frame_bind; [|intros ?]);
    auto using frame_getattr, frame_emit, frame_setattr.
Qed.

Ltac frames :=
  repeat first
    [ apply frame_ret | apply frame_utcnow | apply frame_get_world
    | apply frame_getattr | apply frame_commit | apply frame_call
    | apply frame_loaded
    | apply frame_set_status | apply frame_setattr | apply frame_emit
    | apply frame_bind; [|intros ?] ].

Lemma frame_first_preference u c : frame R (db_first_preference u c).
Proof. unfold db_first_preference. frames. Qed.

Lemma frame_send_email to subj html text cc bcc :
  ok_event (EvSendEmail to subj html) →
  (∀ m h p u pw, ok_event (EvSmtp m h p u pw)) →
  frame R (send_email to subj html text cc bcc).
Proof.
  intros H1 H2. unfold send_email, aiosmtplib_send.
  apply frame_bind; [auto using frame_emit|]. intros _.
  apply frame_bind; [apply frame_get_world|]. intros w.
  destruct (_ || _); [apply frame_ret|].
  apply frame_try; [|intros; apply frame_ret].
  frames; auto.
Qed.

Hypothesis ok_calls : ∀ a s h, ok_event (EvSendEmail a s h).
Hypothesis ok_smtp : ∀ m h p u pw, ok_event (EvSmtp m h p u pw).

Lemma frame_channel r : frame R (send_notification_channel r).
Proof.
  unfold send_notification_channel.
  apply frame_bind; [apply frame_getattr|]. intros c.
  destruct (String.eqb c "email").
  - apply frame_bind; [apply frame_getattr|]. intros u.
    destruct (str_truthy u); [|apply frame_ret].
    apply frame_bind; [apply frame_first_preference|]. intros [p|]; [|apply frame_ret].
    destruct (str_truthy (p_email p)); [|apply frame_ret].
    repeat (apply frame_bind; [apply frame_getattr|intros ?]).
    apply frame_send_email; auto.
  - destruct (String.eqb c "database"); apply frame_ret.
Qed.

Hypothesis ok_sent : ∀ nid old, ok_event (EvStatus nid old "sent").
Hypothesis ok_failed : ∀ nid old, ok_event (EvStatus nid old "failed").
Hypothesis ok_with_status : ∀ v, ok_update (with_status v).
Hypothesis ok_with_updated_at : ∀ t, ok_update (with_updated_at t).
Hypothesis ok_with_sent_at : ∀ t, ok_update (with_sent_at t).
Hypothesis ok_with_error_message : ∀ t, ok_update (with_error_message t).

Lemma frame_record_outcome r b : frame R (record_outcome r b).
Proof.
  unfold record_outcome. destruct b; frames; auto.
Qed.

Lemma frame_except r e : frame R (send_notification_except r e).
Proof.
  unfold send_notification_except. frames; auto.
Qed.

(** What follows the first assignment of [mark_processing]. *)
Lemma frame_mark_processing_rest r :
  frame R (t ← utcnow; setattr (with_updated_at (Some t)) r;; db_commit).
Proof. frames; auto. Qed.

(** What follows the first assignment of the [try] block. *)
Lemma frame_try_rest r :
  frame R ((t ← utcnow; setattr (with_updated_at (Some t)) r;; db_commit);;
           success ← send_notification_channel r;
           record_outcome r success).
Proof.
  apply frame_bind; [apply frame_mark_processing_rest|]. intros _.
  apply frame_bind; [apply frame_channel|]. intros b.
  apply frame_record_outcome.
Qed.

(** Relations that the first assignment of the [try] block respects
    too. *)
Hypothesis ok_start : ∀ nid old, ok_event (EvStatus nid old "processing").

Lemma frame_mark_processing r : frame R (mark_processing r).
Proof. unfold mark_processing. frames; auto. Qed.

Lemma frame_send_notification_try r : frame R (send_notification_try r).
Proof.
  unfold send_notification_try.
  apply frame_bind; [apply frame_mark_processing|]. intros _.
  apply frame_bind; [apply frame_channel|]. intros b.
  apply frame_record_outcome.
Qed.

Lemma frame_send_notification r : frame R (send_notification r).
Proof.
  apply frame_try; [apply frame_send_notification_try | apply frame_except].
Qed.

Lemma frame_for_each {A} (f : A → M unit) l :
  (∀ a, frame R (f a)) → frame R (for_each f l).
Proof.
  intros Hf. induction l as [|a l IH]; cbn; [apply frame_ret|].
  apply frame_bind; auto.
Qed.

(** Relations that do not look at the session. *)
Hypothesis R_session : ∀ s w, R w (set_session s w).

Lemma frame_with_session {A} (body : M A) :
  frame R body → frame R (with_session body).
Proof.
  intros Hb w. unfold with_session.
  specialize (Hb (set_session [] w)).
  destruct (body (set_session [] w)) as [o w1]; cbn in *.
  eapply R_trans; [apply (R_session [])|].
  eapply R_trans; [exact Hb|].
  eapply R_trans; [apply (R_session [])| apply R_faults].
Qed.

Lemma frame_select_pending limit : frame R (db_select_pending limit).
Proof.
  unfold db_select_pending.
  apply frame_bind; [apply frame_call|]. intros _.
  apply frame_bind; [apply frame_get_world|]. intros w.
  destruct (Z.ltb limit 0); [intros w'; apply R_refl|].
  apply frame_bind; [|intros; apply frame_ret].
  intros w'. apply R_session.
Qed.

Lemma frame_batch : frame R process_pending_batch.
Proof.
  unfold process_pending_batch. apply frame_with_session.
  apply frame_bind; [apply frame_get_world|]. intros w.
  apply frame_bind; [apply frame_select_pending|]. intros refs.
  apply frame_bind; [|intros; apply frame_commit].
  apply frame_for_each, frame_send_notification.
Qed.
End Frames.

(** *** Instances *)

Lemma same_framing {X} (f : Event → option X) :
  framing (same f) (λ e, f e = None) (λ _, True).
Proof.
  split; unfold same; cbn; try congruence.
  intros e w ->. reflexivity.
Qed.

Lemma same_session {X} (f : Event → option X) s w : same f w (set_session s w).
Proof. reflexivity. Qed.

Lemma lookup_flush_session l t k r n :
  l !! r = Some n →
  flush_session l t k !! r = Some n ∨
  n_id n = None ∧ ∃ k', flush_session l t k !! r = Some (inserted k' t n).
Proof.
  revert k r. induction l as [|o l IH]; intros k r H; [discriminate|].
  destruct r as [|r]; cbn in *.
  - injection H as ->. destruct (n_id n) eqn:E; cbn; eauto.
  - destruct (n_id o); cbn; eauto.
Qed.

(** A property of an object is kept when the attribute updates keep it and
    an insert (of an object without id) keeps it. *)
Lemma keeps_framing r (P : Notification → Prop) :
  (∀ k t n, n_id n = None → P n → P (inserted k t n)) →
  framing (keeps r P) (λ _, True) (λ f, ∀ n, P n → P (f n)).
Proof.
  intros HP. split; unfold keeps; cbn; eauto.
  - intros a b c Hab Hbc n Hn Pn.
    destruct (Hab n Hn Pn) as (n' & Hn' & Pn'). eauto.
  - intros f r' w Hf n Hn Pn.
    destruct (decide (r' = r)) as [->|Hne].
    + rewrite list_lookup_alter_eq, Hn. cbn. eauto.
    + rewrite list_lookup_alter_ne by done. eauto.
  - intros w n Hn Pn.
    destruct (lookup_flush_session _ (now w) (next_id w) _ _ Hn) as [H|[Hid [k' H]]];
      rewrite H; eauto.
Qed.

(** ** The channel sender *)

(** [send_email] returns a boolean whatever happens, and the call is in the
    trace; the tables and the session are not touched. *)
Lemma send_email_returns to subj html text cc bcc w :
  ∃ b w', send_email to subj html text cc bcc w = (Return b, w') ∧
    email_calls (trace w') = (to, subj, html) :: email_calls (trace w) ∧
    notifications w' = notifications w ∧ session w' = session w.
Proof.
  unfold send_email, aiosmtplib_send, call. unfold_m. cbn.
  destruct (_ || _); cbn; [eauto 10|].
  destruct (faults w) as [|[t|] fs]; cbn; eauto 10.
Qed.

(** C9. When the user name, the password or the sender address of the
    provider is unset (or empty), [send_email] returns [False] without
    raising, for every recipient, subject, body and optional argument; the
    SMTP client is not called (no message is handed to it and none of the
    coming faults is consumed). *)
Theorem send_email_unconfigured w to subj html text cc bcc :
  str_truthy (username (email_provider w)) = false ∨
  str_truthy (password (email_provider w)) = false ∨
  str_truthy (from_email (email_provider w)) = false →
  ∃ w', send_email to subj html text cc bcc w = (Return false, w') ∧
    smtp_sends (trace w') = smtp_sends (trace w) ∧
    faults w' = faults w.
Proof.
  intros H. exists (set_trace (EvSendEmail to subj html :: trace w) w).
  unfold send_email. unfold_m. cbn.
  destruct H as [-> | [-> | ->]]; cbn; rewrite ?orb_true_r; auto.
Qed.

Lemma send_email_unconfigured_witness :
  str_truthy (username (email_provider (boot default_settings))) = false ∧
  ∃ w', send_email "ops@example.com" (Some "Hello") "<p>Hi</p>" None None None
          (boot default_settings) = (Return false, w') ∧
    smtp_sends (trace w') = smtp_sends (trace (boot default_settings)) ∧
    faults w' = faults (boot default_settings).
Proof.
  split; [reflexivity|].
  apply (send_email_unconfigured (boot default_settings)). left. reflexivity.
Defined.

(** ** Events from the bus *)

(** C7. A low-stock event that lacks [product_id], [current_quantity] or
    [threshold] is dropped: the handler returns with the world as it was,
    so no notification is stored and [send_email] is not called. *)
Theorem low_stock_missing_field data w :
  data !! "product_id" = None ∨ data !! "current_quantity" = None ∨
  data !! "threshold" = None →
  handle_low_stock_notification data w = (Return tt, w) ∧
  notifications (snd (handle_low_stock_notification data w)) = notifications w ∧
  email_calls (trace (snd (handle_low_stock_notification data w)))
  = email_calls (trace w).
Proof.
  intros H.
  assert (handle_low_stock_notification data w = (Return tt, w)) as E.
  { unfold handle_low_stock_notification, dict_get.
    destruct H as [-> | [-> | ->]]; cbn; rewrite ?orb_true_r; reflexivity. }
  rewrite E. auto.
Qed.

Lemma low_stock_missing_field_witness :
  delete "current_quantity" low_stock_event !! "current_quantity" = None ∧
  handle_low_stock_notification (delete "current_quantity" low_stock_event)
    (boot default_settings) = (Return tt, boot default_settings).
Proof.
  split; [reflexivity|].
  apply (low_stock_missing_field (delete "current_quantity" low_stock_event)
           (boot default_settings)).
  right. left. reflexivity.
Defined.

Lemma low_stock_fields :
  dict_get "product_id" low_stock_event = JStr "P1" ∧
  dict_get_default "product_name" (JStr "P1") low_stock_event = JStr "Widget" ∧
  dict_get "current_quantity" low_stock_event = JInt 2 ∧
  dict_get "threshold" low_stock_event = JInt 5.
Proof. vm_compute. auto. Qed.

(** Adding one object in a session of its own, committing and refreshing
    it, as [handle_low_stock_notification] does: one row is appended. *)
Lemma insert_new_object o w :
  n_id o = None → quiet 2 (faults w) = true →
  ∃ w1,
    with_session (r ← db_add o; db_commit;; db_refresh r) w = (Return tt, w1) ∧
    notifications w1 = notifications w ++ [inserted (next_id w) (now w) o] ∧
    trace w1 = trace w ∧ settings w1 = settings w.
Proof.
  intros Hid Hq.
  unfold with_session, db_add, db_commit, db_refresh, call, flush. unfold_m. cbn.
  destruct (faults w) as [|[t|] [|[t'|] fs]] eqn:E; try discriminate;
    cbn; rewrite Hid; cbn; rewrite ?E; cbn;
    repeat match goal with |- context [List.find ?f ?l] => destruct (List.find f l) end;
    cbn; eauto.
Qed.

(** C3. With an administrator address configured and a store that accepts
    the insert (the commit and the refresh do not raise), handling the
    low-stock event of the scenario appends exactly one row, with channel
    "database", status "pending", a subject containing "Widget" and the
    event as its data, and calls [send_email] exactly once, for the
    administrator address. The preference table of the world is arbitrary
    and is not read. *)
Theorem low_stock_event_handled w admin :
  ADMIN_EMAIL (settings w) = Some admin → admin ≠ "" →
  quiet 2 (faults w) = true →
  ∃ w' rec html,
    handle_low_stock_notification low_stock_event w = (Return tt, w') ∧
    notifications w' = notifications w ++ [rec] ∧
    n_channel rec = "database" ∧ n_status rec = "pending" ∧
    (∃ s, n_subject rec = Some s ∧ contains "Widget" s = true) ∧
    n_data rec = Some low_stock_event ∧
    email_calls (trace w')
    = (admin, Some "Low Stock Alert: Widget", html) :: email_calls (trace w).
Proof.
  intros Hadmin Hne Hq.
  unfold handle_low_stock_notification.
  destruct low_stock_fields as (-> & -> & -> & ->).
  cbn [truthy is_None negb orb String.eqb py_str].
  match goal with |- context [db_add ?o] =>
    destruct (insert_new_object o w eq_refl Hq) as (w1 & E1 & Hrows & Htr & Hset) end.
  rewrite (bind_Return _ _ _ _ _ E1).
  unfold mbind at 1, M_bind at 1, bind at 1, get_world at 1.
  rewrite Hset, Hadmin.
  assert (str_truthy (Some admin) = true) as ->.
  { cbn. destruct admin; [congruence | reflexivity]. }
  cbn [opt_str].
  match goal with |- context [send_email ?a ?b ?c ?d ?e ?f] =>
    destruct (send_email_returns a b c d e f w1) as (b' & w2 & E2 & Hcalls & Hn2 & _) end.
  rewrite (bind_Return _ _ _ _ _ E2).
  eexists w2, _, _. split; [reflexivity|].
  split; [rewrite Hn2; exact Hrows|].
  cbn. repeat split.
  - eexists; split; [reflexivity|]. vm_compute. reflexivity.
  - rewrite Hcalls, Htr. reflexivity.
Qed.

Lemma low_stock_event_handled_witness :
  ADMIN_EMAIL (settings (boot default_settings)) = Some "admin@example.com" ∧
  "admin@example.com" ≠ "" ∧
  quiet 2 (faults (boot default_settings)) = true ∧
  ∃ w' rec html,
    handle_low_stock_notification low_stock_event (boot default_settings)
    = (Return tt, w') ∧
    notifications w' = notifications (boot default_settings) ++ [rec] ∧
    n_channel rec = "database" ∧ n_status rec = "pending" ∧
    (∃ s, n_subject rec = Some s ∧ contains "Widget" s = true) ∧
    n_data rec = Some low_stock_event ∧
    email_calls (trace w')
    = ("admin@example.com", Some "Low Stock Alert: Widget", html)
        :: email_calls (trace (boot default_settings)).
Proof.
  assert ("admin@example.com" ≠ "") as Hne by discriminate.
  split; [reflexivity|]. split; [exact Hne|]. split; [reflexivity|].
  apply (low_stock_event_handled (boot default_settings) "admin@example.com");
    [reflexivity | exact Hne | reflexivity].
Defined.
(** ** Raising costs a fault *)

Lemma pays_quiet {A} (m : M A) :
  (∀ w, ∃ a w', m w = (Return a, w') ∧ faults w' = faults w) → pays m.
Proof. intros H w. destruct (H w) as (a & w' & -> & E). rewrite E. lia. Qed.

Lemma pays_bind {A B} (m : M A) (k : A → M B) :
  pays m → (∀ a, pays (k a)) → pays (m ≫= k).
Proof.
  intros Hm Hk w. unfold mbind, M_bind, bind.
  specialize (Hm w). destruct (m w) as [[a|e] w1]; [|exact Hm].
  specialize (Hk a w1). destruct (k a w1) as [[b|e] w2]; lia.
Qed.

Lemma pays_try {A} (body : M A) (handler : Exn → M A) :
  pays body → (∀ e, pays (handler e)) → pays (try_except body handler).
Proof.
  intros Hm Hk w. unfold try_except.
  specialize (Hm w). destruct (body w) as [[a|e] w1]; [exact Hm|].
  specialize (Hk e w1). destruct (handler e w1) as [[b|e'] w2]; lia.
Qed.

Lemma pays_call c : pays (call c).
Proof.
  intros w. unfold call.
  destruct (faults w) as [|[t|] fs] eqn:E; cbn; rewrite ?E;
    destruct c; cbn; try destruct (String.eqb t rolled_back);
    unfold fault_count; cbn; lia.
Qed.

Lemma pays_loaded : pays loaded.
Proof.
  intros w. unfold loaded, deactivated.
  destruct (faults w) as [|[t|] fs] eqn:E; cbn; rewrite ?E; [lia | | lia].
  destruct (String.eqb t rolled_back); cbn; rewrite ?E; unfold fault_count; cbn; lia.
Qed.

Ltac quiet_step := apply pays_quiet; intros ?; unfold_m; cbn; eauto.

Lemma pays_commit : pays db_commit.
Proof. apply pays_bind; [apply pays_call|]. intros _. quiet_step. Qed.

Lemma pays_set_status v r : pays (set_status v r).
Proof. unfold set_status. quiet_step. Qed.

Ltac pays_auto :=
  repeat first
    [ apply pays_commit | apply pays_call | apply pays_loaded
    | apply pays_set_status
    | apply pays_bind; [|intros ?]
    | quiet_step ].

Lemma pays_mark_processing r : pays (mark_processing r).
Proof. unfold mark_processing. pays_auto. Qed.

Lemma pays_send_email to subj html text cc bcc :
  pays (send_email to subj html text cc bcc).
Proof.
  unfold send_email, aiosmtplib_send.
  apply pays_bind; [quiet_step|]. intros _.
  apply pays_bind; [quiet_step|]. intros w.
  destruct (_ || _); [quiet_step|].
  apply pays_try; [|intros; quiet_step]. pays_auto.
Qed.

Lemma pays_channel r : pays (send_notification_channel r).
Proof.
  unfold send_notification_channel.
  apply pays_bind; [quiet_step|]. intros c.
  destruct (String.eqb c "email"); [|destruct (String.eqb c "database"); quiet_step].
  apply pays_bind; [quiet_step|]. intros u.
  destruct (str_truthy u); [|quiet_step].
  apply pays_bind; [unfold db_first_preference; pays_auto|].
  intros [p|]; [|quiet_step].
  destruct (str_truthy (p_email p)); [|quiet_step].
  do 2 (apply pays_bind; [quiet_step|intros ?]).
  apply pays_send_email.
Qed.

Lemma pays_record_outcome r b : pays (record_outcome r b).
Proof. unfold record_outcome. destruct b; pays_auto. Qed.

Lemma pays_try_block r : pays (send_notification_try r).
Proof.
  unfold send_notification_try.
  apply pays_bind; [apply pays_mark_processing|]. intros _.
  apply pays_bind; [apply pays_channel|]. intros b.
  apply pays_record_outcome.
Qed.

Lemma pays_except r e : pays (send_notification_except r e).
Proof. unfold send_notification_except. pays_auto. Qed.

(** ** A refused commit deactivates the session *)

Lemma deactivates_bind {A B} (m : M A) (k : A → M B) :
  deactivates m → (∀ a, deactivates (k a)) → deactivates (m ≫= k).
Proof.
  intros Hm Hk w e w'. unfold mbind, M_bind, bind.
  destruct (m w) as [[a|e1] w1] eqn:E.
  - apply Hk.
  - intros [= <- <-]. eapply Hm, E.
Qed.

Lemma deactivates_returns {A} (m : M A) :
  (∀ w, ∃ a w', m w = (Return a, w')) → deactivates m.
Proof. intros H w e w' E. destruct (H w) as (a & w1 & E1). congruence. Qed.

Lemma deactivates_commit : deactivates db_commit.
Proof.
  apply deactivates_bind; [|intros _; apply deactivates_returns; intros w; unfold_m; eauto].
  intros w e w'. unfold call.
  destruct (faults w) as [|[t|] fs]; intros [= <- <-]. reflexivity.
Qed.

Lemma deactivated_refused w rest : faults w = Some rolled_back :: rest → deactivated w = true.
Proof. intros H. unfold deactivated. rewrite H. reflexivity. Qed.

(** In a deactivated session the [except] block raises at its first
    line, and writes nothing. *)
Lemma except_deactivated r e w :
  deactivated w = true → send_notification_except r e w = (Raise (Error rolled_back), w).
Proof.
  intros H. unfold send_notification_except.
  unfold mbind at 1, M_bind at 1, bind at 1, loaded. rewrite H. reflexivity.
Qed.

Lemma loaded_run w : deactivated w = false → loaded w = (Return tt, w).
Proof. intros H. unfold loaded. rewrite H. reflexivity. Qed.

(** ** What [send_notification] leaves in the object *)

Lemma set_status_run v r w :
  set_status v r w
  = (Return tt,
     set_session (alter (with_status v) r (session w))
       (set_trace (EvStatus (n_id (object r w)) (n_status (object r w)) v :: trace w) w)).
Proof. reflexivity. Qed.

Lemma message_framing r n0 :
  framing (keeps r (same_message n0)) (λ _, True)
    (λ f, ∀ n, same_message n0 n → same_message n0 (f n)).
Proof. apply keeps_framing. intros k t n _ H. exact H. Qed.

Lemma message_try r n0 : frame (keeps r (same_message n0)) (send_notification_try r).
Proof.
  eapply frame_send_notification_try; eauto using message_framing; cbn; auto.
Qed.

Lemma message_mark_processing r n0 :
  frame (keeps r (same_message n0)) (mark_processing r).
Proof.
  eapply frame_mark_processing; eauto using message_framing; cbn; auto.
Qed.

Lemma message_channel r n0 :
  frame (keeps r (same_message n0)) (send_notification_channel r).
Proof.
  eapply frame_channel; eauto using message_framing; cbn; auto.
Qed.

Lemma same_message_refl n : same_message n n.
Proof. repeat split. Qed.

(** After [record_outcome] the object says "sent" or "failed", whether or
    not the commit raised. *)
Lemma record_outcome_status r b w n :
  session w !! r = Some n →
  ∃ n', session (snd (record_outcome r b w)) !! r = Some n' ∧ outcome_recorded b n'.
Proof.
  intros Hn. unfold record_outcome.
  assert (framing (keeps r (outcome_recorded b)) (λ _, True)
            (λ f, ∀ n, outcome_recorded b n → outcome_recorded b (f n))) as HF.
  { apply keeps_framing. intros k t n1 _ H. exact H. }
  pose proof (frame_mark_processing_rest _ _ _ HF (λ t n1 H, H) r) as Htail.
  destruct b.
  - rewrite (bind_Return _ _ w tt
      (set_session (alter (with_sent_at (Some (now w))) r
                      (alter (with_status "sent") r (session w)))
         (set_trace (EvStatus (n_id (object r w)) (n_status (object r w)) "sent" :: trace w) w)))
      by reflexivity.
    eapply Htail; cbn.
    + rewrite !list_lookup_alter_eq, Hn. reflexivity.
    + split; [reflexivity | discriminate].
  - rewrite (bind_Return _ _ w tt
      (set_session (alter (with_error_message (Some "Failed to send notification")) r
                      (alter (with_status "failed") r (session w)))
         (set_trace (EvStatus (n_id (object r w)) (n_status (object r w)) "failed" :: trace w) w)))
      by reflexivity.
    eapply Htail; cbn.
    + rewrite !list_lookup_alter_eq, Hn. reflexivity.
    + split; reflexivity.
Qed.

(** A channel other than "email" and "database" is not delivered. *)
Lemma channel_unknown r w n :
  session w !! r = Some n → n_channel n ≠ "email" → n_channel n ≠ "database" →
  send_notification_channel r w = (Return false, w).
Proof.
  intros Hn H1 H2. unfold send_notification_channel. unfold_m. rewrite Hn. cbn.
  apply String.eqb_neq in H1, H2. rewrite H1, H2. reflexivity.
Qed.

(** The three blocks of a [try] block that returned. *)
Lemma try_inv r w w' :
  send_notification_try r w = (Return tt, w') →
  ∃ w1 b w2, mark_processing r w = (Return tt, w1) ∧
    send_notification_channel r w1 = (Return b, w2) ∧
    record_outcome r b w2 = (Return tt, w').
Proof.
  unfold send_notification_try. intros H.
  apply bind_inv_Return in H as ([] & w1 & E1 & H).
  apply bind_inv_Return in H as (b & w2 & E2 & H). eauto 10.
Qed.

(** *** The commits of the [try] block *)

Ltac returns_step := apply deactivates_returns; intros ?; unfold_m; eauto.

Lemma deactivates_set_status v r : deactivates (set_status v r).
Proof. apply deactivates_returns. intros w. rewrite set_status_run. eauto. Qed.

Lemma deactivates_tail r :
  deactivates (t ← utcnow; setattr (with_updated_at (Some t)) r;; db_commit).
Proof.
  apply deactivates_bind; [returns_step|]. intros t.
  apply deactivates_bind; [returns_step|]. intros _. apply deactivates_commit.
Qed.

Lemma deactivates_mark_processing r : deactivates (mark_processing r).
Proof.
  unfold mark_processing. apply deactivates_bind; [apply deactivates_set_status|].
  intros _. apply deactivates_tail.
Qed.

Lemma deactivates_record_outcome r b : deactivates (record_outcome r b).
Proof.
  unfold record_outcome. apply deactivates_bind; [|intros _; apply deactivates_tail].
  destruct b.
  - apply deactivates_bind; [apply deactivates_set_status|]. intros _.
    apply deactivates_bind; [returns_step | intros t; returns_step].
  - apply deactivates_bind; [apply deactivates_set_status|]. intros _. returns_step.
Qed.

(** When the [try] block leaves the session deactivated, the [except]
    block cannot make up for it: the call raises, with nothing written
    after the point of the failure. *)
Lemma send_notification_deactivated r w e w1 :
  send_notification_try r w = (Raise e, w1) → deactivated w1 = true →
  send_notification r w = (Raise (Error rolled_back), w1).
Proof.
  intros E Hd. unfold send_notification, try_except. rewrite E.
  apply except_deactivated, Hd.
Qed.

(** The blocks of a [try] block that raised. *)
Lemma try_inv_Raise r w e w' :
  send_notification_try r w = (Raise e, w') →
  mark_processing r w = (Raise e, w') ∨
  ∃ w1, mark_processing r w = (Return tt, w1) ∧
    (send_notification_channel r w1 = (Raise e, w') ∨
     ∃ b w2, send_notification_channel r w1 = (Return b, w2) ∧
             record_outcome r b w2 = (Raise e, w')).
Proof.
  unfold send_notification_try. intros H.
  apply bind_inv_Raise in H as [H | ([] & w1 & E1 & H)]; [auto|].
  right. exists w1. split; [exact E1|].
  apply bind_inv_Raise in H as [H | (b & w2 & E2 & H)]; eauto.
Qed.

(** After the [except] block the object says "failed", with the text of
    the exception. *)
Lemma except_status r e w n :
  deactivated w = false → session w !! r = Some n →
  ∃ n', session (snd (send_notification_except r e w)) !! r = Some n' ∧
        n_status n' = "failed" ∧ n_error_message n' = Some (exn_str e).
Proof.
  intros Hd Hn. unfold send_notification_except.
  rewrite (bind_Return _ _ w tt w (loaded_run w Hd)).
  set (P := λ n1, n_status n1 = "failed" ∧ n_error_message n1 = Some (exn_str e)).
  assert (framing (keeps r P) (λ _, True) (λ f, ∀ n, P n → P (f n))) as HF.
  { apply keeps_framing. intros k t n1 _ H. exact H. }
  pose proof (frame_mark_processing_rest _ _ _ HF (λ t n1 H, H) r) as Htail.
  rewrite (bind_Return _ _ w tt _ (set_status_run _ _ _)).
  rewrite (bind_Return _ _ _ tt
      (set_session (alter (with_error_message (Some (exn_str e))) r
                      (alter (with_status "failed") r (session w)))
         (set_trace (EvStatus (n_id (object r w)) (n_status (object r w)) "failed" :: trace w) w)))
      by reflexivity.
  eapply Htail; cbn.
  - rewrite !list_lookup_alter_eq, Hn. reflexivity.
  - split; reflexivity.
Qed.

(** A call that returns leaves the record dealt with: the [try] block has
    recorded the outcome of the channel block, or it has raised without
    deactivating the session (the store has refused the preference lookup)
    and the [except] block has recorded that. A record of a channel other
    than "email" and "database" is left "failed", with the fixed
    message. *)
Lemma send_notification_returned r w w' n :
  send_notification r w = (Return tt, w') → session w !! r = Some n →
  ∃ n', session w' !! r = Some n' ∧
    (n_status n' = "sent" ∨ n_status n' = "failed") ∧
    (n_channel n ≠ "email" → n_channel n ≠ "database" →
     n_status n' = "failed" ∧
     n_error_message n' = Some "Failed to send notification").
Proof.
  intros E Hn.
  pose proof (message_mark_processing r n w n Hn (same_message_refl n)) as (na & Ha & Hma).
  destruct (send_notification_try r w) as [[[]|e] w1] eqn:Et.
  - unfold send_notification, try_except in E. rewrite Et in E. injection E as ->.
    apply try_inv in Et as (wa & b & wb & E1 & E2 & E3).
    rewrite E1 in Ha; cbn in Ha.
    pose proof (message_channel r n wa na Ha Hma) as (nb & Hb & Hmb).
    rewrite E2 in Hb; cbn in Hb.
    destruct (record_outcome_status r b wb nb Hb) as (n' & Hn' & Hs & He).
    rewrite E3 in Hn'; cbn in Hn'.
    exists n'. split; [exact Hn'|]. split.
    + destruct b; auto.
    + intros H1 H2. destruct Hma as (Hc & _). rewrite <- Hc in H1, H2.
      rewrite (channel_unknown r wa na Ha H1 H2) in E2. injection E2 as <- <-.
      auto.
  - assert (deactivated w1 = false) as Hd.
    { destruct (deactivated w1) eqn:Hd; [|reflexivity].
      rewrite (send_notification_deactivated r w e w1 Et Hd) in E. discriminate. }
    pose proof (message_try r n w n Hn (same_message_refl n)) as (n1 & Hn1 & _).
    rewrite Et in Hn1; cbn in Hn1.
    destruct (except_status r e w1 n1 Hd Hn1) as (n' & Hn' & Hs & _).
    unfold send_notification, try_except in E. rewrite Et in E.
    rewrite E in Hn'; cbn in Hn'.
    exists n'. split; [exact Hn'|]. split; [auto|].
    intros H1 H2. exfalso.
    apply try_inv_Raise in Et as [E1 | (wa & E1 & [E2 | (b & wb & E2 & E3)])].
    + rewrite (deactivates_mark_processing r w e w1 E1) in Hd. discriminate.
    + rewrite E1 in Ha; cbn in Ha. destruct Hma as (Hc & _). rewrite <- Hc in H1, H2.
      rewrite (channel_unknown r wa na Ha H1 H2) in E2. discriminate.
    + rewrite (deactivates_record_outcome r b wb e w1 E3) in Hd. discriminate.
Qed.

Lemma grows_framing ok : framing (grows ok) ok (λ _, True).
Proof.
  split; unfold grows; cbn.
  - intros w. exists []. auto.
  - intros a b c (m1 & E1 & F1) (m2 & E2 & F2).
    exists (m2 ++ m1). rewrite E2, E1, app_assoc. split; [reflexivity|].
    apply Forall_app; auto.
  - intros e w H. exists [e]. auto.
  - intros. exists []. auto.
  - intros. exists []. auto.
  - intros. exists []. auto.
Qed.

Lemma try_after_start r w :
  send_notification_try r w
  = ((t ← utcnow; setattr (with_updated_at (Some t)) r;; db_commit);;
     success ← send_notification_channel r;
     record_outcome r success) (snd (set_status "processing" r w)).
Proof. reflexivity. Qed.

Lemma settles_rest r :
  frame (grows settles)
    ((t ← utcnow; setattr (with_updated_at (Some t)) r;; db_commit);;
     success ← send_notification_channel r;
     record_outcome r success).
Proof. eapply frame_try_rest; eauto using grows_framing; cbn; auto. Qed.

Lemma settles_except r e : frame (grows settles) (send_notification_except r e).
Proof. eapply frame_except; eauto using grows_framing; cbn; auto. Qed.

(** [send_notification] first notes the assignment of "processing", from
    whatever status the record had; what follows only settles. *)
Lemma send_notification_trace r w :
  ∃ later,
    trace (snd (send_notification r w))
    = later ++ EvStatus (n_id (object r w)) (n_status (object r w)) "processing" :: trace w
    ∧ Forall settles later.
Proof.
  unfold send_notification, try_except. rewrite try_after_start.
  set (w0 := snd (set_status "processing" r w)).
  pose proof (settles_rest r w0) as (m1 & E1 & F1).
  match type of E1 with context [snd (?m w0)] => destruct (m w0) as [[[]|e] w1] end;
    cbn in E1.
  - exists m1. auto.
  - pose proof (settles_except r e w1) as (m2 & E2 & F2).
    exists (m2 ++ m1). rewrite E2, E1, <- app_assoc. split; [reflexivity|].
    apply Forall_app; auto.
Qed.

Lemma Forall_insert_by_created (P : Notification → Prop) n l :
  P n → Forall P l → Forall P (insert_by_created n l).
Proof.
  intros Hn Hl. induction Hl as [|m l Hm Hl IH]; cbn; [auto|].
  destruct (created_le _ _); auto.
Qed.

Lemma Forall_order_by_created_at (P : Notification → Prop) l :
  Forall P l → Forall P (order_by_created_at l).
Proof.
  induction 1 as [|n l Hn Hl IH]; cbn; [constructor|].
  apply Forall_insert_by_created; assumption.
Qed.

Lemma select_pending_pending limit rows :
  Forall (λ n, n_status n = "pending") (select_pending limit rows).
Proof.
  unfold select_pending. apply Forall_take, Forall_order_by_created_at.
  apply Forall_forall. intros n Hin.
  apply list_elem_of_In, filter_In in Hin as [_ Hp]. apply String.eqb_eq, Hp.
Qed.

(** ** The e-mail branch *)

Lemma fixes_framing {X} (f : World → X) :
  (∀ t w, f (set_trace t w) = f w) → (∀ fs w, f (set_faults fs w) = f w) →
  (∀ s w, f (set_session s w) = f w) → (∀ w, f (flush w) = f w) →
  framing (fixes f) (λ _, True) (λ _, True).
Proof. intros H1 H2 H3 H4. split; unfold fixes; intros; congruence. Qed.

Lemma preferences_framing :
  framing (fixes notification_preferences) (λ _, True) (λ _, True).
Proof. apply fixes_framing; reflexivity. Qed.

Lemma preferences_mark_processing r :
  frame (fixes notification_preferences) (mark_processing r).
Proof. eapply frame_mark_processing; eauto using preferences_framing; cbn; auto. Qed.

Lemma calls_mark_processing {X} (f : Event → option X) r :
  (∀ nid old v, f (EvStatus nid old v) = None) → frame (same f) (mark_processing r).
Proof. intros. eapply frame_mark_processing; eauto using same_framing; cbn; auto. Qed.

Lemma calls_record_outcome {X} (f : Event → option X) r b :
  (∀ nid old v, f (EvStatus nid old v) = None) → frame (same f) (record_outcome r b).
Proof. intros. eapply frame_record_outcome; eauto using same_framing; cbn; auto. Qed.

Lemma calls_except {X} (f : Event → option X) r e :
  (∀ nid old v, f (EvStatus nid old v) = None) →
  frame (same f) (send_notification_except r e).
Proof. intros. eapply frame_except; eauto using same_framing; cbn; auto. Qed.

Lemma quiet_S k fs : quiet (S k) fs = true → quiet k fs = true.
Proof.
  revert fs. induction k as [|k IH]; intros fs H; [reflexivity|].
  destruct fs as [|[t|] fs]; cbn in *; auto; discriminate.
Qed.

Lemma quiet_nil k : quiet k [] = true.
Proof. destruct k; reflexivity. Qed.

Lemma next_call_quiet fs : quiet 1 fs = true → next_call fs = Return tt.
Proof. destruct fs as [|[t|] fs]; cbn; auto. discriminate. Qed.

Lemma release_quiet fs : quiet 1 fs = true → release fs = fs.
Proof. destruct fs as [|[t|] fs]; cbn; auto. discriminate. Qed.

Lemma answered_quiet c fs : quiet 1 fs = true → answered c fs = tail fs.
Proof. destruct fs as [|[t|] fs]; cbn; auto. discriminate. Qed.

Lemma call_next c w :
  call c w = (next_call (faults w), set_faults (answered c (faults w)) w).
Proof.
  unfold call. destruct w as [a b c0 d e f g h i j fs l t]. cbn.
  destruct fs as [|[t'|] fs]; reflexivity.
Qed.

Lemma call_tail c w :
  quiet 1 (faults w) = true → call c w = (Return tt, set_faults (tail (faults w)) w).
Proof.
  intros H. rewrite call_next, (next_call_quiet _ H), (answered_quiet c _ H). reflexivity.
Qed.

Lemma call_quiet c k w :
  quiet (S k) (faults w) = true →
  ∃ fs, call c w = (Return tt, set_faults fs w) ∧ quiet k fs = true.
Proof.
  unfold call. destruct w as [a b c0 d e f g h i j fs l t]. cbn.
  destruct fs as [|[t'|] fs]; cbn; intros H; try discriminate.
  - exists []. split; [reflexivity | apply quiet_nil].
  - exists fs. auto.
Qed.

Lemma commit_quiet k w :
  quiet (S k) (faults w) = true →
  ∃ fs, db_commit w = (Return tt, flush (set_faults fs w)) ∧ quiet k fs = true.
Proof.
  intros H. destruct (call_quiet Commit k w H) as (fs & E & Hq).
  exists fs. split; [|exact Hq].
  unfold db_commit. rewrite (bind_Return _ _ _ _ _ E). reflexivity.
Qed.

Lemma mark_processing_quiet r k w :
  quiet (S k) (faults w) = true →
  ∃ w1, mark_processing r w = (Return tt, w1) ∧ quiet k (faults w1) = true.
Proof.
  intros H. unfold mark_processing.
  rewrite (bind_Return _ _ _ _ _ (set_status_run _ _ _)).
  unfold mbind at 1, M_bind at 1, bind at 1, utcnow at 1.
  unfold mbind at 1, M_bind at 1, bind at 1, setattr at 1, modify at 1.
  match goal with |- context [db_commit ?w0] =>
    destruct (commit_quiet k w0 H) as (fs & E & Hq); rewrite E end.
  eauto.
Qed.

Lemma record_outcome_quiet r b k w :
  quiet (S k) (faults w) = true →
  ∃ w1, record_outcome r b w = (Return tt, w1) ∧ quiet k (faults w1) = true.
Proof.
  intros H. unfold record_outcome. destruct b.
  - rewrite (bind_Return _ _ w tt
      (set_session (alter (with_sent_at (Some (now w))) r
                      (alter (with_status "sent") r (session w)))
         (set_trace (EvStatus (n_id (object r w)) (n_status (object r w)) "sent" :: trace w) w)))
      by reflexivity.
    unfold mbind at 1, M_bind at 1, bind at 1, utcnow at 1.
    unfold mbind at 1, M_bind at 1, bind at 1, setattr at 1, modify at 1.
    match goal with |- context [db_commit ?w0] =>
      destruct (commit_quiet k w0 H) as (fs & E & Hq); rewrite E end.
    eauto.
  - rewrite (bind_Return _ _ w tt
      (set_session (alter (with_error_message (Some "Failed to send notification")) r
                      (alter (with_status "failed") r (session w)))
         (set_trace (EvStatus (n_id (object r w)) (n_status (object r w)) "failed" :: trace w) w)))
      by reflexivity.
    unfold mbind at 1, M_bind at 1, bind at 1, utcnow at 1.
    unfold mbind at 1, M_bind at 1, bind at 1, setattr at 1, modify at 1.
    match goal with |- context [db_commit ?w0] =>
      destruct (commit_quiet k w0 H) as (fs & E & Hq); rewrite E end.
    eauto.
Qed.
(** Where a [try] block that returns has been: its three blocks returned,
    and the outcome of the channel block is recorded. *)
Lemma send_notification_cases r w w' n :
  session w !! r = Some n → send_notification_try r w = (Return tt, w') →
  ∃ n' wa na b wb,
    session w' !! r = Some n' ∧
    mark_processing r w = (Return tt, wa) ∧
    session wa !! r = Some na ∧ same_message n na ∧
    notification_preferences wa = notification_preferences w ∧
    send_notification_channel r wa = (Return b, wb) ∧
    record_outcome r b wb = (Return tt, w') ∧
    outcome_recorded b n'.
Proof.
  intros Hn E.
  apply try_inv in E as (wa & b & wb & E1 & E2 & E3).
  pose proof (message_mark_processing r n w n Hn (same_message_refl n)) as (na & Ha & Hma).
  pose proof (preferences_mark_processing r w) as Hp. unfold fixes in Hp.
  rewrite E1 in Ha, Hp; cbn in Ha, Hp.
  pose proof (message_channel r n wa na Ha Hma) as (nb & Hb & Hmb).
  rewrite E2 in Hb; cbn in Hb.
  destruct (record_outcome_status r b wb nb Hb) as (n' & Hn' & Hs).
  rewrite E3 in Hn'; cbn in Hn'.
  exists n', wa, na, b, wb. auto 10.
Qed.

(** Without a usable preference the channel block does not send: it gives
    [False] (or raises, when the lookup does) and adds nothing to the
    trace. *)
Lemma channel_no_preference r w n :
  session w !! r = Some n → n_channel n = "email" → no_address n w →
  ∃ o w1, send_notification_channel r w = (o, w1) ∧ trace w1 = trace w ∧
    (∀ b, o = Return b → b = false) ∧
    (∀ k, quiet (S k) (faults w) = true → o = Return false ∧ quiet k (faults w1) = true).
Proof.
  intros Hn Hc Hno.
  unfold send_notification_channel, db_first_preference, call. unfold_m.
  cbn. rewrite Hn. cbn. rewrite Hc. cbn. rewrite Hn. cbn.
  destruct (n_user_id n) as [u|] eqn:Hu; cbn.
  2:{ eexists _, _. split; [reflexivity|]. repeat split; auto using quiet_S.
      intros b [=]; auto. }
  destruct (negb (String.eqb u "")) eqn:Hne; cbn.
  2:{ eexists _, _. split; [reflexivity|]. repeat split; auto using quiet_S.
      intros b [=]; auto. }
  assert (∀ p, List.find (matches_preference u "email") (notification_preferences w) = Some p →
               str_truthy (p_email p) = false) as Hfind.
  { intros p F. apply find_some in F as [Hin Hm].
    apply andb_true_iff in Hm as [H1 H2].
    apply String.eqb_eq in H1, H2. apply (Hno u p); auto.
    apply list_elem_of_In, Hin. }
  destruct (faults w) as [|[t|] fs] eqn:E; cbn.
  - destruct (List.find _ _) as [p|] eqn:F; [rewrite (Hfind p eq_refl)|];
      eexists _, _; (split; [reflexivity|]); repeat split; auto;
      try (intros b [=]; auto); rewrite E; apply quiet_nil.
  - eexists _, _. split; [reflexivity|]. repeat split; auto; try discriminate.
  - destruct (List.find _ _) as [p|] eqn:F; [rewrite (Hfind p eq_refl)|];
      eexists _, _; (split; [reflexivity|]); repeat split; auto;
      intros b [=]; auto.
Qed.
Lemma no_address_same n na w wa :
  same_message n na → notification_preferences wa = notification_preferences w →
  no_address n w → no_address na wa.
Proof.
  intros (_ & Hu & _) Hp H u p Hu'. rewrite Hp. apply H. congruence.
Qed.

Lemma try_no_preference_same {X} (f : Event → option X) r w n :
  (∀ nid old v, f (EvStatus nid old v) = None) →
  session w !! r = Some n → n_channel n = "email" → no_address n w →
  same f w (snd (send_notification_try r w)).
Proof.
  intros Hf Hn Hc Hno. unfold send_notification_try.
  pose proof (calls_mark_processing f r Hf w) as F1.
  pose proof (message_mark_processing r n w n Hn (same_message_refl n)) as (na & Ha & Hma).
  pose proof (preferences_mark_processing r w) as Hp. unfold fixes in Hp.
  unfold mbind, M_bind, bind.
  destruct (mark_processing r w) as [[[]|e] wa] eqn:E1; cbn in *; [|exact F1].
  destruct (channel_no_preference r wa na Ha) as (o & wb & E2 & Ht & _).
  { destruct Hma as (-> & _). exact Hc. }
  { eapply no_address_same; eauto. }
  rewrite E2. unfold same in *.
  destruct o as [b|e]; cbn; [|congruence].
  pose proof (calls_record_outcome f r b Hf wb) as F3. unfold same in F3.
  destruct (record_outcome r b wb) as [o3 w3]; cbn in *. congruence.
Qed.

Lemma find_unique {A} (f : A → bool) (l : list A) (p : A) :
  p ∈ l → f p = true → (∀ q, q ∈ l → f q = true → q = p) → List.find f l = Some p.
Proof.
  intros Hin Hf Hu. destruct (List.find f l) as [q|] eqn:F.
  - apply find_some in F as [Hq Hfq]. f_equal. apply Hu; [apply list_elem_of_In, Hq | exact Hfq].
  - apply list_elem_of_In in Hin. pose proof (find_none _ _ F p Hin). congruence.
Qed.

Lemma str_truthy_Some s : s ≠ "" → str_truthy (Some s) = true.
Proof. destruct s; [congruence | reflexivity]. Qed.

(** With a preference that has an address, the channel block calls
    [send_email] for that address, with the subject and the content of the
    record. Nothing else of the preference is read. *)
Lemma channel_with_preference r w n u p a :
  session w !! r = Some n → n_channel n = "email" → n_user_id n = Some u → u ≠ "" →
  List.find (matches_preference u "email") (notification_preferences w) = Some p →
  p_email p = Some a → a ≠ "" → quiet 1 (faults w) = true →
  ∃ b w1, send_notification_channel r w = (Return b, w1) ∧
    email_calls (trace w1) = (a, n_subject n, n_content n) :: email_calls (trace w).
Proof.
  intros Hn Hc Hu Hne F Ha Hane Hq.
  unfold send_notification_channel, db_first_preference.
  destruct (call_quiet Statement 0 w Hq) as (fs & E & _).
  unfold mbind, M_bind, bind, getattr, get_world, mret, M_ret, ret. cbn.
  rewrite Hn. cbn. rewrite Hc. cbn. rewrite Hn. cbn. rewrite Hu.
  rewrite (str_truthy_Some u Hne). rewrite E. cbn. rewrite F, Ha.
  rewrite (str_truthy_Some a Hane). cbn. rewrite Hn. cbn.
  destruct (send_email_returns a (n_subject n) (n_content n) None None None
              (set_faults fs w)) as (b & w1 & E1 & Hcalls & _).
  rewrite E1. eauto.
Qed.

(** C10. The e-mail branch does not read the [enabled] flag: when the user
    of an "email" record has a preference for that channel with an address
    (the only one for that user and channel), and the first commit and the
    lookup do not raise, [send_email] is called for that address, with the
    subject and the content of the record, whatever [p_enabled] says. *)
Theorem email_ignores_enabled r w n u p a :
  session w !! r = Some n → n_channel n = "email" →
  n_user_id n = Some u → u ≠ "" →
  p ∈ notification_preferences w → p_user_id p = u → p_channel p = "email" →
  p_email p = Some a → a ≠ "" →
  (∀ q, q ∈ notification_preferences w →
        p_user_id q = u → p_channel q = "email" → q = p) →
  quiet 2 (faults w) = true →
  email_calls (trace (snd (send_notification r w)))
  = (a, n_subject n, n_content n) :: email_calls (trace w).
Proof.
  intros Hn Hc Hu Hne Hin Hpu Hpc Ha Hane Huniq Hq.
  destruct (mark_processing_quiet r 1 w Hq) as (wa & E1 & Hqa).
  pose proof (message_mark_processing r n w n Hn (same_message_refl n)) as (na & Hna & Hma).
  pose proof (preferences_mark_processing r w) as Hp. unfold fixes in Hp.
  pose proof (calls_mark_processing call_of r (λ _ _ _, eq_refl) w) as Hc1.
  unfold same in Hc1. rewrite E1 in Hna, Hp, Hc1; cbn in Hna, Hp, Hc1.
  destruct Hma as (Hmc & Hmu & Hms & Hmt).
  destruct (channel_with_preference r wa na u p a) as (b & wb & E2 & Hcalls); auto;
    try congruence.
  { rewrite Hp. apply find_unique; [exact Hin | |].
    - unfold matches_preference. rewrite Hpu, Hpc, !String.eqb_refl. reflexivity.
    - intros q Hq' Hm. apply andb_true_iff in Hm as [H1 H2].
      apply String.eqb_eq in H1, H2. auto. }
  unfold send_notification, try_except, send_notification_try.
  rewrite (bind_Return _ _ _ _ _ E1), (bind_Return _ _ _ _ _ E2).
  pose proof (calls_record_outcome call_of r b (λ _ _ _, eq_refl) wb) as Hc3.
  unfold same in Hc3.
  destruct (record_outcome r b wb) as [[[]|e] w3]; cbn in *.
  - unfold email_calls in *. congruence.
  - pose proof (calls_except call_of r e (λ _ _ _, eq_refl) w3) as Hc4.
    unfold same, email_calls in *. congruence.
Qed.

Lemma email_ignores_enabled_witness :
  p_enabled disabled_preference = false ∧
  email_calls (trace (snd (send_notification 0 disabled_world)))
  = [("u1@example.com", Some "Test Notification", "This is a test")].
Proof.
  split; [reflexivity|].
  assert ("u1" ≠ "") as H1 by discriminate.
  assert ("u1@example.com" ≠ "") as H2 by discriminate.
  refine (email_ignores_enabled 0 disabled_world email_record "u1" disabled_preference
            "u1@example.com" eq_refl eq_refl eq_refl H1 _ eq_refl eq_refl eq_refl H2 _ eq_refl).
  - vm_compute. left.
  - intros q Hq _ _. vm_compute in Hq. inversion Hq as [|? ? ? Hq']; [reflexivity | inversion Hq'].
Defined.
(** ** The read marker *)

Lemma row_id nid w n : row nid w = Some n → n_id n = Some nid.
Proof.
  unfold row. intros F. apply find_some in F as [_ H].
  apply bool_decide_eq_true in H. exact H.
Qed.

Lemma find_write_back nid o rows n :
  n_id o = Some nid →
  List.find (λ x, bool_decide (n_id x = Some nid)) rows = Some n →
  List.find (λ x, bool_decide (n_id x = Some nid)) (write_back o rows) = Some o.
Proof.
  intros Ho. induction rows as [|x rows IH]; cbn; [discriminate|].
  destruct (bool_decide (n_id x = Some nid)) eqn:Hx.
  - intros _. apply bool_decide_eq_true in Hx.
    rewrite decide_True by congruence. cbn.
    rewrite bool_decide_eq_true_2 by exact Ho. reflexivity.
  - intros F. apply bool_decide_eq_false in Hx.
    rewrite decide_False by congruence. cbn.
    rewrite bool_decide_eq_false_2 by exact Hx. auto.
Qed.

Lemma first_notification_run nid k w n :
  row nid w = Some n → quiet (S k) (faults w) = true →
  ∃ fs, db_first_notification nid w
        = (Return (Some (length (session w))),
           set_session (session w ++ [n]) (set_faults fs w)) ∧
        quiet k fs = true ∧ fs = tail (faults w).
Proof.
  intros Hrow Hq. unfold row in Hrow. unfold db_first_notification.
  unfold call, mbind, M_bind, bind, get_world, modify, mret, M_ret, ret.
  destruct w as [a b c d e f rows h i s fs l t]. cbn in *.
  destruct fs as [|[t'|] fs]; cbn in *; try discriminate; rewrite Hrow.
  - exists []. split; [reflexivity|]. split; [apply quiet_nil | reflexivity].
  - exists fs. repeat split; auto.
Qed.

Lemma refresh_run r k w o x :
  session w !! r = Some o →
  List.find (λ y, bool_decide (n_id y = n_id o)) (notifications w) = Some x →
  quiet (S k) (faults w) = true →
  ∃ fs, db_refresh r w
        = (Return tt, set_session (alter (λ _, x) r (session w)) (set_faults fs w)) ∧
        quiet k fs = true ∧ fs = tail (faults w).
Proof.
  intros Ho Hx Hq. unfold db_refresh.
  unfold call, mbind, M_bind, bind, get_world, getattr, setattr, modify, mret, M_ret, ret.
  destruct w as [a b c d e f rows h i s fs l t]. cbn in *.
  destruct fs as [|[t'|] fs]; cbn in *; try discriminate; rewrite Ho; cbn; rewrite Hx.
  - exists []. split; [reflexivity|]. split; [apply quiet_nil | reflexivity].
  - exists fs. repeat split; auto.
Qed.

Lemma commit_run k w :
  quiet (S k) (faults w) = true →
  ∃ fs, db_commit w = (Return tt, flush (set_faults fs w)) ∧ quiet k fs = true ∧
        fs = tail (faults w).
Proof.
  intros Hq. unfold db_commit, call, mbind, M_bind, bind, modify.
  destruct w as [a b c d e f rows h i s fs l t]. cbn in *.
  destruct fs as [|[t'|] fs]; cbn in *; try discriminate.
  - exists []. split; [reflexivity|]. split; [apply quiet_nil | reflexivity].
  - exists fs. repeat split; auto.
Qed.

(** What one call of the route does when the record exists and the store
    answers: the row is written back with both timestamps set to the time
    of the call. *)
Lemma mark_notification_read_run nid w n :
  row nid w = Some n → quiet 3 (faults w) = true →
  ∃ w', mark_notification_read nid w
        = (Return (stamp_read (now w) n), w') ∧
    notifications w' = write_back (stamp_read (now w) n) (notifications w) ∧
    now w' = now w ∧ faults w' = release (drop 3 (faults w)).
Proof.
  intros Hrow Hq. pose proof (row_id _ _ _ Hrow) as Hid.
  pose proof (find_write_back nid (stamp_read (now w) n) _ n Hid Hrow) as Hfind.
  unfold mark_notification_read, with_session.
  destruct (first_notification_run nid 2 (set_session [] w) n Hrow Hq) as (fs1 & E1 & Hq1 & T1).
  rewrite (bind_Return _ _ _ _ _ E1).
  unfold mbind at 1, M_bind at 1, bind at 1, utcnow at 1.
  unfold mbind at 1, M_bind at 1, bind at 1, setattr at 1, modify at 1.
  unfold mbind at 1, M_bind at 1, bind at 1, utcnow at 1.
  unfold mbind at 1, M_bind at 1, bind at 1, setattr at 1, modify at 1.
  cbn [session set_session set_faults now app length alter list_alter].
  match goal with |- context [(db_commit ≫= _) ?w0] =>
    destruct (commit_run 1 w0 Hq1) as (fs2 & E2 & Hq2 & T2); rewrite (bind_Return _ _ _ _ _ E2)
  end.
  match goal with |- context [(db_refresh 0%nat ≫= _) ?w0] =>
    destruct (refresh_run 0 0 w0 (stamp_read (now w) n) (stamp_read (now w) n))
      as (fs3 & E3 & _ & T3)
  end.
  { cbn. rewrite Hid. reflexivity. }
  { cbn -[write_back stamp_read].
    change (with_updated_at (Some (now w)) (with_read_at (Some (now w)) n))
      with (stamp_read (now w) n).
    change (n_id (stamp_read (now w) n)) with (n_id n). rewrite Hid.
    exact Hfind. }
  { cbn. exact Hq2. }
  rewrite (bind_Return _ _ _ _ _ E3). clear E1 E2 E3.
  unfold getattr.
  cbn -[write_back stamp_read] in *. rewrite Hid in *. cbn -[write_back stamp_read] in *.
  eexists. split; [reflexivity|].
  cbn -[write_back stamp_read]. rewrite ?Hid. cbn -[write_back stamp_read].
  split; [reflexivity|]. split; [reflexivity|].
  subst. destruct (faults w) as [|? [|? [|? ?]]]; reflexivity.
Qed.

Lemma quiet_drop a b fs : quiet (a + b) fs = true → quiet b (drop a fs) = true.
Proof.
  revert fs. induction a as [|a IH]; intros fs H; [exact H|].
  destruct fs as [|[t|] fs]; cbn in *; [apply quiet_nil | discriminate | auto].
Qed.

Lemma quiet_le a b fs : (a ≤ b)%nat → quiet b fs = true → quiet a fs = true.
Proof.
  induction 1 as [|b Hle IH]; [auto|]. intros H. apply IH, quiet_S, H.
Qed.

Lemma release_drop a b fs :
  (a < b)%nat → quiet b fs = true → release (drop a fs) = drop a fs.
Proof.
  intros Hlt H. apply release_quiet, (quiet_drop a 1).
  apply (quiet_le _ b); [lia | exact H].
Qed.

(** A second call, [d] seconds after the first, writes the row again:
    [read_at] and [updated_at] are now the time of the second call. *)
Lemma mark_read_second_call nid w n d :
  row nid w = Some n → quiet 6 (faults w) = true →
  row nid (snd (mark_notification_read nid w)) = Some (stamp_read (now w) n) ∧
  row nid (snd (mark_notification_read nid
                  (elapse d (snd (mark_notification_read nid w)))))
  = Some (stamp_read (now w + d) (stamp_read (now w) n)).
Proof.
  intros Hrow Hq.
  destruct (mark_notification_read_run nid w n Hrow) as (w1 & E1 & Hn1 & Ht1 & Hf1).
  { apply (quiet_le 3 6); [lia | exact Hq]. }
  rewrite E1. cbn [snd].
  assert (row nid w1 = Some (stamp_read (now w) n)) as Hrow1.
  { unfold row. rewrite Hn1. eapply find_write_back; [|exact Hrow].
    apply (row_id _ _ _ Hrow). }
  split; [exact Hrow1|].
  destruct (mark_notification_read_run nid (elapse d w1) (stamp_read (now w) n))
    as (w2 & E2 & Hn2 & _); [exact Hrow1 | |].
  { cbn. rewrite Hf1, (release_drop 3 6) by (lia || exact Hq).
    apply (quiet_drop 3 3), Hq. }
  rewrite E2. cbn [snd]. unfold row. rewrite Hn2. cbn [elapse now set_now].
  rewrite Ht1. eapply find_write_back; [|exact Hrow1].
  apply (row_id _ _ _ Hrow).
Qed.

(** The sibling route only updates rows that are still unread, so running
    its statement a second time changes nothing. *)
Lemma mark_rows_read_again u t1 t2 rows :
  mark_rows_read u t2 (mark_rows_read u t1 rows) = mark_rows_read u t1 rows.
Proof.
  unfold mark_rows_read. rewrite map_map. apply map_ext. intros n.
  destruct (is_unread_of u n) eqn:H.
  - unfold is_unread_of. cbn. rewrite andb_false_r. reflexivity.
  - rewrite H. reflexivity.
Qed.

(** C4, at a record that exists: the first call, at time 100, and a second
    call 50 seconds later both succeed, but the second one moves [read_at]
    and [updated_at] of the stored row from 100 to 150. *)
Theorem mark_read_twice_differs :
  fst (mark_notification_read 1 (world_with [sent_record] [] []))
  = Return (stamp_read 100 sent_record) ∧
  fst (mark_notification_read 1
         (elapse 50 (snd (mark_notification_read 1 (world_with [sent_record] [] [])))))
  = Return (stamp_read 150 (stamp_read 100 sent_record)) ∧
  row 1 (snd (mark_notification_read 1 (world_with [sent_record] [] [])))
  = Some (stamp_read 100 sent_record) ∧
  row 1 (snd (mark_notification_read 1
                (elapse 50 (snd (mark_notification_read 1
                                   (world_with [sent_record] [] []))))))
  = Some (stamp_read 150 sent_record) ∧
  stamp_read 150 sent_record ≠ stamp_read 100 sent_record.
Proof.
  repeat split; try (vm_compute; reflexivity). discriminate.
Qed.
(** ** The sweep loop *)

Lemma fixes_batch {X} (f : World → X) :
  (∀ t w, f (set_trace t w) = f w) → (∀ fs w, f (set_faults fs w) = f w) →
  (∀ s w, f (set_session s w) = f w) → (∀ w, f (flush w) = f w) →
  frame (fixes f) process_pending_batch.
Proof.
  intros H1 H2 H3 H4.
  eapply frame_batch; eauto using fixes_framing; cbn; auto.
Qed.

Lemma sleeps_batch : frame (same sleep_of) process_pending_batch.
Proof.
  eapply frame_batch; eauto using same_framing; cbn; auto.
  intros. apply same_session.
Qed.

(** The loop body never raises: an exception of the batch is caught, and
    the sleep that follows is the only one of the iteration. During the
    sleep the head of [stop_requests] is consumed. *)
Lemma iteration_run w :
  ∃ w', process_pending_iteration w = (Return tt, w') ∧
    sleeps (trace w') = processing_interval w :: sleeps (trace w) ∧
    stop_requests w' = tail (stop_requests w) ∧
    running w' = (if head (stop_requests w) is Some true then false else running w) ∧
    processing_interval w' = processing_interval w.
Proof.
  unfold process_pending_iteration, try_except.
  pose proof (sleeps_batch w) as Hs. unfold same in Hs.
  pose proof (fixes_batch processing_interval (λ _ _, eq_refl) (λ _ _, eq_refl)
                (λ _ _, eq_refl) (λ _, eq_refl) w) as Hi.
  pose proof (fixes_batch running (λ _ _, eq_refl) (λ _ _, eq_refl)
                (λ _ _, eq_refl) (λ _, eq_refl) w) as Hr.
  pose proof (fixes_batch stop_requests (λ _ _, eq_refl) (λ _ _, eq_refl)
                (λ _ _, eq_refl) (λ _, eq_refl) w) as Hq.
  unfold fixes in *.
  unfold mbind, M_bind, bind.
  destruct (process_pending_batch w) as [[[]|e] w1]; cbn [snd] in *;
    unfold asyncio_sleep, stop; unfold_m; cbn;
    rewrite Hi, Hq; destruct (stop_requests w) as [|[|] rest]; cbn;
    eexists; (split; [reflexivity|]); cbn; unfold sleeps in *; rewrite ?Hs, ?Hr; auto.
Qed.
Lemma loop_step k w :
  running w = true →
  process_pending_notifications (S k) w
  = process_pending_notifications k (snd (process_pending_iteration w)).
Proof.
  intros H. cbn. rewrite H. unfold mbind, M_bind, bind.
  destruct (iteration_run w) as (w' & E & _). rewrite E. reflexivity.
Qed.

Lemma loop_stopped k w :
  running w = false → process_pending_notifications (S k) w = (Return Finished, w).
Proof. intros H. cbn. rewrite H. reflexivity. Qed.

Lemma loop_never_raises fuel w :
  ∃ o w', process_pending_notifications fuel w = (Return o, w').
Proof.
  revert w. induction fuel as [|k IH]; intros w; [cbn; eauto|].
  destruct (running w) eqn:H.
  - rewrite (loop_step k w H). apply IH.
  - rewrite (loop_stopped k w H). eauto.
Qed.

Lemma loop_finished fuel w w' :
  process_pending_notifications fuel w = (Return Finished, w') → running w' = false.
Proof.
  revert w. induction fuel as [|k IH]; intros w; [discriminate|].
  destruct (running w) eqn:H.
  - rewrite (loop_step k w H). apply IH.
  - rewrite (loop_stopped k w H). intros [= <-]. exact H.
Qed.

Lemma loop_goes_on fuel w :
  running w = true → Forall (λ b, b = false) (stop_requests w) →
  ∃ w', process_pending_notifications fuel w = (Return StillRunning, w') ∧
    sleeps (trace w') = replicate fuel (processing_interval w) ++ sleeps (trace w).
Proof.
  revert w. induction fuel as [|k IH]; intros w Hr Hs; [cbn; eauto|].
  rewrite (loop_step k w Hr).
  destruct (iteration_run w) as (w1 & E & Hsl & Hst & Hrun & Hint). rewrite E. cbn [snd].
  destruct (IH w1) as (w' & E' & Hsl').
  - rewrite Hrun. destruct (stop_requests w) as [|[|] rest]; cbn; auto.
    inversion Hs; subst; discriminate.
  - rewrite Hst. destruct (stop_requests w); cbn; [constructor|].
    inversion Hs; auto.
  - exists w'. split; [exact E'|].
    rewrite Hsl', Hsl, Hint. cbn.
    change (processing_interval w :: sleeps (trace w))
      with ([processing_interval w] ++ sleeps (trace w)).
    rewrite app_assoc. f_equal.
    change [processing_interval w] with (replicate 1 (processing_interval w)).
    rewrite <- replicate_add. replace (k + 1)%nat with (S k) by lia. reflexivity.
Qed.

Lemma loop_until_stop k rest w fuel :
  running w = true → stop_requests w = replicate k false ++ true :: rest →
  (S k < fuel)%nat →
  ∃ w', process_pending_notifications fuel w = (Return Finished, w') ∧
    sleeps (trace w') = replicate (S k) (processing_interval w) ++ sleeps (trace w).
Proof.
  revert w fuel. induction k as [|k IH]; intros w fuel Hr Hs Hf.
  - destruct fuel as [|[|fuel]]; try lia.
    rewrite (loop_step _ w Hr).
    destruct (iteration_run w) as (w1 & E & Hsl & Hst & Hrun & Hint). rewrite E. cbn [snd].
    rewrite Hs in Hrun. cbn in Hrun.
    rewrite (loop_stopped _ w1 Hrun). exists w1. auto.
  - destruct fuel as [|fuel]; try lia.
    rewrite (loop_step _ w Hr).
    destruct (iteration_run w) as (w1 & E & Hsl & Hst & Hrun & Hint). rewrite E. cbn [snd].
    rewrite Hs in Hrun, Hst. cbn in Hrun, Hst.
    destruct (IH w1 fuel) as (w' & E' & Hsl'); [congruence | exact Hst | lia |].
    exists w'. split; [exact E'|].
    rewrite Hsl', Hsl, Hint.
    change (processing_interval w :: sleeps (trace w))
      with ([processing_interval w] ++ sleeps (trace w)).
    rewrite app_assoc. f_equal.
    change [processing_interval w] with (replicate 1 (processing_interval w)).
    rewrite <- replicate_add. f_equal. lia.
Qed.

(** C8. The sweep loop does not end on a failure. Its body returns
    normally from every world, also when the batch raised, and sleeps
    [processing_interval] exactly once, whatever the batch was. The loop
    itself never raises; when it has ended, [running] is false; as long as
    nobody calls [stop()] it goes on, one sleep for each iteration; and it
    ends after the iteration during whose sleep [stop()] was called. *)
Theorem sweep_loop_survives :
  (∀ w, ∃ w', process_pending_iteration w = (Return tt, w') ∧
      sleeps (trace w') = processing_interval w :: sleeps (trace w)) ∧
  (∀ fuel w, ∃ o w', process_pending_notifications fuel w = (Return o, w')) ∧
  (∀ fuel w w',
      process_pending_notifications fuel w = (Return Finished, w') →
      running w' = false) ∧
  (∀ fuel w, running w = true → Forall (λ b, b = false) (stop_requests w) →
      ∃ w', process_pending_notifications fuel w = (Return StillRunning, w') ∧
        sleeps (trace w') = replicate fuel (processing_interval w) ++ sleeps (trace w)) ∧
  (∀ k rest w fuel, running w = true →
      stop_requests w = replicate k false ++ true :: rest → (S k < fuel)%nat →
      ∃ w', process_pending_notifications fuel w = (Return Finished, w') ∧
        sleeps (trace w') = replicate (S k) (processing_interval w) ++ sleeps (trace w)).
Proof.
  split; [|split; [|split; [|split]]].
  - intros w. destruct (iteration_run w) as (w' & E & H & _). eauto.
  - apply loop_never_raises.
  - apply loop_finished.
  - apply loop_goes_on.
  - apply loop_until_stop.
Qed.

Lemma sweep_loop_survives_witness :
  running failing_sweep_world = true ∧
  stop_requests failing_sweep_world = replicate 1 false ++ true :: [] ∧
  (2 < 5)%nat ∧
  fst (process_pending_batch failing_sweep_world) = Raise (Error "connection lost") ∧
  ∃ w', process_pending_notifications 5 failing_sweep_world = (Return Finished, w') ∧
    sleeps (trace w') = replicate 2 (processing_interval failing_sweep_world)
                        ++ sleeps (trace failing_sweep_world).
Proof.
  assert (2 < 5)%nat as H by lia.
  split; [reflexivity|]. split; [reflexivity|]. split; [exact H|].
  split; [vm_compute; reflexivity|].
  exact (proj2 (proj2 (proj2 (proj2 sweep_loop_survives))) 1%nat [] failing_sweep_world 5%nat
           eq_refl eq_refl H).
Defined.
(** ** The query of the sweep *)

Lemma created_le_total a b : created_le a b = false → created_le b a = true.
Proof. destruct a, b; cbn; try discriminate; auto. intros H. lia. Qed.

Lemma created_le_trans a b c :
  created_le a b = true → created_le b c = true → created_le a c = true.
Proof. destruct a, b, c; cbn; try discriminate; auto. intros. lia. Qed.

Lemma insert_by_created_sorted n l :
  StronglySorted created_before l → StronglySorted created_before (insert_by_created n l).
Proof.
  induction 1 as [|m l Hl IH Hm]; cbn; [repeat constructor|].
  destruct (created_le (n_created_at n) (n_created_at m)) eqn:E.
  - constructor; [constructor; assumption|].
    constructor; [exact E|].
    eapply Forall_impl; [exact Hm|]. intros x Hx.
    unfold created_before in *. eapply created_le_trans; eauto.
  - constructor; [exact IH|].
    apply Forall_insert_by_created; [|exact Hm].
    apply created_le_total, E.
Qed.

Lemma order_by_created_at_sorted l :
  StronglySorted created_before (order_by_created_at l).
Proof.
  induction l as [|n l IH]; cbn; [constructor|].
  apply insert_by_created_sorted, IH.
Qed.

Lemma insert_by_created_perm n l : insert_by_created n l ≡ₚ n :: l.
Proof.
  induction l as [|m l IH]; cbn; [reflexivity|].
  destruct (created_le _ _); [reflexivity|].
  rewrite IH. apply Permutation_swap.
Qed.

Lemma order_by_created_at_perm l : order_by_created_at l ≡ₚ l.
Proof.
  induction l as [|n l IH]; cbn; [reflexivity|].
  rewrite insert_by_created_perm, IH. reflexivity.
Qed.

(** What the query returns: at most [limit] records, all pending, oldest
    first, and they are the head of the pending records in creation
    order, so that none of the pending records left out is older than a
    selected one. *)
Lemma select_pending_spec limit rows :
  (length (select_pending limit rows) ≤ limit)%nat ∧
  Forall (λ n, n_status n = "pending") (select_pending limit rows) ∧
  StronglySorted created_before (select_pending limit rows) ∧
  ∃ rest,
    select_pending limit rows ++ rest ≡ₚ List.filter is_pending rows ∧
    (∀ n m, n ∈ select_pending limit rows → m ∈ rest → created_before n m) ∧
    (rest ≠ [] → length (select_pending limit rows) = limit).
Proof.
  split; [unfold select_pending; rewrite length_take; lia|].
  split; [apply select_pending_pending|].
  unfold select_pending.
  pose proof (order_by_created_at_sorted (List.filter is_pending rows)) as Hs.
  rewrite <- (take_drop limit (order_by_created_at (List.filter is_pending rows))) in Hs.
  split; [eapply StronglySorted_app_1_l, Hs|].
  exists (drop limit (order_by_created_at (List.filter is_pending rows))).
  split; [rewrite take_drop; apply order_by_created_at_perm|].
  split.
  - intros n m. apply StronglySorted_app_1_elem_of, Hs.
  - intros Hne. rewrite length_take. apply Nat.min_l.
    destruct (decide (limit ≤ length (order_by_created_at (List.filter is_pending rows)))%nat);
      [assumption|].
    rewrite drop_ge in Hne by lia. congruence.
Qed.
(** ** One batch *)

Lemma settles_not_started later : Forall settles later → started later = [].
Proof.
  induction 1 as [|e l He Hl IH]; [reflexivity|].
  unfold started in *. cbn. rewrite IH.
  destruct e; cbn in *; try reflexivity.
  destruct He as [-> | ->]; reflexivity.
Qed.

(** Each call of [send_notification] starts exactly one record, the one it
    is given. *)
Lemma started_send_notification r w :
  started (trace (snd (send_notification r w))) = n_id (object r w) :: started (trace w).
Proof.
  destruct (send_notification_trace r w) as (later & E & F).
  rewrite E. unfold started. rewrite omap_app.
  fold (started later). rewrite (settles_not_started later F). reflexivity.
Qed.

Lemma id_framing r oi :
  is_Some oi →
  framing (keeps r (λ n, n_id n = oi)) (λ _, True) (λ f, ∀ n, n_id n = oi → n_id (f n) = oi).
Proof.
  intros [i ->]. apply keeps_framing. intros k t n H1 H2. congruence.
Qed.

Lemma id_send_notification r' oi r :
  is_Some oi → frame (keeps r' (λ n, n_id n = oi)) (send_notification r).
Proof.
  intros H. eapply frame_send_notification; eauto using id_framing; cbn; auto.
Qed.

Lemma pays_send_notification r : pays (send_notification r).
Proof. apply pays_try; [apply pays_try_block | apply pays_except]. Qed.

Lemma pays_for_each {A} (f : A → M unit) l : (∀ a, pays (f a)) → pays (for_each f l).
Proof.
  intros Hf. induction l as [|a l IH]; cbn; [quiet_step|].
  apply pays_bind; auto.
Qed.

(** The loop over the batch starts the records in the order of the list,
    and all of them unless a call raises. *)
Lemma for_each_started refs : ∀ ids w,
  Forall2 (λ r oi, is_Some oi ∧ ∃ n, session w !! r = Some n ∧ n_id n = oi) refs ids →
  ∃ j, started (trace (snd (for_each send_notification refs w)))
       = reverse (take j ids) ++ started (trace w) ∧
       (fst (for_each send_notification refs w) = Return tt → j = length ids).
Proof.
  induction refs as [|r rs IH]; intros ids w H.
  - apply Forall2_nil_inv_l in H as ->. exists 0%nat. cbn. auto.
  - apply Forall2_cons_inv_l in H as (oi & ids' & (Hoi & n & Hn & Hid) & Hrest & ->).
    cbn [for_each]. unfold mbind, M_bind, bind.
    pose proof (started_send_notification r w) as Hs.
    unfold object in Hs. rewrite Hn in Hs. cbn in Hs. rewrite Hid in Hs.
    assert (Forall2 (λ r' oi', is_Some oi' ∧ ∃ n', session (snd (send_notification r w)) !! r'
                                = Some n' ∧ n_id n' = oi') rs ids') as Hrest'.
    { eapply Forall2_impl; [exact Hrest|]. intros r' oi' (Hoi' & n' & Hn' & Hid').
      split; [exact Hoi'|].
      apply (id_send_notification r' oi' r Hoi' w n' Hn' Hid'). }
    destruct (send_notification r w) as [[[]|e] w1]; cbn [snd] in *.
    + destruct (IH ids' w1 Hrest') as (j & Hj & Hlen).
      exists (S j). split.
      * rewrite Hj, Hs. cbn [take]. rewrite reverse_cons, <- app_assoc. reflexivity.
      * intros Hret. cbn. f_equal. auto.
    + exists 1%nat. split; [|discriminate].
      rewrite Hs. cbn [take]. rewrite take_0. reflexivity.
Qed.

Lemma find_write_back_ne i o rows :
  n_id o ≠ Some i →
  List.find (λ x, bool_decide (n_id x = Some i)) (write_back o rows)
  = List.find (λ x, bool_decide (n_id x = Some i)) rows.
Proof.
  intros Ho. unfold write_back. induction rows as [|x rows IH]; cbn; [reflexivity|].
  destruct (decide (n_id x = n_id o)) as [E|E].
  - rewrite (bool_decide_eq_false_2 _ Ho).
    rewrite bool_decide_eq_false_2 by congruence. exact IH.
  - rewrite IH. reflexivity.
Qed.

Lemma flush_away i objs t k rows :
  Forall (λ o, is_Some (n_id o) ∧ n_id o ≠ Some i) objs →
  flush_session objs t k = objs ∧ flush_next objs k = k ∧
  List.find (λ x, bool_decide (n_id x = Some i)) (flush_rows objs t k rows)
  = List.find (λ x, bool_decide (n_id x = Some i)) rows.
Proof.
  intros H. revert rows. induction H as [|o objs [[j Hj] Hne] H IH]; intros rows;
    [auto|].
  cbn. rewrite Hj. destruct (IH (write_back o rows)) as (-> & -> & ->).
  rewrite find_write_back_ne by exact Hne. auto.
Qed.

Lemma spares_framing i :
  framing (spares i) (λ _, True) (λ f, ∀ n, n_id (f n) = n_id n).
Proof.
  split; unfold spares, away_from, row; cbn; auto.
  - intros a b c Hab Hbc Ha. destruct (Hab Ha) as [Hb Eb].
    destruct (Hbc Hb) as [Hc Ec]. split; [exact Hc | congruence].
  - intros f r w Hf H. split; [|reflexivity].
    apply Forall_alter; [exact H|]. intros n _ Hn. rewrite Hf. exact Hn.
  - intros w H.
    destruct (flush_away i _ (now w) (next_id w) (notifications w) H) as (-> & _ & ->).
    auto.
Qed.

Lemma spares_send_notification i r : frame (spares i) (send_notification r).
Proof. eapply frame_send_notification; eauto using spares_framing; cbn; auto. Qed.
Lemma select_pending_ids limit rows :
  Forall (λ n, is_Some (n_id n)) rows →
  Forall (λ n, is_Some (n_id n)) (select_pending limit rows).
Proof.
  intros H. unfold select_pending. apply Forall_take, Forall_order_by_created_at.
  rewrite Forall_forall in *. intros n Hin.
  apply list_elem_of_In, filter_In in Hin as [Hin _]. apply H, list_elem_of_In, Hin.
Qed.

Lemma select_pending_in limit rows n :
  n ∈ select_pending limit rows → n ∈ rows.
Proof.
  unfold select_pending. intros H. apply elem_of_take in H as (i & H & _).
  apply list_elem_of_lookup_2 in H. rewrite order_by_created_at_perm in H.
  apply list_elem_of_In, filter_In in H as [H _]. apply list_elem_of_In, H.
Qed.

Lemma batch_run w :
  process_pending_batch w
  = (let (o, w') :=
       (pending ← db_select_pending (batch_size w);
        for_each send_notification pending;; db_commit) (set_session [] w) in
     (o, set_faults (release (faults w')) (set_session [] w'))).
Proof. reflexivity. Qed.

(** The query, run in a fresh session: it raises and leaves everything as
    it was, or its rows become the objects of the session. *)
Lemma select_run limit w :
  session w = [] →
  (∃ e w1, db_select_pending limit w = (Raise e, w1) ∧
     trace w1 = trace w ∧ notifications w1 = notifications w) ∨
  (∃ w1, db_select_pending limit w
         = (Return (seq 0 (length (select_pending (Z.to_nat limit) (notifications w)))), w1) ∧
     session w1 = select_pending (Z.to_nat limit) (notifications w) ∧
     trace w1 = trace w ∧ notifications w1 = notifications w).
Proof.
  intros Hs. unfold db_select_pending, call. unfold_m. cbn.
  destruct (faults w) as [|[t|] fs]; cbn; eauto 10;
    destruct (Z.ltb limit 0); cbn; rewrite ?Hs; cbn; eauto 10.
Qed.

Lemma refs_of_session l : ∀ pre,
  Forall (λ n, is_Some (n_id n)) l →
  Forall2 (λ r oi, is_Some oi ∧ ∃ n, (pre ++ l) !! r = Some n ∧ n_id n = oi)
    (seq (length pre) (length l)) (n_id <$> l).
Proof.
  induction l as [|n l IH]; intros pre H; cbn; [constructor|].
  inversion H as [|? ? Hn Hl]; subst. constructor.
  - split; [exact Hn|]. exists n. split; [apply list_lookup_middle|]; reflexivity.
  - specialize (IH (pre ++ [n]) Hl).
    rewrite length_app, <- app_assoc in IH. cbn in IH.
    replace (length pre + 1)%nat with (S (length pre)) in IH by lia. exact IH.
Qed.

Lemma started_commit w : started (trace (snd (db_commit w))) = started (trace w).
Proof.
  pose proof (frame_commit _ _ _ (same_framing start_of) w) as H. exact H.
Qed.

(** The batch starts the selected records, oldest first: all of them when
    it returns, and the first ones when it is cut short by an exception. *)
Lemma batch_started w :
  Forall (λ n, is_Some (n_id n)) (notifications w) →
  ∃ j, started (trace (snd (process_pending_batch w)))
       = reverse (n_id <$> take j (select_pending (Z.to_nat (batch_size w)) (notifications w)))
         ++ started (trace w) ∧
       (fst (process_pending_batch w) = Return tt →
        j = length (select_pending (Z.to_nat (batch_size w)) (notifications w))).
Proof.
  intros Hwf. rewrite batch_run.
  set (batch := select_pending (Z.to_nat (batch_size w)) (notifications w)).
  unfold mbind, M_bind, bind.
  destruct (select_run (batch_size w) (set_session [] w) eq_refl)
    as [(e & w1 & E & Ht & _) | (w1 & E & Hs & Ht & _)]; rewrite E.
  - exists 0%nat. cbn [fst snd trace set_session set_faults take fmap list_fmap reverse] in *.
    split; [rewrite Ht; reflexivity | discriminate].
  - cbn [notifications set_session] in *. fold batch in Hs |- *.
    destruct (for_each_started (seq 0 (length batch)) (n_id <$> batch) w1) as (j & Hj & Hlen).
    { rewrite Hs. apply (refs_of_session batch []), select_pending_ids, Hwf. }
    rewrite length_fmap in Hlen. rewrite <- fmap_take in Hj.
    destruct (for_each send_notification (seq 0 (length batch)) w1) as [[[]|e] w2];
      cbn [fst snd] in *.
    + pose proof (started_commit w2) as Hc.
      destruct (db_commit w2) as [[[]|e] w3]; cbn [fst snd trace set_session set_faults] in *;
        exists j; (split; [rewrite Hc, Hj, Ht; reflexivity|]); auto; discriminate.
    + exists j. cbn [fst snd trace set_session set_faults] in *.
      split; [rewrite Hj, Ht; reflexivity | discriminate].
Qed.

(** A row that is not selected is left as it is, whatever happens in the
    batch. *)
Lemma batch_spares w i :
  Forall (λ n, is_Some (n_id n)) (notifications w) →
  Forall (λ n, n_id n ≠ Some i) (select_pending (Z.to_nat (batch_size w)) (notifications w)) →
  row i (snd (process_pending_batch w)) = row i w.
Proof.
  intros Hwf Hi. rewrite batch_run.
  unfold mbind at 1, M_bind at 1, bind at 1.
  destruct (select_run (batch_size w) (set_session [] w) eq_refl)
    as [(e & w1 & E & _ & Hn) | (w1 & E & Hs & _ & Hn)]; rewrite E.
  - cbn. unfold row. cbn. rewrite Hn. reflexivity.
  - cbn [notifications set_session] in *.
    assert (frame (spares i)
              (for_each send_notification
                 (seq 0 (length (select_pending (Z.to_nat (batch_size w)) (notifications w))));;
               db_commit)) as F.
    { apply (frame_bind _ _ _ (spares_framing i)).
      - apply (frame_for_each _ _ _ (spares_framing i)). intros r.
        apply spares_send_notification.
      - intros _. apply (frame_commit _ _ _ (spares_framing i)). }
    destruct (F w1) as [_ Hrow].
    { unfold away_from. rewrite Hs.
      apply Forall_and. split; [apply select_pending_ids, Hwf | exact Hi]. }
    match goal with |- context [let (_, _) := ?m w1 in _] =>
      destruct (m w1) as [o w2] end.
    cbn [snd] in *. unfold row in *. cbn. rewrite Hrow, Hn. reflexivity.
Qed.

Lemma pays_select_pending limit : (0 ≤ limit)%Z → pays (db_select_pending limit).
Proof.
  intros H. unfold db_select_pending.
  apply pays_bind; [apply pays_call|]. intros _.
  apply pays_bind; [quiet_step|]. intros w.
  destruct (Z.ltb_spec limit 0); [lia|]. quiet_step.
Qed.

(** With no failure to come and a batch size that is not negative, the
    batch returns. *)
Lemma batch_returns w :
  (0 ≤ batch_size w)%Z → fault_count (faults w) = 0%nat →
  fst (process_pending_batch w) = Return tt.
Proof.
  intros Hb Hf. rewrite batch_run.
  assert (pays (pending ← db_select_pending (batch_size w);
                for_each send_notification pending;; db_commit)) as P.
  { apply pays_bind; [apply pays_select_pending, Hb|]. intros refs.
    apply pays_bind; [apply pays_for_each, pays_send_notification|].
    intros _. apply pays_commit. }
  specialize (P (set_session [] w)). cbn [faults set_session] in P.
  match goal with |- context [let (_, _) := ?m ?w0 in _] =>
    destruct (m w0) as [[[]|e] w2] end; [reflexivity | lia].
Qed.
Lemma three_pending_batch t1 t2 t3 :
  t1 < t2 < t3 →
  select_pending (Z.to_nat (batch_size (three_pending t1 t2 t3)))
    (notifications (three_pending t1 t2 t3))
  = [record 1 None "database" "pending" t1; record 2 None "database" "pending" t2].
Proof.
  intros [H12 H23]. unfold select_pending. cbn.
  assert (Z.leb t1 t2 = true) as -> by lia. cbn.
  assert (Z.leb t3 t1 = false) as -> by lia. cbn.
  assert (Z.leb t3 t2 = false) as -> by lia. reflexivity.
Qed.

(** * Further properties *)

(** ** The service URL validator *)

(** X1. [validate_service_urls] leaves a missing value alone, returns a
    string that has one of the schemes "http://" and "https://" as it is,
    and puts "http://" in front of any other string; so the result always
    starts with one of the two schemes, and applying the validator twice is
    applying it once. *)
Theorem validate_service_urls_scheme v :
  validate_service_urls None = None ∧
  (∀ s, v = Some s → startswith "http://" s = true ∨ startswith "https://" s = true →
        validate_service_urls v = Some s) ∧
  (∀ s, v = Some s → startswith "http://" s = false → startswith "https://" s = false →
        validate_service_urls v = Some ("http://" +:+ s)) ∧
  (∀ s, validate_service_urls v = Some s →
        startswith "http://" s = true ∨ startswith "https://" s = true) ∧
  validate_service_urls (validate_service_urls v) = validate_service_urls v.
Proof.
  split; [reflexivity|].
  assert (∀ s, startswith "http://" ("http://" +:+ s) = true) as Hpre
    by (intros s; reflexivity).
  unfold validate_service_urls. split; [|split; [|split]].
  - intros s Hv H. subst v.
    destruct H as [H | H]; rewrite H; rewrite ?orb_true_r; reflexivity.
  - intros s Hv H1 H2. subst v. rewrite H1, H2. reflexivity.
  - destruct v as [s0|]; [|discriminate]. intros s.
    destruct (startswith "http://" s0) eqn:E1;
      destruct (startswith "https://" s0) eqn:E2; cbn [negb orb];
      intros [= <-]; auto.
  - destruct v as [s0|]; [|reflexivity].
    destruct (startswith "http://" s0) eqn:E1;
      destruct (startswith "https://" s0) eqn:E2; cbn [negb orb];
      rewrite ?E1, ?E2, ?Hpre; reflexivity.
Qed.

Lemma validate_service_urls_scheme_witness :
  validate_service_urls (Some "user-service:8000") = Some "http://user-service:8000" ∧
  validate_service_urls (Some "https://users.example.com") = Some "https://users.example.com".
Proof.
  split.
  - exact (proj1 (proj2 (proj2 (validate_service_urls_scheme (Some "user-service:8000"))))
             "user-service:8000" eq_refl eq_refl eq_refl).
  - exact (proj1 (proj2 (validate_service_urls_scheme (Some "https://users.example.com")))
             "https://users.example.com" eq_refl (or_intror eq_refl)).
Defined.

(** ** The channel sender, once more *)

(** X2. [send_email] never raises: it returns a boolean, and the call is
    noted once. It returns [True] only when the provider is configured and
    the SMTP client, called once with a message for the recipient, has not
    raised. When the provider is not configured it returns [False] without
    calling the SMTP client, and when the SMTP client raises, the error is
    turned into [False]. The SMTP client is called at most once, and the
    tables are not touched. *)
Theorem send_email_outcome to subj html text cc bcc w :
  ∃ b w', send_email to subj html text cc bcc w = (Return b, w') ∧
    notifications w' = notifications w ∧
    notification_preferences w' = notification_preferences w ∧
    email_calls (trace w') = (to, subj, html) :: email_calls (trace w) ∧
    (b = true →
     configured (email_provider w) = true ∧ next_call_fails w = false ∧
     ∃ m, smtp_sends (trace w') = m :: smtp_sends (trace w) ∧ msg_To m = to) ∧
    (configured (email_provider w) = false →
     b = false ∧ smtp_sends (trace w') = smtp_sends (trace w) ∧ faults w' = faults w) ∧
    (next_call_fails w = true → b = false) ∧
    (length (smtp_sends (trace w')) ≤ S (length (smtp_sends (trace w))))%nat.
Proof.
  unfold send_email, aiosmtplib_send, call, configured, next_call_fails. unfold_m. cbn.
  destruct (str_truthy (username (email_provider w)));
    destruct (str_truthy (password (email_provider w)));
    destruct (str_truthy (from_email (email_provider w))); cbn;
    try (eexists _, _; split; [reflexivity|]; cbn;
         repeat split; auto; try discriminate; fail);
    destruct (faults w) as [|[t|] fs] eqn:E; cbn;
    eexists _, _; (split; [reflexivity|]); cbn; rewrite ?E;
    repeat split; auto; try discriminate; try lia; eauto.
Qed.

Lemma send_email_outcome_witness :
  configured (email_provider (mail_world [])) = true ∧
  ∃ b w' m, send_email "u1@example.com" (Some "Hello") "<p>Hello</p>" None None None
              (mail_world []) = (Return b, w') ∧
    b = true ∧ smtp_sends (trace w') = [m] ∧ msg_To m = "u1@example.com".
Proof.
  split; [reflexivity|].
  destruct (send_email_outcome "u1@example.com" (Some "Hello") "<p>Hello</p>" None None None
              (mail_world []))
    as (b & w' & E & _ & _ & _ & Htrue & _).
  assert (b = true) as Hb.
  { pose proof E as E'. vm_compute in E'. injection E' as <- _. reflexivity. }
  destruct (Htrue Hb) as (_ & _ & m & Hm & Hto).
  exists b, w', m. auto.
Defined.

(** The message a configured provider hands to the SMTP client. *)
Lemma send_email_message_run to subj html text cc bcc w :
  configured (email_provider w) = true →
  ∃ m, smtp_sends (trace (snd (send_email to subj html text cc bcc w)))
       = m :: smtp_sends (trace w) ∧
     msg_From m = from_name (email_provider w) +:+ " <"
                  +:+ opt_str (from_email (email_provider w)) +:+ ">" ∧
     msg_To m = to ∧ msg_Subject m = subj ∧
     msg_Cc m = (if list_truthy cc then Some (join ", " (default [] cc)) else None) ∧
     msg_parts m = [("plain", if str_truthy text then opt_str text else text_of_html html);
                    ("html", html)].
Proof.
  intros Hc.
  unfold configured in Hc. apply andb_true_iff in Hc as [Hc H3].
  apply andb_true_iff in Hc as [H1 H2].
  unfold send_email, aiosmtplib_send, call. unfold_m. cbn.
  rewrite H1, H2, H3. cbn.
  destruct (faults w) as [|[t|] fs]; cbn; eexists; (split; [reflexivity|]); cbn; auto.
Qed.

(** X3. The message a configured provider hands to the SMTP client: sender
    and recipient headers, the subject as given, a [Cc] header only for a
    non-empty [cc], and two parts, the plain text (the text given, or the one
    made of the HTML body when none or an empty one is given) and then the
    HTML body. The [bcc] argument changes nothing: the addresses are put in
    no header and are not passed to the client. *)
Theorem send_email_message to subj html text cc bcc w :
  configured (email_provider w) = true →
  (∃ m, smtp_sends (trace (snd (send_email to subj html text cc bcc w)))
        = m :: smtp_sends (trace w) ∧
     msg_From m = from_name (email_provider w) +:+ " <"
                  +:+ opt_str (from_email (email_provider w)) +:+ ">" ∧
     msg_To m = to ∧ msg_Subject m = subj ∧
     msg_Cc m = (if list_truthy cc then Some (join ", " (default [] cc)) else None) ∧
     msg_parts m = [("plain", if str_truthy text then opt_str text else text_of_html html);
                    ("html", html)]) ∧
  ∀ bcc', send_email to subj html text cc bcc' w = send_email to subj html text cc bcc w.
Proof.
  intros Hc. split; [apply send_email_message_run, Hc | reflexivity].
Qed.

Lemma send_email_message_witness :
  configured (email_provider (boot mail_settings)) = true ∧
  ∃ m, smtp_sends (trace (snd (send_email "a@example.com" (Some "Hi") "<p>Hello</p>"
                                 None (Some ["c@example.com"]) (Some ["b@example.com"])
                                 (boot mail_settings))))
       = [m] ∧
    msg_Cc m = Some "c@example.com" ∧
    msg_parts m = [("plain", newline +:+ "Hello" +:+ newline); ("html", "<p>Hello</p>")].
Proof.
  split; [reflexivity|].
  destruct (proj1 (send_email_message "a@example.com" (Some "Hi") "<p>Hello</p>"
              None (Some ["c@example.com"]) (Some ["b@example.com"])
              (boot mail_settings) eq_refl)) as (m & E & _ & _ & _ & Hcc & Hp).
  exists m. split; [exact E|]. split; [exact Hcc | exact Hp].
Defined.

(** *** The plain text made of an HTML body *)

Lemma startswith_replace old p : ∀ s,
  lacks (ascii_of_nat 10) p = true →
  startswith p (replace_from 0 old newline s) = true → startswith p s = true.
Proof.
  revert p. intros p s. revert p. induction s as [|c s IH]; intros p Hp H.
  - exact H.
  - cbn [replace_from] in H. destruct p as [|a p]; [reflexivity|].
    cbn [lacks] in Hp. apply andb_true_iff in Hp as [Ha Hp].
    destruct (startswith old (String c s)).
    + cbn in H. apply andb_true_iff in H as [H _].
      rewrite H in Ha. discriminate.
    + cbn [startswith] in *. apply andb_true_iff in H as [H1 H2].
      rewrite H1. cbn. apply IH; assumption.
Qed.

Lemma contains_cons t c s : contains t s = true → contains t (String c s) = true.
Proof. intros H. cbn [contains]. rewrite H. apply orb_true_r. Qed.

Lemma contains_unfold t s :
  contains t s = startswith t s ||
                 match s with EmptyString => false | String _ s' => contains t s' end.
Proof. destruct s; reflexivity. Qed.

(** A replacement by a newline brings in no text that was not there. *)
Lemma contains_replace old t : lacks (ascii_of_nat 10) t = true → ∀ s skip,
  contains t (replace_from skip old newline s) = true → contains t s = true.
Proof.
  intros Ht. induction s as [|c s IH]; intros skip H.
  - destruct skip; exact H.
  - destruct skip as [|k]; cbn [replace_from] in H.
    + destruct t as [|a t]; [reflexivity|].
      destruct (startswith old (String c s)) eqn:E.
      * change (newline +:+ ?x) with (String (ascii_of_nat 10) x) in H.
        rewrite contains_unfold in H. apply orb_true_iff in H as [H | H].
        -- cbn [lacks] in Ht. apply andb_true_iff in Ht as [Ha _].
           cbn [startswith] in H. apply andb_true_iff in H as [H _].
           rewrite H in Ha. discriminate.
        -- apply contains_cons. eapply IH, H.
      * rewrite contains_unfold in H. apply orb_true_iff in H as [H | H].
        -- rewrite contains_unfold. apply orb_true_iff. left.
           cbn [startswith] in *. apply andb_true_iff in H as [H1 H2].
           rewrite H1. cbn. cbn [lacks] in Ht. apply andb_true_iff in Ht as [_ Ht].
           eapply startswith_replace; eassumption.
        -- apply contains_cons. eapply IH, H.
    + apply contains_cons. eapply IH, H.
Qed.

(** After the replacement of a tag the tag is gone. *)
Lemma replace_removes old :
  old ≠ "" → lacks (ascii_of_nat 10) old = true → ∀ s skip,
  contains old (replace_from skip old newline s) = false.
Proof.
  intros Hne Ho. destruct old as [|a old]; [congruence|].
  cbn [lacks] in Ho. apply andb_true_iff in Ho as [Ha Ho].
  induction s as [|c s IH]; intros skip.
  - destruct skip; reflexivity.
  - destruct skip as [|k]; cbn [replace_from]; [|apply IH].
    destruct (startswith (String a old) (String c s)) eqn:E.
    + change (newline +:+ ?x) with (String (ascii_of_nat 10) x).
      rewrite contains_unfold, IH, orb_false_r. cbn [startswith].
      apply negb_true_iff in Ha. rewrite Ha. reflexivity.
    + rewrite contains_unfold, IH, orb_false_r.
      destruct (startswith (String a old) (String c (replace_from 0 (String a old) newline s)))
        eqn:E'; [|reflexivity].
      cbn [startswith] in E, E'. apply andb_true_iff in E' as [H1 H2].
      rewrite H1 in E. cbn in E.
      rewrite (startswith_replace _ _ _ Ho H2) in E. discriminate.
Qed.

Lemma not_contains_replace old t s :
  lacks (ascii_of_nat 10) t = true →
  contains t s = false → contains t (replace old newline s) = false.
Proof.
  intros Ht Hs. destruct (contains t (replace old newline s)) eqn:E; [|reflexivity].
  apply (contains_replace old t Ht) in E. congruence.
Qed.

Lemma replace_absent old new : old ≠ "" → ∀ s,
  contains old s = false → replace old new s = s.
Proof.
  intros Hne. unfold replace. induction s as [|c s IH]; intros H; [reflexivity|].
  rewrite contains_unfold in H. apply orb_false_iff in H as [H1 H2].
  cbn [replace_from]. rewrite H1, (IH H2). reflexivity.
Qed.

(** X4. When no text body (or an empty one) is given, the plain-text part
    of the message is made of the HTML body, and it has none of the tags
    "<br>", "<br/>", "<p>" and "</p>" left; an HTML body without these tags
    is its own plain text. *)
Theorem plain_text_has_no_tags to subj html text cc bcc w :
  configured (email_provider w) = true → str_truthy text = false →
  ∃ m t, smtp_sends (trace (snd (send_email to subj html text cc bcc w)))
         = m :: smtp_sends (trace w) ∧
    msg_parts m = [("plain", t); ("html", html)] ∧
    contains "<br>" t = false ∧ contains "<br/>" t = false ∧
    contains "<p>" t = false ∧ contains "</p>" t = false ∧
    (contains "<br>" html = false → contains "<br/>" html = false →
     contains "<p>" html = false → contains "</p>" html = false → t = html).
Proof.
  intros Hc Ht.
  destruct (send_email_message_run to subj html text cc bcc w Hc)
    as (m & E & _ & _ & _ & _ & Hp).
  rewrite Ht in Hp. exists m, (text_of_html html). split; [exact E|].
  split; [exact Hp|]. unfold text_of_html.
  assert (∀ old s, old ≠ "" → lacks (ascii_of_nat 10) old = true →
            contains old (replace old newline s) = false) as Hrm.
  { intros old s H1 H2. apply replace_removes; assumption. }
  repeat split.
  - do 3 (apply not_contains_replace; [reflexivity|]). apply Hrm; [discriminate | reflexivity].
  - do 2 (apply not_contains_replace; [reflexivity|]). apply Hrm; [discriminate | reflexivity].
  - apply not_contains_replace; [reflexivity|]. apply Hrm; [discriminate | reflexivity].
  - apply Hrm; [discriminate | reflexivity].
  - intros H1 H2 H3 H4.
    rewrite (replace_absent "<br>" newline ltac:(discriminate) html H1).
    rewrite (replace_absent "<br/>" newline ltac:(discriminate) html H2).
    rewrite (replace_absent "<p>" newline ltac:(discriminate) html H3).
    apply (replace_absent "</p>" newline ltac:(discriminate) html H4).
Qed.

Lemma plain_text_has_no_tags_witness :
  configured (email_provider (boot mail_settings)) = true ∧
  ∃ m t, smtp_sends (trace (snd (send_email "a@example.com" (Some "Hi")
                                   "<p>Hello<br>you</p>" (Some "") None None
                                   (boot mail_settings))))
         = [m] ∧
    msg_parts m = [("plain", t); ("html", "<p>Hello<br>you</p>")] ∧
    contains "<br>" t = false ∧ contains "<p>" t = false.
Proof.
  split; [reflexivity|].
  destruct (plain_text_has_no_tags "a@example.com" (Some "Hi") "<p>Hello<br>you</p>"
              (Some "") None None (boot mail_settings) eq_refl eq_refl)
    as (m & t & E & Hp & H1 & _ & H3 & _).
  exists m, t. auto.
Defined.

(** ** Events from the bus, once more *)

Lemma well_formed_event_guard data :
  well_formed_event data = true →
  negb (truthy (dict_get "product_id" data))
  || is_None (dict_get "current_quantity" data)
  || is_None (dict_get "threshold" data) = false.
Proof.
  unfold well_formed_event. intros H.
  apply andb_true_iff in H as [H H3]. apply andb_true_iff in H as [H1 H2].
  rewrite H1. apply negb_true_iff in H2, H3. rewrite H2, H3. reflexivity.
Qed.

(** The insert of [handle_low_stock_notification] when the store fails:
    at the commit nothing is written, at the refresh the row is there. *)
Lemma insert_object_fails o w text rest :
  n_id o = None →
  (faults w = Some text :: rest →
   ∃ w1, with_session (r ← db_add o; db_commit;; db_refresh r) w = (Raise (Error text), w1) ∧
     notifications w1 = notifications w ∧ trace w1 = trace w) ∧
  (faults w = None :: Some text :: rest →
   ∃ w1, with_session (r ← db_add o; db_commit;; db_refresh r) w = (Raise (Error text), w1) ∧
     notifications w1 = notifications w ++ [inserted (next_id w) (now w) o] ∧
     trace w1 = trace w).
Proof.
  intros Hid.
  unfold with_session, db_add, db_commit, db_refresh, call, flush. unfold_m. cbn.
  split; intros E; rewrite E; cbn; rewrite ?Hid; cbn; eauto.
Qed.

(** X5. [handle_notification] never raises, whatever the event and
    whatever the store does, and an event whose type is not "low_stock"
    (no type, a type that is no string, another string) changes nothing. *)
Theorem handle_notification_never_raises data w :
  (∃ w', handle_notification data w = (Return tt, w')) ∧
  (dict_get "type" data ≠ JStr "low_stock" → handle_notification data w = (Return tt, w)).
Proof.
  unfold handle_notification, try_except. split.
  - destruct (dict_get "type" data) as [| | |t|]; eauto.
    destruct (String.eqb t "low_stock"); eauto.
    destruct (handle_low_stock_notification data w) as [[[]|e] w']; eauto.
  - intros H. destruct (dict_get "type" data) as [| | |t|]; try reflexivity.
    destruct (String.eqb_spec t "low_stock") as [->|]; [congruence | reflexivity].
Qed.

Lemma handle_notification_never_raises_witness :
  dict_get "type" (<["type" := JStr "order_status"]> low_stock_event) ≠ JStr "low_stock" ∧
  handle_notification (<["type" := JStr "order_status"]> low_stock_event)
    (boot default_settings)
  = (Return tt, boot default_settings).
Proof.
  assert (dict_get "type" (<["type" := JStr "order_status"]> low_stock_event)
          ≠ JStr "low_stock") as H by (vm_compute; discriminate).
  split; [exact H|].
  exact (proj2 (handle_notification_never_raises _ (boot default_settings)) H).
Defined.

(** X6. When the store fails while the record of a low-stock event is
    inserted, the administrator gets no e-mail: the exception of the commit
    (nothing is stored) or of the refresh (the record is stored) leaves
    [handle_low_stock_notification] before the e-mail step, and
    [handle_notification] swallows it. *)
Theorem low_stock_alert_lost_with_store data w text rest :
  well_formed_event data = true →
  dict_get "type" data = JStr "low_stock" →
  faults w = Some text :: rest ∨ faults w = None :: Some text :: rest →
  ∃ w', handle_low_stock_notification data w = (Raise (Error text), w') ∧
    handle_notification data w = (Return tt, w') ∧
    email_calls (trace w') = email_calls (trace w) ∧
    (faults w = Some text :: rest → notifications w' = notifications w) ∧
    (faults w = None :: Some text :: rest →
     length (notifications w') = S (length (notifications w))).
Proof.
  intros Hwf Hty Hf.
  unfold handle_notification, try_except. rewrite Hty. cbn [String.eqb Ascii.eqb Bool.eqb].
  unfold handle_low_stock_notification. rewrite (well_formed_event_guard data Hwf).
  match goal with |- context [db_add ?o] =>
    destruct (insert_object_fails o w text rest eq_refl) as [H1 H2] end.
  destruct Hf as [Hf | Hf].
  - destruct (H1 Hf) as (w1 & E & Hn & Ht).
    rewrite (bind_Raise _ _ _ _ _ E). exists w1.
    repeat split; auto.
    + rewrite Ht. reflexivity.
    + rewrite Hf. discriminate.
  - destruct (H2 Hf) as (w1 & E & Hn & Ht).
    rewrite (bind_Raise _ _ _ _ _ E). exists w1.
    repeat split; auto.
    + rewrite Ht. reflexivity.
    + rewrite Hf. discriminate.
    + intros _. rewrite Hn, length_app. cbn. lia.
Qed.

Lemma low_stock_alert_lost_with_store_witness :
  well_formed_event low_stock_event = true ∧
  faults (world_with [] [] [Some "connection lost"]) = Some "connection lost" :: [] ∧
  ∃ w', handle_notification low_stock_event (world_with [] [] [Some "connection lost"])
        = (Return tt, w') ∧
    email_calls (trace w') = [] ∧ notifications w' = [].
Proof.
  split; [reflexivity|]. split; [reflexivity|].
  destruct (low_stock_alert_lost_with_store low_stock_event
              (world_with [] [] [Some "connection lost"]) "connection lost" []
              eq_refl eq_refl (or_introl eq_refl)) as (w' & _ & E & Hc & Hn & _).
  exists w'. split; [exact E|]. split; [exact Hc|]. exact (Hn eq_refl).
Defined.

(** X7. Every well-formed low-stock event, handled while the store accepts
    the insert, appends exactly one record: a system notification (no user)
    of type "low_stock" for the "database" channel, pending, with the next
    id, the time of the insert, a subject made of the product name (the
    product id when the event has no name) and the event as its data. An
    e-mail is sent to the administrator address when one is configured, and
    none is sent otherwise. *)
Theorem low_stock_event_recorded data w :
  well_formed_event data = true → quiet 2 (faults w) = true →
  ∃ w' rec,
    handle_low_stock_notification data w = (Return tt, w') ∧
    notifications w' = notifications w ++ [rec] ∧
    n_id rec = Some (next_id w) ∧ n_created_at rec = Some (now w) ∧
    n_user_id rec = None ∧ n_type rec = "low_stock" ∧
    n_channel rec = "database" ∧ n_status rec = "pending" ∧
    n_subject rec = Some ("Low Stock Alert: " +:+ alert_name data) ∧
    n_data rec = Some data ∧
    (if str_truthy (ADMIN_EMAIL (settings w))
     then ∃ html, email_calls (trace w')
                  = (opt_str (ADMIN_EMAIL (settings w)),
                     Some ("Low Stock Alert: " +:+ alert_name data), html)
                    :: email_calls (trace w)
     else email_calls (trace w') = email_calls (trace w)).
Proof.
  intros Hwf Hq.
  unfold handle_low_stock_notification. rewrite (well_formed_event_guard data Hwf).
  match goal with |- context [db_add ?o] =>
    destruct (insert_new_object o w eq_refl Hq) as (w1 & E1 & Hrows & Htr & Hset) end.
  rewrite (bind_Return _ _ _ _ _ E1).
  unfold mbind at 1, M_bind at 1, bind at 1, get_world at 1.
  rewrite Hset.
  destruct (str_truthy (ADMIN_EMAIL (settings w))).
  - match goal with |- context [send_email ?a ?b ?c ?d ?e ?f] =>
      destruct (send_email_returns a b c d e f w1) as (b' & w2 & E2 & Hcalls & Hn2 & _) end.
    rewrite (bind_Return _ _ _ _ _ E2).
    eexists w2, _. split; [reflexivity|].
    split; [rewrite Hn2; exact Hrows|].
    cbn. repeat split. eexists. rewrite Hcalls, Htr. reflexivity.
  - eexists w1, _. split; [reflexivity|]. split; [exact Hrows|].
    cbn. repeat split. rewrite Htr. reflexivity.
Qed.

Lemma low_stock_event_recorded_witness :
  well_formed_event zero_stock_event = true ∧
  quiet 2 (faults (boot default_settings)) = true ∧
  ∃ w' rec,
    handle_low_stock_notification zero_stock_event (boot default_settings) = (Return tt, w') ∧
    notifications w' = [rec] ∧
    n_subject rec = Some "Low Stock Alert: P9".
Proof.
  split; [reflexivity|]. split; [reflexivity|].
  destruct (low_stock_event_recorded zero_stock_event (boot default_settings) eq_refl eq_refl)
    as (w' & rec & E & Hn & _ & _ & _ & _ & _ & _ & Hs & _).
  exists w', rec. split; [exact E|]. split; [exact Hn|]. exact Hs.
Defined.

(** X8. The check of the event is by truth value for the product id and by
    [None] for the two numbers: a product id that is null, empty, zero or
    false is dropped like a missing one, and so is a quantity or a threshold
    that is null, while a quantity or a threshold of 0 passes. A dropped
    event changes nothing. *)
Theorem low_stock_event_dropped data w :
  (well_formed_event data = false → handle_low_stock_notification data w = (Return tt, w)) ∧
  (∀ v, data !! "product_id" = Some v →
        v = JNull ∨ v = JStr "" ∨ v = JInt 0 ∨ v = JBool false →
        well_formed_event data = false) ∧
  (data !! "current_quantity" = Some JNull ∨ data !! "threshold" = Some JNull →
   well_formed_event data = false) ∧
  (∀ p, data !! "product_id" = Some (JStr p) → p ≠ "" →
        data !! "current_quantity" = Some (JInt 0) →
        data !! "threshold" = Some (JInt 0) →
        well_formed_event data = true).
Proof.
  unfold well_formed_event, dict_get. repeat split.
  - intros H. unfold handle_low_stock_notification, dict_get.
    destruct (truthy (default JNull (data !! "product_id")));
      destruct (is_None (default JNull (data !! "current_quantity")));
      destruct (is_None (default JNull (data !! "threshold")));
      try discriminate; reflexivity.
  - intros v -> [-> | [-> | [-> | ->]]]; reflexivity.
  - intros [-> | ->]; cbn; rewrite ?andb_false_r; reflexivity.
  - intros p -> Hp -> ->. cbn. destruct p; [congruence | reflexivity].
Qed.

Lemma low_stock_event_dropped_witness :
  well_formed_event (<["product_id" := JInt 0]> low_stock_event) = false ∧
  handle_low_stock_notification (<["product_id" := JInt 0]> low_stock_event)
    (boot default_settings)
  = (Return tt, boot default_settings).
Proof.
  split; [reflexivity|].
  exact (proj1 (low_stock_event_dropped (<["product_id" := JInt 0]> low_stock_event)
                  (boot default_settings)) eq_refl).
Defined.

(** ** The blocks of [send_notification], run *)

Lemma flush_session_lookup l t k r n :
  l !! r = Some n → is_Some (n_id n) → flush_session l t k !! r = Some n.
Proof.
  intros H [i Hi].
  destruct (lookup_flush_session l t k r n H) as [E | [E _]]; [exact E | congruence].
Qed.

Lemma quiet_tail k fs : quiet (S k) fs = true → quiet k (tail fs) = true.
Proof.
  destruct fs as [|[t|] fs]; cbn; auto using quiet_nil. discriminate.
Qed.

(** A commit: it raises and writes nothing, or it flushes the session. In
    both cases the objects of the session that have an id stay as they
    are in memory. *)
Lemma commit_next w :
  ∃ w1, db_commit w = (next_call (faults w), w1) ∧
    faults w1 = answered Commit (faults w) ∧
    trace w1 = trace w ∧ same_setting w w1 ∧
    (next_call (faults w) ≠ Return tt → notifications w1 = notifications w) ∧
    ∀ r n, session w !! r = Some n → is_Some (n_id n) → session w1 !! r = Some n.
Proof.
  unfold db_commit. unfold mbind, M_bind, bind. rewrite call_next.
  destruct (next_call (faults w)) as [[]|e] eqn:E.
  - eexists. split; [reflexivity|]. repeat split; [congruence|].
    intros r n Hn Hid. cbn. apply flush_session_lookup; assumption.
  - eexists. split; [reflexivity|]. repeat split. intros r n Hn _. exact Hn.
Qed.

(** The three blocks that end with a commit have the outcome of that
    commit, and the object is updated whether or not the commit raises. *)
Lemma mark_processing_next r w n :
  session w !! r = Some n → is_Some (n_id n) →
  ∃ w1, mark_processing r w = (next_call (faults w), w1) ∧
    faults w1 = answered Commit (faults w) ∧
    session w1 !! r = Some (taken_up (now w) n) ∧
    trace w1 = EvStatus (n_id n) (n_status n) "processing" :: trace w ∧
    same_setting w w1.
Proof.
  intros Hn Hid. unfold mark_processing.
  rewrite (bind_Return _ _ _ _ _ (set_status_run _ _ _)).
  unfold mbind at 1, M_bind at 1, bind at 1, utcnow at 1.
  unfold mbind at 1, M_bind at 1, bind at 1, setattr at 1, modify at 1.
  match goal with |- context [db_commit ?w0] =>
    destruct (commit_next w0) as (w1 & E & Hf & Ht & Hs & _ & Hobj); rewrite E end.
  exists w1. split; [reflexivity|]. split; [exact Hf|].
  unfold object in Ht. rewrite Hn in Ht. split; [|split; [exact Ht | exact Hs]].
  apply Hobj; [|exact Hid]. cbn. rewrite !list_lookup_alter_eq, Hn. reflexivity.
Qed.

Lemma record_outcome_next r b w n :
  session w !! r = Some n → is_Some (n_id n) →
  ∃ w1, record_outcome r b w = (next_call (faults w), w1) ∧
    faults w1 = answered Commit (faults w) ∧
    session w1 !! r = Some (settled b (now w) n) ∧
    trace w1 = EvStatus (n_id n) (n_status n) (if b then "sent" else "failed") :: trace w ∧
    same_setting w w1.
Proof.
  intros Hn Hid. unfold record_outcome. destruct b.
  - rewrite (bind_Return _ _ w tt
      (set_session (alter (with_sent_at (Some (now w))) r
                      (alter (with_status "sent") r (session w)))
         (set_trace (EvStatus (n_id (object r w)) (n_status (object r w)) "sent" :: trace w) w)))
      by reflexivity.
    unfold mbind at 1, M_bind at 1, bind at 1, utcnow at 1.
    unfold mbind at 1, M_bind at 1, bind at 1, setattr at 1, modify at 1.
    match goal with |- context [db_commit ?w0] =>
      destruct (commit_next w0) as (w1 & E & Hf & Ht & Hs & _ & Hobj); rewrite E end.
    exists w1. split; [reflexivity|]. split; [exact Hf|].
    unfold object in Ht. rewrite Hn in Ht. split; [|split; [exact Ht | exact Hs]].
    apply Hobj; [|exact Hid]. cbn. rewrite !list_lookup_alter_eq, Hn. reflexivity.
  - rewrite (bind_Return _ _ w tt
      (set_session (alter (with_error_message (Some "Failed to send notification")) r
                      (alter (with_status "failed") r (session w)))
         (set_trace (EvStatus (n_id (object r w)) (n_status (object r w)) "failed" :: trace w) w)))
      by reflexivity.
    unfold mbind at 1, M_bind at 1, bind at 1, utcnow at 1.
    unfold mbind at 1, M_bind at 1, bind at 1, setattr at 1, modify at 1.
    match goal with |- context [db_commit ?w0] =>
      destruct (commit_next w0) as (w1 & E & Hf & Ht & Hs & _ & Hobj); rewrite E end.
    exists w1. split; [reflexivity|]. split; [exact Hf|].
    unfold object in Ht. rewrite Hn in Ht. split; [|split; [exact Ht | exact Hs]].
    apply Hobj; [|exact Hid]. cbn. rewrite !list_lookup_alter_eq, Hn. reflexivity.
Qed.

Lemma channel_database r w n :
  session w !! r = Some n → n_channel n = "database" →
  send_notification_channel r w = (Return true, w).
Proof.
  intros Hn Hc. unfold send_notification_channel. unfold_m. rewrite Hn. cbn.
  rewrite Hc. reflexivity.
Qed.

Lemma commit_fails w text rest :
  faults w = Some text :: rest →
  db_commit w = (Raise (Error text), set_faults (Some rolled_back :: rest) w).
Proof.
  intros E. unfold db_commit, call. unfold_m. rewrite E. reflexivity.
Qed.

(** [send_email], run: what it returns and what it leaves. *)
Lemma send_email_run to subj html text cc bcc w :
  ∃ w', send_email to subj html text cc bcc w
        = (Return (configured (email_provider w) && negb (next_call_fails w)), w') ∧
    session w' = session w ∧ same_setting w w' ∧
    email_calls (trace w') = (to, subj, html) :: email_calls (trace w) ∧
    transitions (trace w') = transitions (trace w) ∧
    faults w' = (if configured (email_provider w) then tail (faults w) else faults w) ∧
    (if configured (email_provider w)
     then ∃ m, smtp_sends (trace w') = m :: smtp_sends (trace w) ∧
               msg_To m = to ∧ msg_Subject m = subj
     else smtp_sends (trace w') = smtp_sends (trace w)).
Proof.
  unfold send_email, aiosmtplib_send, call, configured, next_call_fails, same_setting.
  unfold_m. cbn.
  destruct (str_truthy (username (email_provider w)));
    destruct (str_truthy (password (email_provider w)));
    destruct (str_truthy (from_email (email_provider w))); cbn;
    try (eexists; split; [reflexivity|]; cbn; auto 10; fail);
    destruct (faults w) as [|[t|] fs] eqn:E; cbn;
    eexists; (split; [reflexivity|]); cbn; rewrite ?E;
    repeat split; eexists; repeat split.
Qed.

(** The channel block for an e-mail record whose user has a preference
    with an address. *)
Lemma channel_email_run r w n u p a :
  session w !! r = Some n → n_channel n = "email" → n_user_id n = Some u → u ≠ "" →
  List.find (matches_preference u "email") (notification_preferences w) = Some p →
  p_email p = Some a → a ≠ "" → quiet 1 (faults w) = true →
  ∃ w2, send_notification_channel r w
        = (Return (configured (email_provider w)
                   && negb (match tail (faults w) with Some _ :: _ => true | _ => false end)),
           w2) ∧
    session w2 = session w ∧ same_setting w w2 ∧
    email_calls (trace w2) = (a, n_subject n, n_content n) :: email_calls (trace w) ∧
    transitions (trace w2) = transitions (trace w) ∧
    faults w2 = (if configured (email_provider w) then tail (tail (faults w))
                 else tail (faults w)) ∧
    (if configured (email_provider w)
     then ∃ m, smtp_sends (trace w2) = m :: smtp_sends (trace w) ∧
               msg_To m = a ∧ msg_Subject m = n_subject n
     else smtp_sends (trace w2) = smtp_sends (trace w)).
Proof.
  intros Hn Hc Hu Hne F Ha Hane Hq.
  unfold send_notification_channel, db_first_preference.
  pose proof (call_tail Statement w Hq) as E.
  unfold mbind, M_bind, bind, getattr, get_world, mret, M_ret, ret. cbn.
  rewrite Hn. cbn. rewrite Hc. cbn. rewrite Hn. cbn. rewrite Hu.
  rewrite (str_truthy_Some u Hne). rewrite E. cbn. rewrite F, Ha.
  rewrite (str_truthy_Some a Hane). cbn. rewrite Hn. cbn.
  destruct (send_email_run a (n_subject n) (n_content n) None None None
              (set_faults (tail (faults w)) w))
    as (w2 & E2 & Hs & Hset & Hcalls & Htr & Hf & Hsm).
  exists w2. split; [exact E2|]. auto 10.
Qed.

(** ** What [send_notification] records *)

Lemma no_fault_next fs :
  quiet 1 fs = true → match fs with Some _ :: _ => true | _ => false end = false.
Proof. destruct fs as [|[t|] fs]; cbn; auto; discriminate. Qed.

Lemma try_run r w w1 b w2 o w3 :
  mark_processing r w = (Return tt, w1) →
  send_notification_channel r w1 = (Return b, w2) →
  record_outcome r b w2 = (o, w3) →
  send_notification_try r w = (o, w3).
Proof.
  intros E1 E2 E3. unfold send_notification_try.
  rewrite (bind_Return _ _ _ _ _ E1), (bind_Return _ _ _ _ _ E2). exact E3.
Qed.

(** X9. A record for the "database" channel, sent while the store works,
    ends with status "sent" and the time of the call as [sent_at] and
    [updated_at]; its status was set to "processing" and then to "sent"; no
    e-mail is sent; and an error message left by an earlier attempt stays
    in the record. *)
Theorem database_channel_delivered r w n :
  session w !! r = Some n → is_Some (n_id n) → n_channel n = "database" →
  quiet 2 (faults w) = true →
  ∃ w' n', send_notification r w = (Return tt, w') ∧
    session w' !! r = Some n' ∧
    n_status n' = "sent" ∧ n_sent_at n' = Some (now w) ∧
    n_updated_at n' = Some (now w) ∧ n_error_message n' = n_error_message n ∧
    transitions (trace w')
    = (n_id n, "processing", "sent") :: (n_id n, n_status n, "processing")
      :: transitions (trace w) ∧
    email_calls (trace w') = email_calls (trace w).
Proof.
  intros Hn Hid Hc Hq.
  destruct (mark_processing_next r w n Hn Hid) as (w1 & E1 & Hf1 & Hn1 & Ht1 & Hnow1 & _).
  rewrite (next_call_quiet _ (quiet_S 1 _ Hq)) in E1.
  rewrite (answered_quiet Commit _ (quiet_S 1 _ Hq)) in Hf1.
  pose proof (channel_database r w1 _ Hn1 Hc) as E2.
  destruct (record_outcome_next r true w1 _ Hn1 Hid) as (w2 & E3 & _ & Hn2 & Ht2 & _).
  rewrite Hf1, (next_call_quiet _ (quiet_tail 1 _ Hq)) in E3.
  exists w2, (settled true (now w1) (taken_up (now w) n)).
  split.
  { unfold send_notification, try_except. rewrite (try_run _ _ _ _ _ _ _ E1 E2 E3).
    reflexivity. }
  split; [exact Hn2|]. rewrite Hnow1, Ht2, Ht1. cbn. repeat split.
Qed.

Lemma database_channel_delivered_witness :
  quiet 2 (faults (world_with [sent_record] [sent_record] [])) = true ∧
  ∃ w' n', send_notification 0 (world_with [sent_record] [sent_record] []) = (Return tt, w') ∧
    session w' !! 0%nat = Some n' ∧ n_sent_at n' = Some 100.
Proof.
  split; [reflexivity|].
  destruct (database_channel_delivered 0 (world_with [sent_record] [sent_record] [])
              sent_record eq_refl (ex_intro _ 1 eq_refl) eq_refl eq_refl)
    as (w' & n' & E & Hn & _ & Hs & _).
  exists w', n'. split; [exact E|]. split; [exact Hn | exact Hs].
Defined.

(** The [try] block for an e-mail record that can be delivered, while
    nothing fails. *)
Lemma email_record_run r w n u p a :
  session w !! r = Some n → is_Some (n_id n) →
  n_channel n = "email" → n_user_id n = Some u → u ≠ "" →
  List.find (matches_preference u "email") (notification_preferences w) = Some p →
  p_email p = Some a → a ≠ "" →
  configured (email_provider w) = true → quiet 4 (faults w) = true →
  ∃ w' n' m, send_notification r w = (Return tt, w') ∧
    session w' !! r = Some n' ∧
    n_status n' = "sent" ∧ n_sent_at n' = Some (now w) ∧
    email_calls (trace w') = (a, n_subject n, n_content n) :: email_calls (trace w) ∧
    smtp_sends (trace w') = m :: smtp_sends (trace w) ∧
    msg_To m = a ∧ msg_Subject m = n_subject n.
Proof.
  intros Hn Hid Hc Hu Hne F Ha Hane Hconf Hq.
  destruct (mark_processing_next r w n Hn Hid)
    as (w1 & E1 & Hf1 & Hn1 & Ht1 & Hnow1 & Hp1 & Hm1).
  rewrite (next_call_quiet _ (quiet_S 1 _ (quiet_S 2 _ (quiet_S 3 _ Hq)))) in E1.
  rewrite (answered_quiet Commit _ (quiet_S 1 _ (quiet_S 2 _ (quiet_S 3 _ Hq)))) in Hf1.
  pose proof (quiet_tail 3 _ Hq) as Hq1. rewrite <- Hf1 in Hq1.
  rewrite <- Hp1 in F.
  destruct (channel_email_run r w1 _ u p a Hn1 Hc Hu Hne F Ha Hane
              (quiet_S 1 _ (quiet_S 2 _ Hq1)))
    as (w2 & E2 & Hs2 & (Hnow2 & _) & Hcalls & Htr & Hf2 & Hsm).
  rewrite Hm1, Hconf in E2, Hf2, Hsm.
  rewrite (no_fault_next _ (quiet_S 1 _ (quiet_tail 2 _ Hq1))) in E2.
  destruct Hsm as (m & Hsm & Hto & Hsubj).
  rewrite <- Hs2 in Hn1.
  destruct (record_outcome_next r true w2 _ Hn1 Hid) as (w3 & E3 & _ & Hn3 & Ht3 & _).
  rewrite Hf2, (next_call_quiet _ (quiet_tail 1 _ (quiet_tail 2 _ Hq1))) in E3.
  exists w3, (settled true (now w2) (taken_up (now w) n)), m.
  split.
  { unfold send_notification, try_except. rewrite (try_run _ _ _ _ _ _ _ E1 E2 E3).
    reflexivity. }
  split; [exact Hn3|]. rewrite Hnow2, Hnow1, Ht3. cbn [n_status n_sent_at settled with_updated_at with_sent_at with_status taken_up].
  split; [reflexivity|]. split; [reflexivity|].
  change (email_calls (?e :: ?t)) with (email_calls t).
  change (smtp_sends (?e :: ?t)) with (smtp_sends t).
  rewrite Hcalls, Hsm, Ht1. auto.
Qed.

(** X10. An e-mail record whose user has an "email" preference with an
    address is delivered when the provider is configured and neither the
    store nor the SMTP server fails: [send_email] is called once, for that
    address, with the subject and the content of the record; the message
    handed to the SMTP client is addressed to it; and the record ends with
    status "sent" and the time of the call as [sent_at]. *)
Theorem email_delivered r w n u p a :
  session w !! r = Some n → is_Some (n_id n) →
  n_channel n = "email" → n_user_id n = Some u → u ≠ "" →
  List.find (matches_preference u "email") (notification_preferences w) = Some p →
  p_email p = Some a → a ≠ "" →
  configured (email_provider w) = true → quiet 4 (faults w) = true →
  ∃ w' n' m, send_notification r w = (Return tt, w') ∧
    session w' !! r = Some n' ∧
    n_status n' = "sent" ∧ n_sent_at n' = Some (now w) ∧
    email_calls (trace w') = (a, n_subject n, n_content n) :: email_calls (trace w) ∧
    smtp_sends (trace w') = m :: smtp_sends (trace w) ∧
    msg_To m = a ∧ msg_Subject m = n_subject n.
Proof. apply email_record_run. Qed.

Lemma email_delivered_witness :
  configured (email_provider (mail_world [])) = true ∧
  quiet 4 (faults (mail_world [])) = true ∧
  ∃ w' n' m, send_notification 0 (mail_world []) = (Return tt, w') ∧
    session w' !! 0%nat = Some n' ∧ n_status n' = "sent" ∧
    smtp_sends (trace w') = [m] ∧ msg_To m = "u1@example.com".
Proof.
  split; [reflexivity|]. split; [reflexivity|].
  assert ("u1" ≠ "") as H1 by discriminate.
  assert ("u1@example.com" ≠ "") as H2 by discriminate.
  destruct (email_delivered 0 (mail_world []) email_record "u1" disabled_preference
              "u1@example.com" eq_refl (ex_intro _ 1 eq_refl) eq_refl eq_refl H1
              eq_refl eq_refl H2 eq_refl eq_refl)
    as (w' & n' & m & E & Hn & Hs & _ & _ & Hsm & Hto & _).
  exists w', n', m. auto.
Defined.

(** X11. When the provider refuses an e-mail (it is not configured) or the
    SMTP server does (the client raises), the record ends with status
    "failed" and the fixed text "Failed to send notification": the text
    of the SMTP error is not recorded. [sent_at] stays as it was, and
    [send_notification] returns normally. *)
Theorem email_failure_is_generic r w n u p a :
  session w !! r = Some n → is_Some (n_id n) →
  n_channel n = "email" → n_user_id n = Some u → u ≠ "" →
  List.find (matches_preference u "email") (notification_preferences w) = Some p →
  p_email p = Some a → a ≠ "" →
  (configured (email_provider w) = false ∧ quiet 3 (faults w) = true) ∨
  (configured (email_provider w) = true ∧
   ∃ text rest, faults w = None :: None :: Some text :: rest ∧ quiet 1 rest = true) →
  ∃ w' n', send_notification r w = (Return tt, w') ∧
    session w' !! r = Some n' ∧
    n_status n' = "failed" ∧
    n_error_message n' = Some "Failed to send notification" ∧
    n_sent_at n' = n_sent_at n ∧
    email_calls (trace w') = (a, n_subject n, n_content n) :: email_calls (trace w).
Proof.
  intros Hn Hid Hc Hu Hne F Ha Hane Hcase.
  assert (quiet 2 (faults w) = true) as Hq.
  { destruct Hcase as [[_ H] | [_ (t & rest & -> & _)]]; [apply quiet_S, H | reflexivity]. }
  destruct (mark_processing_next r w n Hn Hid)
    as (w1 & E1 & Hf1 & Hn1 & Ht1 & Hnow1 & Hp1 & Hm1).
  rewrite (next_call_quiet _ (quiet_S 1 _ Hq)) in E1.
  rewrite (answered_quiet Commit _ (quiet_S 1 _ Hq)) in Hf1.
  pose proof (quiet_tail 1 _ Hq) as Hq1. rewrite <- Hf1 in Hq1.
  rewrite <- Hp1 in F.
  destruct (channel_email_run r w1 _ u p a Hn1 Hc Hu Hne F Ha Hane Hq1)
    as (w2 & E2 & Hs2 & (Hnow2 & _) & Hcalls & Htr & Hf2 & _).
  rewrite Hm1, Hf1 in E2, Hf2.
  assert (send_notification_channel r w1 = (Return false, w2) ∧
          quiet 1 (faults w2) = true) as [E2' Hq2].
  { destruct Hcase as [[Hconf H] | [Hconf (t & rest & Hfs & Hrest)]];
      rewrite Hconf in E2, Hf2.
    - split; [exact E2|]. rewrite Hf2. apply quiet_tail, quiet_tail, H.
    - rewrite Hfs in E2, Hf2. cbn [next_call tail negb andb] in E2, Hf2. split; [exact E2|]. rewrite Hf2. exact Hrest. }
  rewrite <- Hs2 in Hn1.
  destruct (record_outcome_next r false w2 _ Hn1 Hid) as (w3 & E3 & _ & Hn3 & Ht3 & _).
  rewrite (next_call_quiet _ Hq2) in E3.
  exists w3, (settled false (now w2) (taken_up (now w) n)).
  split.
  { unfold send_notification, try_except. rewrite (try_run _ _ _ _ _ _ _ E1 E2' E3).
    reflexivity. }
  split; [exact Hn3|]. rewrite Ht3.
  change (email_calls (?e :: ?t)) with (email_calls t).
  rewrite Hcalls, Ht1. repeat split.
Qed.

Lemma email_failure_is_generic_witness :
  configured (email_provider (mail_world [None; None; Some "421 service not available"]))
  = true ∧
  ∃ w' n', send_notification 0 (mail_world [None; None; Some "421 service not available"])
           = (Return tt, w') ∧
    session w' !! 0%nat = Some n' ∧
    n_status n' = "failed" ∧
    n_error_message n' = Some "Failed to send notification".
Proof.
  split; [reflexivity|].
  assert ("u1" ≠ "") as H1 by discriminate.
  assert ("u1@example.com" ≠ "") as H2 by discriminate.
  destruct (email_failure_is_generic 0
              (mail_world [None; None; Some "421 service not available"])
              email_record "u1" disabled_preference "u1@example.com"
              eq_refl (ex_intro _ 1 eq_refl) eq_refl eq_refl H1 eq_refl eq_refl H2
              (or_intror (conj eq_refl
                 (ex_intro _ "421 service not available"
                    (ex_intro _ [] (conj eq_refl eq_refl))))))
    as (w' & n' & E & Hn & Hs & He & _).
  exists w', n'. auto.
Defined.

(** X14. [send_notification] changes only the delivery fields of a stored
    record: whatever the channel, the preferences and the failures of the
    store and of the SMTP server, the object keeps its id, user, type,
    channel, subject, content, data, [created_at] and [read_at]. *)
Theorem send_notification_keeps_identity r w n :
  session w !! r = Some n → is_Some (n_id n) →
  ∃ n', session (snd (send_notification r w)) !! r = Some n' ∧ same_identity n n'.
Proof.
  intros Hn [i Hid].
  assert (framing (keeps r (same_identity n)) (λ _, True)
            (λ f, ∀ n1, same_identity n n1 → same_identity n (f n1))) as HF.
  { apply keeps_framing. intros k t n1 Hnone (H & _). congruence. }
  assert (frame (keeps r (same_identity n)) (send_notification r)) as H.
  { eapply frame_send_notification; eauto; cbn; auto. }
  apply (H w n Hn). repeat split.
Qed.

Lemma send_notification_keeps_identity_witness :
  ∃ n', session (snd (send_notification 0 (mail_world [Some "connection lost"]))) !! 0%nat
        = Some n' ∧ same_identity email_record n'.
Proof.
  exact (send_notification_keeps_identity 0 (mail_world [Some "connection lost"])
           email_record eq_refl (ex_intro _ 1 eq_refl)).
Defined.

(** * The routes *)

(** ** Marking as read and counting *)

(** X15. [mark_notification_read] for an id that is not in the table never
    returns a record and never changes the table: it raises, and when the
    store answers the query the exception is the 404 that names the id. *)
Theorem mark_read_missing nid w :
  row nid w = None →
  ∃ e w', mark_notification_read nid w = (Raise e, w') ∧
    notifications w' = notifications w ∧
    (quiet 1 (faults w) = true →
     e = HTTPException 404 ("Notification with ID " +:+ pretty nid +:+ " not found")).
Proof.
  unfold row. intros H.
  unfold mark_notification_read, with_session, db_first_notification, call.
  unfold_m. cbn.
  destruct (faults w) as [|[t|] fs]; cbn; rewrite ?H; eexists _, _;
    (split; [reflexivity|]); split; auto; discriminate.
Qed.

Lemma mark_read_missing_witness :
  row 7 (world_with [email_record] [] []) = None ∧
  ∃ w', mark_notification_read 7 (world_with [email_record] [] [])
        = (Raise (HTTPException 404 "Notification with ID 7 not found"), w') ∧
    notifications w' = [email_record].
Proof.
  split; [reflexivity|].
  destruct (mark_read_missing 7 (world_with [email_record] [] []) eq_refl)
    as (e & w' & E & Hn & He).
  exists w'. rewrite (He eq_refl) in E. split; [exact E | exact Hn].
Defined.

Lemma mark_rows_read_length u t rows :
  length (mark_rows_read u t rows) = length rows.
Proof. apply length_map. Qed.

Lemma mark_rows_read_none_left u t rows :
  Forall (λ n, is_unread_of u n = false) (mark_rows_read u t rows).
Proof.
  unfold mark_rows_read. rewrite Forall_forall. intros n Hin.
  apply list_elem_of_In, in_map_iff in Hin as (m & <- & _).
  destruct (is_unread_of u m) eqn:E; [|exact E].
  unfold is_unread_of. cbn. apply andb_false_r.
Qed.

Lemma mark_rows_read_lookup u t rows i n :
  rows !! i = Some n →
  mark_rows_read u t rows !! i
  = Some (if is_unread_of u n then stamp_read t n else n).
Proof.
  intros H. unfold mark_rows_read.
  change (map ?f ?l) with (f <$> l). rewrite list_lookup_fmap, H. reflexivity.
Qed.

(** The statement of [mark_all_notifications_read], run. *)
Lemma mark_all_run u w :
  quiet 2 (faults w) = true →
  ∃ w', mark_all_notifications_read u w
        = (Return (Z.of_nat (length (List.filter (is_unread_of u) (notifications w)))), w') ∧
    notifications w' = mark_rows_read u (now w) (notifications w) ∧
    now w' = now w ∧ faults w' = release (drop 2 (faults w)).
Proof.
  intros Hq.
  unfold mark_all_notifications_read, with_session, call. unfold_m. cbn.
  destruct (faults w) as [|[t|] fs] eqn:E; cbn; try discriminate.
  - rewrite E. cbn. eexists. split; [reflexivity|]. cbn. rewrite ?E. auto.
  - destruct fs as [|[t|] fs]; cbn; try discriminate;
      eexists; (split; [reflexivity|]); cbn; auto.
Qed.

(** X16. When the store works, [mark_all_notifications_read] returns the
    number of rows of the user that were unread and stamps exactly those
    rows with the time of the call; afterwards no row of the user is unread.
    Rows of other users and rows that were read before keep their
    [read_at]: unlike the route for one record, it never moves a time that
    is already there. *)
Theorem mark_all_read_effect u w :
  quiet 2 (faults w) = true →
  ∃ w', mark_all_notifications_read u w
        = (Return (Z.of_nat (length (List.filter (is_unread_of u) (notifications w)))), w') ∧
    length (notifications w') = length (notifications w) ∧
    Forall (λ n, is_unread_of u n = false) (notifications w') ∧
    ∀ i n, notifications w !! i = Some n →
      ∃ n', notifications w' !! i = Some n' ∧ n_id n' = n_id n ∧
        (n_user_id n = Some u → n_read_at n' = Some (default (now w) (n_read_at n))) ∧
        (n_user_id n ≠ Some u → n' = n).
Proof.
  intros Hq. destruct (mark_all_run u w Hq) as (w' & E & Hn & _).
  exists w'. split; [exact E|]. rewrite Hn.
  split; [apply mark_rows_read_length|].
  split; [apply mark_rows_read_none_left|].
  intros i n Hi. rewrite (mark_rows_read_lookup _ _ _ _ _ Hi).
  eexists. split; [reflexivity|]. unfold is_unread_of.
  destruct (decide (n_user_id n = Some u)) as [Hu|Hu].
  - rewrite (bool_decide_eq_true_2 _ Hu). cbn [andb].
    destruct (decide (n_read_at n = None)) as [Hr|Hr].
    + rewrite (bool_decide_eq_true_2 _ Hr), Hr. cbn. repeat split; congruence.
    + rewrite (bool_decide_eq_false_2 _ Hr).
      destruct (n_read_at n) as [t|] eqn:Ht; [|congruence]. cbn. auto.
  - rewrite (bool_decide_eq_false_2 _ Hu). cbn. repeat split; auto. contradiction.
Qed.

Lemma mark_all_read_effect_witness :
  quiet 2 (faults (world_with [email_record; sent_record] [] [])) = true ∧
  ∃ w', mark_all_notifications_read "u1" (world_with [email_record; sent_record] [] [])
        = (Return 1, w') ∧
    Forall (λ n, is_unread_of "u1" n = false) (notifications w').
Proof.
  split; [reflexivity|].
  destruct (mark_all_read_effect "u1" (world_with [email_record; sent_record] [] []) eq_refl)
    as (w' & E & _ & H & _).
  exists w'. split; [exact E | exact H].
Defined.

Lemma filter_none {A} (f : A → bool) l :
  Forall (λ x, f x = false) l → List.filter f l = [].
Proof.
  induction 1 as [|x l Hx _ IH]; cbn; [reflexivity|]. rewrite Hx. exact IH.
Qed.

Lemma mark_rows_read_fixed u t rows :
  Forall (λ n, is_unread_of u n = false) rows → mark_rows_read u t rows = rows.
Proof.
  unfold mark_rows_read. induction 1 as [|x l Hx _ IH]; cbn; [reflexivity|].
  rewrite Hx, IH. reflexivity.
Qed.

(** X17. [mark_all_notifications_read] is idempotent: a second call for
    the same user, however much later, returns 0 and leaves the table as the
    first call left it. *)
Theorem mark_all_read_twice u w d :
  quiet 4 (faults w) = true →
  ∃ k w1 w2,
    mark_all_notifications_read u w = (Return k, w1) ∧
    mark_all_notifications_read u (elapse d w1) = (Return 0, w2) ∧
    notifications w2 = notifications w1.
Proof.
  intros Hq.
  destruct (mark_all_run u w (quiet_le 2 4 _ ltac:(lia) Hq)) as (w1 & E1 & Hn1 & _ & Hf1).
  assert (quiet 2 (faults (elapse d w1)) = true) as Hq1.
  { cbn. rewrite Hf1, (release_drop 2 4) by (lia || exact Hq). apply (quiet_drop 2 2), Hq. }
  destruct (mark_all_run u (elapse d w1) Hq1) as (w2 & E2 & Hn2 & _).
  cbn [notifications elapse set_now] in E2, Hn2.
  pose proof (mark_rows_read_none_left u (now w) (notifications w)) as Hnone.
  rewrite <- Hn1 in Hnone.
  rewrite (filter_none _ _ Hnone) in E2.
  rewrite (mark_rows_read_fixed _ _ _ Hnone) in Hn2.
  eauto 10.
Qed.

Lemma mark_all_read_twice_witness :
  quiet 4 (faults (world_with [email_record; sent_record] [] [])) = true ∧
  ∃ k w1 w2,
    mark_all_notifications_read "u1" (world_with [email_record; sent_record] [] [])
    = (Return k, w1) ∧
    mark_all_notifications_read "u1" (elapse 50 w1) = (Return 0, w2) ∧
    notifications w2 = notifications w1.
Proof.
  split; [reflexivity|].
  exact (mark_all_read_twice "u1" (world_with [email_record; sent_record] [] []) 50 eq_refl).
Defined.

(** X18. [mark_all_notifications_read] is all or nothing: when it raises,
    because the statement or the commit does, no row has changed. *)
Theorem mark_all_read_atomic u w e w' :
  mark_all_notifications_read u w = (Raise e, w') →
  notifications w' = notifications w ∧ ∃ text, e = Error text.
Proof.
  unfold mark_all_notifications_read, with_session, call. unfold_m. cbn.
  destruct (faults w) as [|[t|] fs] eqn:E; cbn; rewrite ?E; cbn.
  - discriminate.
  - intros [= <- <-]. cbn. eauto.
  - destruct fs as [|[t|] fs]; cbn; try discriminate.
    intros [= <- <-]. cbn. eauto.
Qed.

Lemma mark_all_read_atomic_witness :
  ∃ w', mark_all_notifications_read "u1"
          (world_with [email_record] [] [None; Some "connection lost"])
        = (Raise (Error "connection lost"), w') ∧
    notifications w' = [email_record].
Proof.
  eexists. split; [reflexivity|].
  exact (proj1 (mark_all_read_atomic "u1"
                  (world_with [email_record] [] [None; Some "connection lost"])
                  _ _ eq_refl)).
Defined.

Lemma filter_and_length {A} (f g : A → bool) l :
  (length (List.filter (λ x, f x && g x) l) ≤ length (List.filter f l))%nat.
Proof.
  induction l as [|x l IH]; cbn; [lia|].
  destruct (f x), (g x); cbn; lia.
Qed.

Lemma count_run u w :
  quiet 2 (faults w) = true →
  ∃ w', get_notification_count u w
        = (Return (Z.of_nat (length (List.filter (of_user u) (notifications w))),
                   Z.of_nat (length (List.filter (is_unread_of u) (notifications w)))), w') ∧
    notifications w' = notifications w ∧ faults w' = release (drop 2 (faults w)).
Proof.
  intros Hq.
  unfold get_notification_count, with_session, call. unfold_m. cbn.
  destruct (faults w) as [|[t|] fs] eqn:E; cbn; try discriminate.
  - rewrite E. cbn. eexists. split; [reflexivity|]. cbn. rewrite ?E. auto.
  - destruct fs as [|[t|] fs]; cbn; try discriminate;
      eexists; (split; [reflexivity|]); cbn; auto.
Qed.

Lemma of_user_mark_rows_read u t rows :
  List.filter (of_user u) (mark_rows_read u t rows)
  = mark_rows_read u t (List.filter (of_user u) rows).
Proof.
  unfold mark_rows_read. induction rows as [|x l IH]; cbn; [reflexivity|].
  assert (of_user u (if is_unread_of u x
                     then with_updated_at (Some t) (with_read_at (Some t) x) else x)
          = of_user u x) as -> by (destruct (is_unread_of u x); reflexivity).
  destruct (of_user u x); cbn; rewrite IH; reflexivity.
Qed.

(** X19. The summary of [get_notification_count] and
    [mark_all_notifications_read] agree: the unread count is never above
    the total; the number [mark_all_notifications_read] returns is the
    unread count the summary gave before; and after it the summary gives the
    same total and no unread record. *)
Theorem unread_count_after_mark_all u w :
  quiet 6 (faults w) = true →
  ∃ total unread w0 w1 w2,
    get_notification_count u w = (Return (total, unread), w0) ∧
    (0 ≤ unread ≤ total)%Z ∧
    mark_all_notifications_read u w0 = (Return unread, w1) ∧
    get_notification_count u w1 = (Return (total, 0), w2).
Proof.
  intros Hq.
  destruct (count_run u w (quiet_le 2 6 _ ltac:(lia) Hq)) as (w0 & E0 & Hn0 & Hf0).
  assert (quiet 4 (faults w0) = true) as Hq0.
  { rewrite Hf0, (release_drop 2 6) by (lia || exact Hq). apply (quiet_drop 2 4), Hq. }
  destruct (mark_all_run u w0 (quiet_le 2 4 _ ltac:(lia) Hq0)) as (w1 & E1 & Hn1 & _ & Hf1).
  assert (quiet 2 (faults w1) = true) as Hq1.
  { rewrite Hf1, (release_drop 2 4) by (lia || exact Hq0). apply (quiet_drop 2 2), Hq0. }
  destruct (count_run u w1 Hq1) as (w2 & E2 & _).
  rewrite Hn0 in E1, Hn1. rewrite Hn1 in E2.
  rewrite (filter_none _ _ (mark_rows_read_none_left u (now w0) (notifications w))) in E2.
  rewrite of_user_mark_rows_read, mark_rows_read_length in E2.
  eexists _, _, w0, w1, w2. split; [exact E0|]. split; [|split; [exact E1 | exact E2]].
  assert (length (List.filter (is_unread_of u) (notifications w))
          ≤ length (List.filter (of_user u) (notifications w)))%nat as Hle
    by exact (filter_and_length (of_user u) (λ n, bool_decide (n_read_at n = None))
                (notifications w)).
  lia.
Qed.

Lemma unread_count_after_mark_all_witness :
  quiet 6 (faults (world_with [email_record; sent_record] [] [])) = true ∧
  ∃ total unread w0 w1 w2,
    get_notification_count "u1" (world_with [email_record; sent_record] [] [])
    = (Return (total, unread), w0) ∧
    (0 ≤ unread ≤ total)%Z ∧
    mark_all_notifications_read "u1" w0 = (Return unread, w1) ∧
    get_notification_count "u1" w1 = (Return (total, 0), w2).
Proof.
  split; [reflexivity|].
  exact (unread_count_after_mark_all "u1" (world_with [email_record; sent_record] [] [])
           eq_refl).
Defined.

(** ** The preferences *)

Lemma first_preference_run u c w :
  quiet 1 (faults w) = true →
  db_first_preference u c w
  = (Return (List.find (matches_preference u c) (notification_preferences w)),
     set_faults (tail (faults w)) w).
Proof.
  intros Hq. unfold db_first_preference. unfold mbind, M_bind, bind.
  rewrite (call_tail Statement _ Hq). reflexivity.
Qed.

Lemma preference_by_id_run i w :
  quiet 1 (faults w) = true →
  db_preference_by_id i w = (Return (preference i w), set_faults (tail (faults w)) w).
Proof.
  intros Hq. unfold db_preference_by_id. unfold mbind, M_bind, bind.
  rewrite (call_tail Statement _ Hq). reflexivity.
Qed.

Lemma find_matches u c (prefs : list NotificationPreference) q :
  q ∈ prefs → p_user_id q = u → p_channel q = c →
  is_Some (List.find (matches_preference u c) prefs).
Proof.
  intros Hin Hu Hc.
  destruct (List.find (matches_preference u c) prefs) as [p|] eqn:F; [eauto|].
  apply list_elem_of_In in Hin. pose proof (find_none _ _ F q Hin) as H.
  unfold matches_preference in H. rewrite Hu, Hc, !String.eqb_refl in H. discriminate.
Qed.

(** X20. A second preference for the same user and channel is refused:
    when the table has one, [create_notification_preference] raises the 400
    that names the channel and stores nothing, whatever the other fields of
    the request are. *)
Theorem create_preference_duplicate serial c w q :
  q ∈ notification_preferences w →
  p_user_id q = c_user_id c → p_channel q = c_channel c →
  quiet 1 (faults w) = true →
  ∃ w', create_notification_preference serial c w
        = (Raise (HTTPException 400
                    ("Preference for channel " +:+ c_channel c
                     +:+ " already exists for this user")), w') ∧
    notification_preferences w' = notification_preferences w.
Proof.
  intros Hin Hu Hc Hq.
  destruct (find_matches _ _ _ q Hin Hu Hc) as [p F].
  unfold create_notification_preference, with_session.
  unfold mbind at 1, M_bind at 1, bind at 1.
  rewrite (first_preference_run _ _ (set_session [] w) Hq).
  cbn [notification_preferences set_session].
  rewrite F. eexists. split; reflexivity.
Qed.

Lemma create_preference_duplicate_witness :
  disabled_preference ∈ notification_preferences (preference_world []) ∧
  ∃ w', create_notification_preference 2 email_request (preference_world [])
        = (Raise (HTTPException 400
                    "Preference for channel email already exists for this user"), w') ∧
    notification_preferences w' = [disabled_preference].
Proof.
  assert (disabled_preference ∈ notification_preferences (preference_world [])) as Hin
    by (apply list_elem_of_here).
  split; [exact Hin|].
  exact (create_preference_duplicate 2 email_request (preference_world [])
           disabled_preference Hin eq_refl eq_refl eq_refl).
Defined.

(** *** The keys stay unique *)

Lemma NoDup_fmap_filter {A B} (f : A → B) (g : A → bool) l :
  NoDup (f <$> l) → NoDup (f <$> List.filter g l).
Proof.
  induction l as [|x l IH]; cbn; [auto|].
  rewrite NoDup_cons. intros [Hx Hl]. destruct (g x); cbn; [|auto].
  rewrite NoDup_cons. split; [|auto].
  intros Hin. apply Hx.
  apply list_elem_of_fmap in Hin as (y & -> & Hy).
  apply list_elem_of_fmap. exists y. split; [reflexivity|].
  apply list_elem_of_In, filter_In in Hy as [Hy _]. apply list_elem_of_In, Hy.
Qed.

Lemma find_none_key u c (prefs : list NotificationPreference) :
  List.find (matches_preference u c) prefs = None → (u, c) ∉ pref_key <$> prefs.
Proof.
  intros F Hin. apply list_elem_of_fmap in Hin as (q & Hk & Hq).
  apply list_elem_of_In in Hq. pose proof (find_none _ _ F q Hq) as H.
  unfold pref_key in Hk. injection Hk as -> ->.
  unfold matches_preference in H. rewrite !String.eqb_refl in H. discriminate.
Qed.

Lemma preference_found i w p :
  preference i w = Some p → p ∈ notification_preferences w ∧ p_id p = i.
Proof.
  unfold preference. intros F. apply find_some in F as [Hin H].
  split; [apply list_elem_of_In, Hin | apply Z.eqb_eq, H].
Qed.

(** Writing back a row that has the id and the key of a stored row leaves
    the ids and the keys of the table as they are. *)
Lemma write_back_preference_keys p p' (prefs : list NotificationPreference) :
  NoDup (p_id <$> prefs) → p ∈ prefs →
  p_id p' = p_id p → pref_key p' = pref_key p →
  p_id <$> write_back_preference p' prefs = p_id <$> prefs ∧
  pref_key <$> write_back_preference p' prefs = pref_key <$> prefs.
Proof.
  intros Hnd Hin Hid Hk. unfold write_back_preference.
  induction prefs as [|q l IH]; [auto|].
  cbn in Hnd |- *. apply NoDup_cons in Hnd as [Hq Hl].
  destruct (Z.eqb_spec (p_id q) (p_id p')) as [E|E].
  - assert (q = p) as ->.
    { apply elem_of_cons in Hin as [->|Hin]; [reflexivity|].
      exfalso. apply Hq. apply list_elem_of_fmap. exists p. split; [congruence | exact Hin]. }
    assert (map (λ q, if Z.eqb (p_id q) (p_id p') then p' else q) l = l) as ->.
    { clear IH Hin Hl. induction l as [|x l IH]; cbn; [reflexivity|].
      destruct (Z.eqb_spec (p_id x) (p_id p')) as [Ex|Ex].
      - exfalso. apply Hq. rewrite <- Hid, <- Ex. cbn. left.
      - f_equal. apply IH. intros H. apply Hq. cbn. right. exact H. }
    rewrite Hid, Hk. auto.
  - apply elem_of_cons in Hin as [->|Hin]; [congruence|].
    destruct (IH Hl Hin) as [-> ->]. auto.
Qed.

Lemma create_preferences serial c w :
  notification_preferences (snd (create_notification_preference serial c w))
  = notification_preferences w ∨
  List.find (matches_preference (c_user_id c) (c_channel c)) (notification_preferences w)
  = None ∧
  notification_preferences (snd (create_notification_preference serial c w))
  = notification_preferences w ++ [new_preference serial c].
Proof.
  unfold create_notification_preference, with_session, db_first_preference, call.
  unfold_m. destruct w as [a b c0 d e f g h i j fs l t]. cbn.
  destruct fs as [|[t1|] fs]; cbn; auto;
    (destruct (List.find _ h); cbn; auto);
    try (destruct fs as [|[t2|] fs]; cbn; auto);
    try (destruct fs as [|[t3|] fs]; cbn; auto).
Qed.

Lemma update_preferences i u w :
  notification_preferences (snd (update_notification_preference i u w))
  = notification_preferences w ∨
  ∃ p, preference i w = Some p ∧
    notification_preferences (snd (update_notification_preference i u w))
    = write_back_preference (apply_update u p) (notification_preferences w).
Proof.
  unfold update_notification_preference, with_session, db_preference_by_id, call,
    preference.
  unfold_m. destruct w as [a b c0 d e f g h i0 j fs l t]. cbn.
  destruct fs as [|[t1|] fs]; cbn; auto;
    (destruct (List.find _ h) as [p|]; cbn; auto);
    try (destruct fs as [|[t2|] fs]; cbn; auto);
    (destruct (u_enabled u) as [[en|]|]; cbn; eauto);
    try (destruct fs as [|[t3|] fs]; cbn; eauto);
    right; eexists; split; reflexivity.
Qed.

Lemma delete_preferences i w :
  notification_preferences (snd (delete_notification_preference i w))
  = notification_preferences w ∨
  ∃ p, preference i w = Some p ∧
    notification_preferences (snd (delete_notification_preference i w))
    = List.filter (λ q, negb (Z.eqb (p_id q) (p_id p))) (notification_preferences w).
Proof.
  unfold delete_notification_preference, with_session, db_preference_by_id, call,
    preference.
  unfold_m. destruct w as [a b c0 d e f g h i0 j fs l t]. cbn.
  destruct fs as [|[t1|] fs]; cbn; auto;
    (destruct (List.find _ h) as [p|]; cbn; auto);
    try (destruct fs as [|[t2|] fs]; cbn; eauto);
    right; eexists; split; reflexivity.
Qed.

(** X21. The three routes that write preferences keep the table well
    keyed, whatever the request and whatever the store does: when ids are
    unique and no two rows have the same user and channel, this is still so
    after [create_notification_preference] (given a fresh id),
    [update_notification_preference] and [delete_notification_preference];
    and an update never changes the id, the user or the channel of a row. *)
Theorem preferences_stay_well_keyed w :
  well_keyed (notification_preferences w) →
  (∀ serial c, serial ∉ p_id <$> notification_preferences w →
     well_keyed (notification_preferences (snd (create_notification_preference serial c w)))) ∧
  (∀ i u,
     well_keyed (notification_preferences (snd (update_notification_preference i u w))) ∧
     p_id <$> notification_preferences (snd (update_notification_preference i u w))
     = p_id <$> notification_preferences w ∧
     pref_key <$> notification_preferences (snd (update_notification_preference i u w))
     = pref_key <$> notification_preferences w) ∧
  (∀ i, well_keyed (notification_preferences (snd (delete_notification_preference i w)))).
Proof.
  intros [Hid Hkey]. repeat split.
  - destruct (create_preferences serial c w) as [-> | [F ->]]; [exact Hid|].
    rewrite fmap_app. cbn. apply NoDup_app. repeat split; [exact Hid | | apply NoDup_singleton].
    intros x Hx Hx'. apply list_elem_of_singleton in Hx'. subst x. contradiction.
  - destruct (create_preferences serial c w) as [-> | [F ->]]; [exact Hkey|].
    rewrite fmap_app. cbn. apply NoDup_app. repeat split; [exact Hkey | | apply NoDup_singleton].
    intros x Hx Hx'. apply list_elem_of_singleton in Hx'. subst x.
    exact (find_none_key _ _ _ F Hx).
  - destruct (update_preferences i u w) as [-> | (p & F & ->)]; [exact Hid|].
    apply preference_found in F as [Hin _].
    destruct (write_back_preference_keys p (apply_update u p) _ Hid Hin eq_refl eq_refl)
      as [-> _]. exact Hid.
  - destruct (update_preferences i u w) as [-> | (p & F & ->)]; [exact Hkey|].
    apply preference_found in F as [Hin _].
    destruct (write_back_preference_keys p (apply_update u p) _ Hid Hin eq_refl eq_refl)
      as [_ ->]. exact Hkey.
  - destruct (update_preferences i u w) as [-> | (p & F & ->)]; [reflexivity|].
    apply preference_found in F as [Hin _].
    apply (write_back_preference_keys p (apply_update u p) _ Hid Hin eq_refl eq_refl).
  - destruct (update_preferences i u w) as [-> | (p & F & ->)]; [reflexivity|].
    apply preference_found in F as [Hin _].
    apply (write_back_preference_keys p (apply_update u p) _ Hid Hin eq_refl eq_refl).
  - destruct (delete_preferences i w) as [-> | (p & F & ->)]; [exact Hid|].
    apply NoDup_fmap_filter, Hid.
  - destruct (delete_preferences i w) as [-> | (p & F & ->)]; [exact Hkey|].
    apply NoDup_fmap_filter, Hkey.
Qed.

Lemma preferences_stay_well_keyed_witness :
  well_keyed (notification_preferences (preference_world [])) ∧
  pref_key <$> notification_preferences
                 (snd (update_notification_preference 1 switch_on (preference_world [])))
  = [("u1", "email")].
Proof.
  assert (well_keyed (notification_preferences (preference_world []))) as H.
  { split; apply NoDup_singleton. }
  split; [exact H|].
  exact (proj2 (proj2 (proj1 (proj2 (preferences_stay_well_keyed (preference_world []) H))
                         1 switch_on))).
Defined.

Lemma find_app_new {A} (f : A → bool) l x :
  List.find f l = None → f x = true → List.find f (l ++ [x]) = Some x.
Proof.
  intros F Hx. induction l as [|y l IH]; cbn in *; [rewrite Hx; reflexivity|].
  destruct (f y); [discriminate | auto].
Qed.

(** [create_notification_preference] when the check finds nothing and the
    commit goes through: the row is stored, and the call has the outcome of
    the refresh. *)
Lemma create_preference_run serial c w :
  List.find (matches_preference (c_user_id c) (c_channel c)) (notification_preferences w)
  = None →
  quiet 2 (faults w) = true →
  ∃ w', create_notification_preference serial c w
        = (match next_call (drop 2 (faults w)) with
           | Return _ => Return (new_preference serial c)
           | Raise e => Raise e
           end, w') ∧
    notification_preferences w' = notification_preferences w ++ [new_preference serial c] ∧
    faults w' = release (answered Statement (drop 2 (faults w))).
Proof.
  intros F Hq.
  unfold create_notification_preference, with_session, db_first_preference, call.
  unfold_m. destruct w as [a b c0 d e f g h i j fs l t]. cbn in *.
  destruct fs as [|[t1|] fs]; cbn in *; rewrite ?F; try discriminate;
    [eexists; split; [reflexivity|]; auto|].
  destruct fs as [|[t2|] fs]; cbn in *; try discriminate;
    [eexists; split; [reflexivity|]; auto|].
  destruct fs as [|[t3|] fs]; cbn; eexists; (split; [reflexivity|]); auto.
Qed.

(** X22. A reply can be lost after the row is stored: when the refresh
    that follows the commit of [create_notification_preference] raises, the
    caller gets that exception, but the preference is in the table, and the
    same request sent again is refused with the 400 for an existing
    preference. *)
Theorem create_preference_lost_reply serial serial' c w text rest :
  List.find (matches_preference (c_user_id c) (c_channel c)) (notification_preferences w)
  = None →
  faults w = None :: None :: Some text :: rest → quiet 1 rest = true →
  ∃ w1 w2,
    create_notification_preference serial c w = (Raise (Error text), w1) ∧
    notification_preferences w1 = notification_preferences w ++ [new_preference serial c] ∧
    create_notification_preference serial' c w1
    = (Raise (HTTPException 400
                ("Preference for channel " +:+ c_channel c
                 +:+ " already exists for this user")), w2) ∧
    notification_preferences w2 = notification_preferences w1.
Proof.
  intros F Hfs Hrest.
  destruct (create_preference_run serial c w F) as (w1 & E1 & Hp1 & Hf1).
  { rewrite Hfs. reflexivity. }
  rewrite Hfs in E1, Hf1. cbn [drop next_call answered refused] in E1, Hf1.
  assert (faults w1 = rest) as Hf1'.
  { rewrite Hf1. destruct (String.eqb text rolled_back); [reflexivity|].
    apply release_quiet, Hrest. }
  clear Hf1. rename Hf1' into Hf1.
  exists w1.
  assert (List.find (matches_preference (c_user_id c) (c_channel c))
            (notification_preferences w1) = Some (new_preference serial c)) as F1.
  { rewrite Hp1. apply find_app_new; [exact F|].
    unfold matches_preference. cbn. rewrite !String.eqb_refl. reflexivity. }
  eexists. split; [exact E1|]. split; [exact Hp1|].
  unfold create_notification_preference, with_session.
  unfold mbind at 1, M_bind at 1, bind at 1.
  rewrite (first_preference_run _ _ (set_session [] w1)) by (cbn; rewrite Hf1; exact Hrest).
  cbn [notification_preferences set_session]. rewrite F1. split; reflexivity.
Qed.

Lemma create_preference_lost_reply_witness :
  faults (set_faults [None; None; Some "connection lost"] (boot default_settings))
  = None :: None :: Some "connection lost" :: [] ∧
  ∃ w1 w2,
    create_notification_preference 1 email_request
      (set_faults [None; None; Some "connection lost"] (boot default_settings))
    = (Raise (Error "connection lost"), w1) ∧
    notification_preferences w1 = [new_preference 1 email_request] ∧
    create_notification_preference 2 email_request w1
    = (Raise (HTTPException 400
                "Preference for channel email already exists for this user"), w2) ∧
    notification_preferences w2 = notification_preferences w1.
Proof.
  split; [reflexivity|].
  exact (create_preference_lost_reply 1 2 email_request
           (set_faults [None; None; Some "connection lost"] (boot default_settings))
           "connection lost" [] eq_refl eq_refl eq_refl).
Defined.

(** X23. A request that cannot be carried out leaves the preferences as
    they are: [update_notification_preference] and
    [delete_notification_preference] raise the 404 that names the id when no
    row has it, and an update that sets [enabled] to null is refused by the
    store at the commit. *)
Theorem preference_request_refused i u w :
  quiet 2 (faults w) = true →
  (preference i w = None →
   (∃ w', update_notification_preference i u w
          = (Raise (HTTPException 404 ("Preference with ID " +:+ pretty i +:+ " not found")),
             w') ∧
      notification_preferences w' = notification_preferences w) ∧
   (∃ w', delete_notification_preference i w
          = (Raise (HTTPException 404 ("Preference with ID " +:+ pretty i +:+ " not found")),
             w') ∧
      notification_preferences w' = notification_preferences w)) ∧
  (is_Some (preference i w) → u_enabled u = Some None →
   ∃ text w', update_notification_preference i u w = (Raise (Error text), w') ∧
     notification_preferences w' = notification_preferences w).
Proof.
  intros Hq. pose proof (quiet_S 1 _ Hq) as Hq1.
  split; [intros F; split | intros [p F] Hnull].
  - unfold update_notification_preference, with_session.
    unfold mbind at 1, M_bind at 1, bind at 1.
    rewrite (preference_by_id_run i (set_session [] w) Hq1).
    change (preference i (set_session [] w)) with (preference i w). rewrite F.
    eexists; split; reflexivity.
  - unfold delete_notification_preference, with_session.
    unfold mbind at 1, M_bind at 1, bind at 1.
    rewrite (preference_by_id_run i (set_session [] w) Hq1).
    change (preference i (set_session [] w)) with (preference i w). rewrite F.
    eexists; split; reflexivity.
  - unfold update_notification_preference, with_session.
    unfold mbind at 1, M_bind at 1, bind at 1.
    rewrite (preference_by_id_run i (set_session [] w) Hq1).
    change (preference i (set_session [] w)) with (preference i w). rewrite F, Hnull.
    unfold mbind at 1, M_bind at 1, bind at 1.
    rewrite call_tail by exact (quiet_tail 1 _ Hq). cbn [faults set_faults set_session].
    eexists _, _. split; reflexivity.
Qed.

Lemma preference_request_refused_witness :
  quiet 2 (faults (preference_world [])) = true ∧
  preference 5 (preference_world []) = None ∧
  ∃ w', delete_notification_preference 5 (preference_world [])
        = (Raise (HTTPException 404 "Preference with ID 5 not found"), w') ∧
    notification_preferences w' = [disabled_preference].
Proof.
  split; [reflexivity|]. split; [reflexivity|].
  exact (proj2 (proj1 (preference_request_refused 5 switch_on (preference_world []) eq_refl)
                  eq_refl)).
Defined.

Lemma find_filter_out {A} (f g : A → bool) l :
  (∀ x, f x = true → g x = false) → List.find f (List.filter g l) = None.
Proof.
  intros H. induction l as [|x l IH]; cbn; [reflexivity|].
  destruct (g x) eqn:Eg; [|exact IH]. cbn.
  destruct (f x) eqn:Ef; [|exact IH]. rewrite (H x Ef) in Eg. discriminate.
Qed.

Lemma delete_preference_run i w p :
  preference i w = Some p → quiet 2 (faults w) = true →
  ∃ w', delete_notification_preference i w = (Return tt, w') ∧
    notification_preferences w'
    = List.filter (λ q, negb (Z.eqb (p_id q) i)) (notification_preferences w) ∧
    faults w' = release (drop 2 (faults w)).
Proof.
  intros F Hq. pose proof (preference_found _ _ _ F) as [_ Hid].
  unfold delete_notification_preference, with_session.
  unfold mbind at 1, M_bind at 1, bind at 1.
  rewrite (preference_by_id_run i (set_session [] w) (quiet_S 1 _ Hq)).
  change (preference i (set_session [] w)) with (preference i w). rewrite F.
  unfold mbind at 1, M_bind at 1, bind at 1.
  rewrite call_tail by exact (quiet_tail 1 _ Hq). cbn [faults set_faults set_session]. rewrite Hid.
  eexists. split; [reflexivity|]. split; [reflexivity|].
  cbn. destruct (faults w) as [|? [|? ?]]; reflexivity.
Qed.

(** X24. [delete_notification_preference] removes the rows with the given
    id and no other row: after it no preference has the id, every
    preference with another id is still there, and the same request sent
    again gets the 404. *)
Theorem delete_preference_twice i w :
  is_Some (preference i w) → quiet 3 (faults w) = true →
  ∃ w1 w2,
    delete_notification_preference i w = (Return tt, w1) ∧
    preference i w1 = None ∧
    (∀ q, q ∈ notification_preferences w → p_id q ≠ i → q ∈ notification_preferences w1) ∧
    (∀ q, q ∈ notification_preferences w1 → q ∈ notification_preferences w) ∧
    delete_notification_preference i w1
    = (Raise (HTTPException 404 ("Preference with ID " +:+ pretty i +:+ " not found")), w2).
Proof.
  intros [p F] Hq.
  destruct (delete_preference_run i w p F (quiet_S 2 _ Hq)) as (w1 & E1 & Hp1 & Hf1).
  assert (preference i w1 = None) as F1.
  { unfold preference. rewrite Hp1. apply find_filter_out.
    intros x ->. reflexivity. }
  exists w1. eexists. split; [exact E1|]. split; [exact F1|].
  split; [|split].
  - intros q Hin Hne. rewrite Hp1. apply list_elem_of_In, filter_In.
    split; [apply list_elem_of_In, Hin|]. apply negb_true_iff, Z.eqb_neq, Hne.
  - intros q Hin. rewrite Hp1 in Hin.
    apply list_elem_of_In, filter_In in Hin as [Hin _]. apply list_elem_of_In, Hin.
  - unfold delete_notification_preference, with_session.
    unfold mbind at 1, M_bind at 1, bind at 1.
    rewrite (preference_by_id_run i (set_session [] w1))
      by (cbn; rewrite Hf1, (release_drop 2 3) by (lia || exact Hq);
          apply (quiet_drop 2 1), Hq).
    change (preference i (set_session [] w1)) with (preference i w1). rewrite F1.
    reflexivity.
Qed.

Lemma delete_preference_twice_witness :
  is_Some (preference 1 (preference_world [])) ∧
  ∃ w1 w2,
    delete_notification_preference 1 (preference_world []) = (Return tt, w1) ∧
    preference 1 w1 = None ∧
    delete_notification_preference 1 w1
    = (Raise (HTTPException 404 "Preference with ID 1 not found"), w2).
Proof.
  assert (is_Some (preference 1 (preference_world []))) as H by (eexists; reflexivity).
  split; [exact H|].
  destruct (delete_preference_twice 1 (preference_world []) H eq_refl)
    as (w1 & w2 & E1 & F1 & _ & _ & E2).
  exists w1, w2. auto.
Defined.

Lemma update_preference_run i u w p :
  preference i w = Some p → u_enabled u ≠ Some None → quiet 3 (faults w) = true →
  ∃ w', update_notification_preference i u w = (Return (apply_update u p), w') ∧
    notification_preferences w'
    = write_back_preference (apply_update u p) (notification_preferences w) ∧
    faults w' = release (drop 3 (faults w)).
Proof.
  intros F Hen Hq.
  unfold update_notification_preference, with_session.
  unfold mbind at 1, M_bind at 1, bind at 1.
  rewrite (preference_by_id_run i (set_session [] w) (quiet_S 1 _ (quiet_S 2 _ Hq))).
  change (preference i (set_session [] w)) with (preference i w). rewrite F.
  unfold mbind at 1, M_bind at 1, bind at 1.
  rewrite call_tail by exact (quiet_S 1 _ (quiet_tail 2 _ Hq)). cbn [faults set_faults set_session].
  assert (∀ (k : M NotificationPreference) w0,
            match u_enabled u with
            | Some None =>
                raise (Error "null value in column enabled violates not-null constraint")
            | _ => k
            end w0 = k w0) as Hk.
  { intros k w0. destruct (u_enabled u) as [[b|]|]; congruence. }
  rewrite Hk.
  unfold mbind at 1, M_bind at 1, bind at 1, modify at 1.
  unfold mbind at 1, M_bind at 1, bind at 1.
  rewrite call_tail by exact (quiet_tail 1 _ (quiet_tail 2 _ Hq)). cbn [faults set_faults set_session set_notification_preferences].
  eexists. split; [reflexivity|]. split; [reflexivity|].
  cbn. destruct (faults w) as [|? [|? [|? ?]]]; reflexivity.
Qed.

Lemma apply_update_again u p : apply_update u (apply_update u p) = apply_update u p.
Proof.
  unfold apply_update. cbn.
  destruct (u_enabled u) as [[b|]|], (u_email u), (u_phone u), (u_webhook_url u),
    (u_settings u); reflexivity.
Qed.

Lemma find_write_back_preference i p' (prefs : list NotificationPreference) :
  p_id p' = i →
  (is_Some (List.find (λ q, Z.eqb (p_id q) i) prefs) →
   List.find (λ q, Z.eqb (p_id q) i) (write_back_preference p' prefs) = Some p') ∧
  (∀ j, j ≠ i →
   List.find (λ q, Z.eqb (p_id q) j) (write_back_preference p' prefs)
   = List.find (λ q, Z.eqb (p_id q) j) prefs).
Proof.
  intros Hid. unfold write_back_preference. rewrite Hid. split.
  - induction prefs as [|q l IH]; cbn; [intros [x [=]]|].
    destruct (Z.eqb_spec (p_id q) i) as [E|E]; cbn.
    + intros _. rewrite Hid, Z.eqb_refl. reflexivity.
    + apply Z.eqb_neq in E. rewrite E. exact IH.
  - intros j Hj. induction prefs as [|q l IH]; cbn; [reflexivity|].
    destruct (Z.eqb_spec (p_id q) i) as [E|E]; cbn.
    + rewrite Hid, E. apply not_eq_sym, Z.eqb_neq in Hj. rewrite Hj. exact IH.
    + rewrite IH. reflexivity.
Qed.

Lemma write_back_preference_again p' (prefs : list NotificationPreference) :
  write_back_preference p' (write_back_preference p' prefs) = write_back_preference p' prefs.
Proof.
  unfold write_back_preference. rewrite map_map. apply map_ext. intros q.
  destruct (Z.eqb_spec (p_id q) (p_id p')) as [E|E].
  - rewrite Z.eqb_refl. reflexivity.
  - apply Z.eqb_neq in E. rewrite E. reflexivity.
Qed.

(** X25. An update changes the addressed preference and nothing else, and
    may be repeated: [update_notification_preference] returns the row with
    the fields of the request applied, that row is then the one with the
    id, the rows with other ids are untouched, and the same request sent
    again returns the same row and leaves the table as it is. *)
Theorem update_preference_idempotent i u w p :
  preference i w = Some p → u_enabled u ≠ Some None → quiet 6 (faults w) = true →
  ∃ w1 w2,
    update_notification_preference i u w = (Return (apply_update u p), w1) ∧
    preference i w1 = Some (apply_update u p) ∧
    (∀ j, j ≠ i → preference j w1 = preference j w) ∧
    update_notification_preference i u w1 = (Return (apply_update u p), w2) ∧
    notification_preferences w2 = notification_preferences w1.
Proof.
  intros F Hen Hq.
  destruct (update_preference_run i u w p F Hen (quiet_le 3 6 _ ltac:(lia) Hq))
    as (w1 & E1 & Hp1 & Hf1).
  pose proof (preference_found _ _ _ F) as [_ Hid].
  destruct (find_write_back_preference i (apply_update u p) (notification_preferences w) Hid)
    as [Hi Hj].
  assert (preference i w1 = Some (apply_update u p)) as F1.
  { unfold preference. rewrite Hp1. apply Hi. unfold preference in F. rewrite F. eauto. }
  destruct (update_preference_run i u w1 _ F1 Hen) as (w2 & E2 & Hp2 & _).
  { rewrite Hf1, (release_drop 3 6) by (lia || exact Hq). apply (quiet_drop 3 3), Hq. }
  rewrite apply_update_again in E2, Hp2.
  exists w1, w2. split; [exact E1|]. split; [exact F1|]. split; [|split; [exact E2|]].
  - intros j Hne. unfold preference. rewrite Hp1. apply Hj, Hne.
  - rewrite Hp2, Hp1. apply write_back_preference_again.
Qed.

Lemma update_preference_idempotent_witness :
  preference 1 (preference_world []) = Some disabled_preference ∧
  ∃ w1 w2,
    update_notification_preference 1 switch_on (preference_world [])
    = (Return (apply_update switch_on disabled_preference), w1) ∧
    p_email <$> preference 1 w1 = Some None ∧
    update_notification_preference 1 switch_on w1
    = (Return (apply_update switch_on disabled_preference), w2) ∧
    notification_preferences w2 = notification_preferences w1.
Proof.
  split; [reflexivity|].
  assert (u_enabled switch_on ≠ Some None) as H by discriminate.
  destruct (update_preference_idempotent 1 switch_on (preference_world [])
              disabled_preference eq_refl H eq_refl) as (w1 & w2 & E1 & F1 & _ & E2 & Hp).
  exists w1, w2. split; [exact E1|]. split; [rewrite F1; reflexivity|]. auto.
Defined.

(** ** Listing *)

Lemma Forall_insert_by_created_desc (P : Notification → Prop) n l :
  P n → Forall P l → Forall P (insert_by_created_desc n l).
Proof.
  intros Hn. induction 1 as [|m l Hm Hl IH]; cbn; [repeat constructor; exact Hn|].
  destruct (created_le _ _); repeat constructor; auto.
Qed.

Lemma insert_by_created_desc_sorted n l :
  StronglySorted newer_first l → StronglySorted newer_first (insert_by_created_desc n l).
Proof.
  induction 1 as [|m l Hl IH Hm]; cbn; [repeat constructor|].
  destruct (created_le (n_created_at m) (n_created_at n)) eqn:E.
  - constructor; [constructor; assumption|].
    constructor; [exact E|].
    eapply Forall_impl; [exact Hm|]. intros x Hx.
    unfold newer_first in *. eapply created_le_trans; eauto.
  - constructor; [exact IH|].
    apply Forall_insert_by_created_desc; [|exact Hm].
    apply created_le_total, E.
Qed.

Lemma order_by_created_at_desc_sorted l :
  StronglySorted newer_first (order_by_created_at_desc l).
Proof.
  induction l as [|n l IH]; cbn; [constructor|].
  apply insert_by_created_desc_sorted, IH.
Qed.

Lemma insert_by_created_desc_perm n l : insert_by_created_desc n l ≡ₚ n :: l.
Proof.
  induction l as [|m l IH]; cbn; [reflexivity|].
  destruct (created_le _ _); [reflexivity|].
  rewrite IH. apply Permutation_swap.
Qed.

Lemma order_by_created_at_desc_perm l : order_by_created_at_desc l ≡ₚ l.
Proof.
  induction l as [|n l IH]; cbn; [reflexivity|].
  rewrite insert_by_created_desc_perm, IH. reflexivity.
Qed.

Lemma str_truthy_inv o : str_truthy o = true → ∃ s, o = Some s ∧ s ≠ "".
Proof.
  destruct o as [[|a s]|]; cbn; try discriminate. intros _. eexists. split; [reflexivity|].
  discriminate.
Qed.

Lemma str_truthy_not o s : str_truthy o = false → o = Some s → s = "".
Proof. intros H ->. destruct s; [reflexivity | discriminate]. Qed.

(** The rows the [WHERE] clauses let through are the rows that answer the
    request. *)
Lemma notifications_query_answers u st ty rows n :
  n ∈ notifications_query u st ty rows ↔ n ∈ rows ∧ answers u st ty n.
Proof.
  unfold notifications_query, answers, of_user.
  assert (∀ (f : Notification → bool) l, n ∈ List.filter f l ↔ n ∈ l ∧ f n = true) as Hf.
  { intros f l. rewrite !list_elem_of_In. apply filter_In. }
  destruct (str_truthy st) eqn:Es; destruct (str_truthy ty) eqn:Et;
    rewrite ?Hf, ?bool_decide_eq_true, ?String.eqb_eq.
  - apply str_truthy_inv in Es as (s & -> & Hs). apply str_truthy_inv in Et as (t & -> & Ht).
    cbn. split.
    + intros (((Hin & Hu) & H1) & H2). repeat split; auto; intros ? [= <-] _; auto.
    + intros (Hin & Hu & H1 & H2). auto.
  - apply str_truthy_inv in Es as (s & -> & Hs). cbn. split.
    + intros ((Hin & Hu) & H1). repeat split; auto; [intros ? [= <-] _; auto|].
      intros t E Hne. destruct Hne. exact (str_truthy_not _ _ Et E).
    + intros (Hin & Hu & H1 & H2). auto.
  - apply str_truthy_inv in Et as (t & -> & Ht). cbn. split.
    + intros ((Hin & Hu) & H1). repeat split; auto; [|intros ? [= <-] _; auto].
      intros s E Hne. destruct Hne. exact (str_truthy_not _ _ Es E).
    + intros (Hin & Hu & H1 & H2). auto.
  - split.
    + intros (Hin & Hu). repeat split; auto.
      * intros s E Hne. destruct Hne. exact (str_truthy_not _ _ Es E).
      * intros t E Hne. destruct Hne. exact (str_truthy_not _ _ Et E).
    + intros (Hin & Hu & _). auto.
Qed.

Lemma get_notifications_run u skip limit st ty w :
  quiet 1 (faults w) = true →
  ∃ w', get_notifications u skip limit st ty w
        = (Return (take (Z.to_nat limit)
                     (drop (Z.to_nat skip)
                        (order_by_created_at_desc
                           (notifications_query u st ty (notifications w))))), w') ∧
    notifications w' = notifications w.
Proof.
  intros Hq. unfold get_notifications, with_session.
  unfold mbind at 1, M_bind at 1, bind at 1.
  rewrite call_tail by exact Hq. cbn [faults set_session].
  eexists. split; reflexivity.
Qed.

(** X26. What [get_notifications] returns when the store answers: at most
    [limit] records, newest first, each of them a row of the table that
    belongs to the user and has the status and the type asked for; a filter
    given as the empty string is no filter. Without an offset, and when the
    limit is not reached, every such row is returned. The table is not
    changed. *)
Theorem get_notifications_result u skip limit st ty w :
  quiet 1 (faults w) = true →
  ∃ l w', get_notifications u skip limit st ty w = (Return l, w') ∧
    notifications w' = notifications w ∧
    (length l ≤ Z.to_nat limit)%nat ∧
    StronglySorted newer_first l ∧
    Forall (λ n, n ∈ notifications w ∧ answers u st ty n) l ∧
    ((skip ≤ 0)%Z → (length l < Z.to_nat limit)%nat →
     ∀ n, n ∈ notifications w → answers u st ty n → n ∈ l).
Proof.
  intros Hq.
  destruct (get_notifications_run u skip limit st ty w Hq) as (w' & E & Hn).
  eexists _, w'. split; [exact E|]. split; [exact Hn|].
  set (all := order_by_created_at_desc (notifications_query u st ty (notifications w))).
  assert (∀ n, n ∈ all ↔ n ∈ notifications w ∧ answers u st ty n) as Hall.
  { intros n. unfold all. rewrite order_by_created_at_desc_perm.
    apply notifications_query_answers. }
  split; [rewrite length_take; lia|].
  split; [|split].
  - pose proof (order_by_created_at_desc_sorted
                  (notifications_query u st ty (notifications w))) as Hs.
    fold all in Hs.
    rewrite <- (take_drop (Z.to_nat skip) all) in Hs.
    apply StronglySorted_app_1_r in Hs.
    rewrite <- (take_drop (Z.to_nat limit) (drop (Z.to_nat skip) all)) in Hs.
    eapply StronglySorted_app_1_l, Hs.
  - rewrite Forall_forall. intros n Hin. apply Hall.
    apply elem_of_take in Hin as (i & Hin & _). apply list_elem_of_lookup_2 in Hin.
    apply (subseteq_drop (Z.to_nat skip)), Hin.
  - intros Hskip Hlen n Hin Ha.
    replace (Z.to_nat skip) with 0%nat in * by lia. rewrite drop_0 in *.
    rewrite length_take in Hlen. rewrite take_ge by lia. apply Hall. auto.
Qed.

Lemma get_notifications_result_witness :
  quiet 1 (faults (world_with [email_record; sent_record; sms_record] [] [])) = true ∧
  ∃ l w', get_notifications "u1" 0 20 (Some "") None
            (world_with [email_record; sent_record; sms_record] [] []) = (Return l, w') ∧
    (length l ≤ 20)%nat ∧
    Forall (λ n, n ∈ [email_record; sent_record; sms_record] ∧ answers "u1" (Some "") None n) l.
Proof.
  split; [reflexivity|].
  destruct (get_notifications_result "u1" 0 20 (Some "") None
              (world_with [email_record; sent_record; sms_record] [] []) eq_refl)
    as (l & w' & E & _ & Hlen & _ & Hall & _).
  exists l, w'. auto.
Defined.

Lemma created_le_antisym a b : created_le a b = true → created_le b a = true → a = b.
Proof.
  destruct a as [x|], b as [y|]; cbn; try discriminate; auto.
  intros H1 H2. f_equal. lia.
Qed.

(** When no two records have the same [created_at], there is one way to
    put them newest first. *)
Lemma newest_first_unique (l1 : list Notification) : ∀ l2,
  NoDup (n_created_at <$> l1) → l1 ≡ₚ l2 →
  StronglySorted newer_first l1 → StronglySorted newer_first l2 → l1 = l2.
Proof.
  induction l1 as [|x l1 IH]; intros l2 Hnd Hp Hs1 Hs2.
  { apply Permutation_nil_l in Hp. congruence. }
  destruct l2 as [|y l2]; [apply Permutation_nil_r in Hp; discriminate|].
  cbn in Hnd. apply NoDup_cons in Hnd as [Hnin Hnd].
  apply StronglySorted_inv in Hs1 as [Hs1 Hx]. apply StronglySorted_inv in Hs2 as [Hs2 Hy].
  assert (x = y) as ->.
  { assert (x ∈ y :: l2) as H by (rewrite <- Hp; left).
    apply elem_of_cons in H as [|Hx2]; [assumption|].
    assert (y ∈ x :: l1) as H by (rewrite Hp; left).
    apply elem_of_cons in H as [|Hy1]; [congruence|]. exfalso.
    rewrite Forall_forall in Hx, Hy.
    pose proof (created_le_antisym _ _ (Hx y Hy1) (Hy x Hx2)) as E.
    apply Hnin. rewrite <- E. apply list_elem_of_fmap. eauto. }
  f_equal. apply IH; auto. eapply Permutation_cons_inv, Hp.
Qed.

Lemma get_notifications_page u skip limit st ty w :
  quiet 1 (faults w) = true →
  ∃ l w', get_notifications u skip limit st ty w = (Return l, w') ∧
    page_of (notifications_query u st ty (notifications w))
      (Z.to_nat skip) (Z.to_nat limit) l.
Proof.
  intros Hq.
  destruct (get_notifications_run u skip limit st ty w Hq) as (w' & E & _).
  eexists _, w'. split; [exact E|].
  exists (order_by_created_at_desc (notifications_query u st ty (notifications w))).
  split; [apply order_by_created_at_desc_perm|].
  split; [apply order_by_created_at_desc_sorted | reflexivity].
Qed.

Lemma pages_fit rows skip a b p1 p2 p :
  NoDup (n_created_at <$> rows) →
  page_of rows skip a p1 → page_of rows (skip + a) b p2 → page_of rows skip (a + b) p →
  p1 ++ p2 = p.
Proof.
  intros Hnd (l1 & P1 & S1 & ->) (l2 & P2 & S2 & ->) (l3 & P3 & S3 & ->).
  assert (NoDup (n_created_at <$> l1)) as Hnd1 by (rewrite P1; exact Hnd).
  rewrite <- (newest_first_unique l1 l2), <- (newest_first_unique l1 l3); auto;
    try (rewrite P1; symmetry; assumption).
  rewrite <- drop_drop. apply take_take_drop.
Qed.

(** Two records of "u1" with the same [created_at]. *)
Lemma pages_with_ties :
  ∃ rows p1 p2 p,
    page_of rows 0 1 p1 ∧ page_of rows 1 1 p2 ∧ page_of rows 0 2 p ∧ p1 ++ p2 ≠ p.
Proof.
  set (x := record 1 (Some "u1") "email" "sent" 5).
  set (y := record 2 (Some "u1") "email" "sent" 5).
  assert (StronglySorted newer_first [x; y]) as Hxy by (repeat constructor).
  assert (StronglySorted newer_first [y; x]) as Hyx by (repeat constructor).
  exists [x; y], [x], [x], [x; y]. repeat split.
  - exists [x; y]. auto.
  - exists [y; x]. split; [apply Permutation_swap | auto].
  - exists [x; y]. auto.
  - discriminate.
Qed.

(** X27. What [get_notifications] returns is a page of the rows that
    answer the request: these rows in an order that is newest first, from
    the offset on and cut at the limit. When no two of these rows have the
    same [created_at] there is one such order, and pages fit together
    whatever order each query has used: the page of [a] records at offset
    [skip] followed by the page of [b] records at offset [skip + a] is the
    page of [a + b] records at offset [skip]. Rows with the same
    [created_at] may come in another order in another query, and then a page
    can repeat a record of the page before it. *)
Theorem get_notifications_pages u st ty w :
  quiet 1 (faults w) = true →
  (∀ skip limit,
     ∃ l w', get_notifications u skip limit st ty w = (Return l, w') ∧
       page_of (notifications_query u st ty (notifications w))
         (Z.to_nat skip) (Z.to_nat limit) l) ∧
  (NoDup (n_created_at <$> notifications_query u st ty (notifications w)) →
   ∀ skip a b p1 p2 p, (0 ≤ skip)%Z → (0 ≤ a)%Z → (0 ≤ b)%Z →
     page_of (notifications_query u st ty (notifications w))
       (Z.to_nat skip) (Z.to_nat a) p1 →
     page_of (notifications_query u st ty (notifications w))
       (Z.to_nat (skip + a)) (Z.to_nat b) p2 →
     page_of (notifications_query u st ty (notifications w))
       (Z.to_nat skip) (Z.to_nat (a + b)) p →
     p1 ++ p2 = p) ∧
  (∃ rows p1 p2 p,
     page_of rows 0 1 p1 ∧ page_of rows 1 1 p2 ∧ page_of rows 0 2 p ∧ p1 ++ p2 ≠ p).
Proof.
  intros Hq. split; [intros skip limit; apply get_notifications_page, Hq|].
  split; [|exact pages_with_ties].
  intros Hnd skip a b p1 p2 p Hs Ha Hb H1 H2 H3.
  rewrite !Z2Nat.inj_add in * by lia.
  exact (pages_fit _ _ _ _ _ _ _ Hnd H1 H2 H3).
Qed.

Lemma get_notifications_pages_witness :
  quiet 1 (faults (world_with [email_record; record 2 (Some "u1") "email" "sent" 7] [] []))
  = true ∧
  ∃ l w', get_notifications "u1" 0 1 None None
            (world_with [email_record; record 2 (Some "u1") "email" "sent" 7] [] [])
          = (Return l, w') ∧
    page_of [email_record; record 2 (Some "u1") "email" "sent" 7] 0 1 l.
Proof.
  split; [reflexivity|].
  exact (proj1 (get_notifications_pages "u1" None None
                  (world_with [email_record; record 2 (Some "u1") "email" "sent" 7] [] [])
                  eq_refl) 0 1).
Defined.

(** ** The test notification *)

Lemma send_test_notification_run u c w p :
  List.find (matches_preference u c) (notification_preferences w) = Some p →
  quiet 2 (faults w) = true →
  ∃ w', send_test_notification u c w
        = (Return ("Test notification created successfully", Some (next_id w)), w') ∧
    notifications w' = notifications w ++ [inserted (next_id w) (now w) (test_record u c)] ∧
    next_id w' = next_id w + 1 ∧ session w' = [] ∧
    faults w' = release (drop 2 (faults w)) ∧ trace w' = trace w ∧ same_setting w w' ∧
    batch_size w' = batch_size w.
Proof.
  intros F Hq. unfold send_test_notification, with_session.
  unfold mbind at 1, M_bind at 1, bind at 1.
  rewrite (first_preference_run u c (set_session [] w) (quiet_S 1 _ Hq)).
  cbn [notification_preferences set_session]. rewrite F.
  fold (test_record u c).
  unfold mbind at 1, M_bind at 1, bind at 1, db_add at 1.
  unfold mbind at 1, M_bind at 1, bind at 1.
  match goal with |- context [db_commit ?w0] =>
    destruct (commit_run 0 w0 (quiet_tail 1 _ Hq)) as (fs & E & _ & Hfs); rewrite E end.
  cbn in Hfs. subst fs.
  eexists. split; [reflexivity|]. cbn.
  repeat split. destruct (faults w) as [|? [|? ?]]; reflexivity.
Qed.

(** X28. [send_test_notification] only queues: when the user has a
    preference for the channel (switched on or not) and the store works, it
    stores one record for that user and channel, of type "test", pending,
    with the next id and the time of the call, returns that id, and sends
    nothing itself. Without such a preference it raises the 404 that names
    the channel and stores nothing. *)
Theorem send_test_notification_creates u c w :
  quiet 2 (faults w) = true →
  (List.find (matches_preference u c) (notification_preferences w) = None →
   ∃ w', send_test_notification u c w
         = (Raise (HTTPException 404 ("No preference found for channel " +:+ c)), w') ∧
     notifications w' = notifications w) ∧
  (is_Some (List.find (matches_preference u c) (notification_preferences w)) →
   ∃ w' rec,
     send_test_notification u c w
     = (Return ("Test notification created successfully", Some (next_id w)), w') ∧
     notifications w' = notifications w ++ [rec] ∧
     n_id rec = Some (next_id w) ∧ n_status rec = "pending" ∧
     n_user_id rec = Some u ∧ n_channel rec = c ∧ n_type rec = "test" ∧
     n_created_at rec = Some (now w) ∧
     trace w' = trace w).
Proof.
  intros Hq. split.
  - intros F. unfold send_test_notification, with_session.
    unfold mbind at 1, M_bind at 1, bind at 1.
    rewrite (first_preference_run u c (set_session [] w) (quiet_S 1 _ Hq)).
    cbn [notification_preferences set_session]. rewrite F.
    eexists. split; reflexivity.
  - intros [p F].
    destruct (send_test_notification_run u c w p F Hq) as (w' & E & Hn & _ & _ & _ & Ht & _).
    exists w', (inserted (next_id w) (now w) (test_record u c)).
    split; [exact E|]. split; [exact Hn|]. repeat split. exact Ht.
Qed.

Lemma send_test_notification_creates_witness :
  quiet 2 (faults (mail_world [])) = true ∧
  is_Some (List.find (matches_preference "u1" "email")
             (notification_preferences (mail_world []))) ∧
  ∃ w' rec,
    send_test_notification "u1" "email" (mail_world [])
    = (Return ("Test notification created successfully", Some 10), w') ∧
    notifications w' = [email_record; rec] ∧ n_status rec = "pending".
Proof.
  assert (is_Some (List.find (matches_preference "u1" "email")
                     (notification_preferences (mail_world [])))) as H
    by (eexists; reflexivity).
  split; [reflexivity|]. split; [exact H|].
  destruct (proj2 (send_test_notification_creates "u1" "email" (mail_world []) eq_refl) H)
    as (w' & rec & E & Hn & _ & Hs & _).
  exists w', rec. auto.
Defined.

(** * One sweep, seen from the table *)

(** ** One record leaves the others alone *)

Lemma others_refl r w : others r w w.
Proof. intros r' n' _ H _. exact H. Qed.

Lemma others_trans r a b c : others r a b → others r b c → others r a c.
Proof. intros Hab Hbc r' n' Hne H Hid. apply Hbc; auto. Qed.

Lemma others_session r w w' : session w' = session w → others r w w'.
Proof. intros E r' n' _ H _. rewrite E. exact H. Qed.

Lemma others_bind {A B} r (m : M A) (k : A → M B) :
  frame (others r) m → (∀ a, frame (others r) (k a)) → frame (others r) (m ≫= k).
Proof.
  intros Hm Hk w. unfold mbind, M_bind, bind.
  specialize (Hm w). destruct (m w) as [[a|e] w1]; cbn in *; [|exact Hm].
  eapply others_trans; [exact Hm | apply Hk].
Qed.

Lemma others_try {A} r (body : M A) handler :
  frame (others r) body → (∀ e, frame (others r) (handler e)) →
  frame (others r) (try_except body handler).
Proof.
  intros Hb Hh w. unfold try_except.
  specialize (Hb w). destruct (body w) as [[a|e] w1]; cbn in *; [exact Hb|].
  eapply others_trans; [exact Hb | apply Hh].
Qed.

Lemma others_setattr r f : frame (others r) (setattr f r).
Proof.
  intros w r' n' Hne H _. cbn. rewrite list_lookup_alter_ne by auto. exact H.
Qed.

Lemma others_commit r : frame (others r) db_commit.
Proof.
  intros w r' n' _ H Hid.
  destruct (commit_next w) as (w1 & E & _ & _ & _ & _ & Hobj). rewrite E. cbn. auto.
Qed.

Lemma others_set_status r v : frame (others r) (set_status v r).
Proof.
  intros w. rewrite set_status_run. cbn.
  intros r' n' Hne H _. cbn. rewrite list_lookup_alter_ne by auto. exact H.
Qed.

Lemma others_tail r :
  frame (others r) (t ← utcnow; setattr (with_updated_at (Some t)) r;; db_commit).
Proof.
  apply others_bind; [intros w; apply others_refl|]. intros t.
  apply others_bind; [apply others_setattr|]. intros _. apply others_commit.
Qed.

Lemma channel_session r w : session (snd (send_notification_channel r w)) = session w.
Proof.
  unfold send_notification_channel, db_first_preference.
  unfold mbind, M_bind, bind, getattr, get_world, mret, M_ret, ret.
  destruct (String.eqb _ "email"); [|destruct (String.eqb _ "database"); reflexivity].
  destruct (str_truthy _); [|reflexivity].
  rewrite call_next. destruct (next_call (faults w)) as [[]|e]; [|reflexivity].
  destruct (List.find _ _) as [p|]; [|reflexivity].
  destruct (str_truthy (p_email p)); [|reflexivity].
  match goal with |- context [send_email ?a ?b ?c ?d ?e ?f ?w0] =>
    destruct (send_email_run a b c d e f w0) as (w' & E & Hs & _); rewrite E end.
  exact Hs.
Qed.

Lemma others_send_notification r : frame (others r) (send_notification r).
Proof.
  apply others_try.
  - unfold send_notification_try.
    apply others_bind.
    { unfold mark_processing. apply others_bind; [apply others_set_status|].
      intros _. apply others_tail. }
    intros _. apply others_bind.
    { intros w. apply others_session, channel_session. }
    intros b. unfold record_outcome. apply others_bind; [|intros _; apply others_tail].
    destruct b.
    + apply others_bind; [apply others_set_status|]. intros _.
      apply others_bind; [intros w; apply others_refl|]. intros t. apply others_setattr.
    + apply others_bind; [apply others_set_status|]. intros _. apply others_setattr.
  - intros e. unfold send_notification_except.
    apply others_bind.
    { intros w. apply others_session. unfold loaded.
      destruct (deactivated w); reflexivity. }
    intros _.
    apply others_bind; [apply others_set_status|]. intros _.
    apply others_bind; [apply others_setattr|]. intros _. apply others_tail.
Qed.

Lemma for_each_others l r w n :
  r ∉ l → session w !! r = Some n → is_Some (n_id n) →
  session (snd (for_each send_notification l w)) !! r = Some n.
Proof.
  revert w. induction l as [|r0 l IH]; intros w Hnin H Hid; [exact H|].
  apply not_elem_of_cons in Hnin as [Hne Hnin].
  cbn [for_each]. unfold mbind, M_bind, bind.
  pose proof (others_send_notification r0 w r n Hne H Hid) as H1.
  destruct (send_notification r0 w) as [[[]|e] w1]; cbn in *; [|exact H1].
  apply IH; assumption.
Qed.

(** ** Every record of a batch is dealt with *)

Lemma identity_framing r n :
  is_Some (n_id n) →
  framing (keeps r (same_identity n)) (λ _, True)
    (λ f, ∀ n1, same_identity n n1 → same_identity n (f n1)).
Proof.
  intros [i Hid]. apply keeps_framing. intros k t n1 Hnone (H & _). congruence.
Qed.

(** What a [send_notification] that returns leaves behind [r]: the same
    record, dealt with. *)
Lemma send_notification_object r w w' n :
  session w !! r = Some n → is_Some (n_id n) →
  send_notification r w = (Return tt, w') →
  ∃ n', session w' !! r = Some n' ∧ same_identity n n' ∧ dealt_with n'.
Proof.
  intros Hn Hid E.
  assert (frame (keeps r (same_identity n)) (send_notification r)) as H.
  { eapply frame_send_notification; eauto using identity_framing; cbn; auto. }
  destruct (H w n Hn) as (n' & Hn' & Hsame); [repeat split|].
  destruct (send_notification_returned r w w' n E Hn) as (n'' & Hn'' & Hs & _).
  rewrite E in Hn'. cbn [snd] in Hn'.
  rewrite Hn' in Hn''. injection Hn'' as <-.
  exists n'. auto.
Qed.

Lemma no_fault_returns {A} (m : M A) w :
  pays m → fault_count (faults w) = 0%nat →
  ∃ a w', m w = (Return a, w') ∧ fault_count (faults w') = 0%nat.
Proof.
  intros Hp H0. specialize (Hp w).
  destruct (m w) as [[a|e] w']; [|lia]. exists a, w'. split; [reflexivity | lia].
Qed.

Lemma same_identity_id n n' : same_identity n n' → n_id n' = n_id n.
Proof. intros (H & _). exact H. Qed.

(** A loop over distinct references, while nothing fails: it returns, and
    each of the records is left dealt with. *)
Lemma for_each_settles l : ∀ w,
  NoDup l → fault_count (faults w) = 0%nat →
  (∀ r, r ∈ l → ∃ n, session w !! r = Some n ∧ is_Some (n_id n)) →
  ∃ w', for_each send_notification l w = (Return tt, w') ∧
    fault_count (faults w') = 0%nat ∧
    ∀ r n, r ∈ l → session w !! r = Some n →
      ∃ n', session w' !! r = Some n' ∧ same_identity n n' ∧ dealt_with n'.
Proof.
  induction l as [|r0 l IH]; intros w Hnd H0 Hobj.
  { exists w. split; [reflexivity|]. split; [exact H0|]. intros r n Hin. inversion Hin. }
  apply NoDup_cons in Hnd as [Hnin Hnd].
  destruct (no_fault_returns _ w (pays_send_notification r0) H0) as ([] & w1 & E1 & H1).
  destruct (Hobj r0 (list_elem_of_here _ _)) as (n0 & Hn0 & Hid0).
  destruct (send_notification_object r0 w w1 n0 Hn0 Hid0 E1) as (n0' & Hn0' & Hsame0 & Hd0).
  pose proof (others_send_notification r0 w) as Hoth.
  rewrite E1 in Hoth. cbn [snd] in Hoth.
  destruct (IH w1 Hnd H1) as (w2 & E2 & H2 & Hall).
  { intros r Hin. destruct (Hobj r (list_elem_of_further _ _ _ Hin)) as (n & Hn & Hid).
    exists n. split; [|exact Hid]. apply Hoth; auto. intros ->. contradiction. }
  exists w2. split.
  { cbn [for_each]. unfold mbind, M_bind, bind. rewrite E1. exact E2. }
  split; [exact H2|].
  intros r n Hin Hn. apply elem_of_cons in Hin as [-> | Hin].
  - rewrite Hn0 in Hn. injection Hn as <-.
    exists n0'. split; [|auto].
    pose proof (for_each_others l r0 w1 n0' Hnin Hn0') as Hk.
    rewrite E2 in Hk. apply Hk.
    rewrite (same_identity_id _ _ Hsame0). exact Hid0.
  - destruct (Hobj r (list_elem_of_further _ _ _ Hin)) as (n1 & Hn1 & Hid).
    rewrite Hn in Hn1. injection Hn1 as <-.
    apply Hall; [exact Hin|]. apply Hoth; auto. intros ->. contradiction.
Qed.

Lemma flush_session_ids l t k :
  Forall (λ n, is_Some (n_id n)) l → flush_session l t k = l.
Proof.
  induction 1 as [|o l [i Hi] _ IH]; cbn; [reflexivity|]. rewrite Hi, IH. reflexivity.
Qed.

Lemma has_ids_fmap (l l' : list Notification) :
  n_id <$> l' = n_id <$> l →
  Forall (λ n, is_Some (n_id n)) l → Forall (λ n, is_Some (n_id n)) l'.
Proof.
  intros E H.
  apply (Forall_fmap n_id is_Some). rewrite E. apply Forall_fmap. exact H.
Qed.

Lemma ids_framing :
  framing same_ids (λ _, True) (λ f, ∀ n, n_id (f n) = n_id n).
Proof.
  split; unfold same_ids; cbn; auto.
  - intros a b c Hab Hbc H. rewrite Hbc, Hab; auto.
    eapply has_ids_fmap; [apply Hab|]; exact H.
  - intros f r w Hf _.
    apply list_eq. intros j. rewrite !list_lookup_fmap.
    destruct (decide (j = r)) as [->|Hne].
    + rewrite list_lookup_alter_eq. destruct (session w !! r); cbn; [|reflexivity].
      rewrite Hf. reflexivity.
    + rewrite list_lookup_alter_ne by auto. reflexivity.
  - intros w H. rewrite flush_session_ids by exact H. reflexivity.
Qed.

Lemma ids_send_notification r : frame same_ids (send_notification r).
Proof. eapply frame_send_notification; eauto using ids_framing; cbn; auto. Qed.

Lemma find_is_Some {A} (f : A → bool) l x :
  x ∈ l → f x = true → is_Some (List.find f l).
Proof.
  intros Hin Hx. destruct (List.find f l) as [y|] eqn:F; [eauto|].
  apply list_elem_of_In in Hin. rewrite (find_none _ _ F x Hin) in Hx. discriminate.
Qed.

Lemma find_app_is_Some {A} (f : A → bool) l k :
  is_Some (List.find f l) → is_Some (List.find f (l ++ k)).
Proof.
  intros [x F]. apply find_some in F as [Hin Hx].
  apply (find_is_Some f _ x); [|exact Hx].
  apply elem_of_app. left. apply list_elem_of_In, Hin.
Qed.

Lemma flush_rows_stays i objs : ∀ t k rows,
  is_Some (List.find (λ x, bool_decide (n_id x = Some i)) rows) →
  is_Some (List.find (λ x, bool_decide (n_id x = Some i)) (flush_rows objs t k rows)).
Proof.
  induction objs as [|o objs IH]; intros t k rows H; [exact H|].
  cbn [flush_rows]. destruct (n_id o) as [j|] eqn:Hj.
  - apply IH. destruct (decide (j = i)) as [->|Hne].
    + destruct H as [x F]. rewrite (find_write_back i o rows x Hj F). eauto.
    + rewrite find_write_back_ne by congruence. exact H.
  - apply IH, find_app_is_Some, H.
Qed.

Lemma stays_framing i : framing (stays i) (λ _, True) (λ _, True).
Proof.
  split; unfold stays, row; cbn; auto.
  intros w. apply flush_rows_stays.
Qed.

Lemma stays_send_notification i r : frame (stays i) (send_notification r).
Proof. eapply frame_send_notification; eauto using stays_framing; cbn; auto. Qed.

(** A flush writes each object of the session to the row with its id. *)
Lemma flush_rows_row i o objs : ∀ r t k rows,
  Forall (λ n, is_Some (n_id n)) objs → NoDup (n_id <$> objs) →
  objs !! r = Some o → n_id o = Some i →
  is_Some (List.find (λ x, bool_decide (n_id x = Some i)) rows) →
  List.find (λ x, bool_decide (n_id x = Some i)) (flush_rows objs t k rows) = Some o.
Proof.
  induction objs as [|o' objs IH]; intros r t k rows Hids Hnd Hr Hi Hrow; [discriminate|].
  apply Forall_cons in Hids as [[j Hj] Hids].
  cbn in Hnd. apply NoDup_cons in Hnd as [Hnin Hnd].
  cbn [flush_rows]. rewrite Hj.
  destruct r as [|r]; cbn in Hr.
  - injection Hr as ->.
    assert (Forall (λ x, is_Some (n_id x) ∧ n_id x ≠ Some i) objs) as Haway.
    { rewrite Forall_forall in *. intros x Hx. split; [auto|].
      intros E. apply Hnin. rewrite Hi, <- E. apply list_elem_of_fmap. eauto. }
    destruct (flush_away i objs t k (write_back o rows) Haway) as (_ & _ & ->).
    destruct Hrow as [x F]. apply (find_write_back i o rows x Hi F).
  - apply (IH r); auto.
    rewrite find_write_back_ne; [exact Hrow|].
    intros E. apply Hnin. rewrite E, <- Hi. apply list_elem_of_fmap.
    exists o. split; [reflexivity|]. eapply list_elem_of_lookup_2, Hr.
Qed.

Lemma fault_count_quiet k : ∀ fs, fault_count fs = 0%nat → quiet k fs = true.
Proof.
  unfold fault_count. induction k as [|k IH]; intros fs H; [reflexivity|].
  destruct fs as [|[t|] fs]; cbn in *; auto. discriminate.
Qed.

Lemma NoDup_fmap_take {A B} (f : A → B) k l : NoDup (f <$> l) → NoDup (f <$> take k l).
Proof.
  intros H. rewrite <- (take_drop k l), fmap_app in H.
  apply NoDup_app in H as (H & _). exact H.
Qed.

Lemma select_pending_keyed limit rows : keyed rows → keyed (select_pending limit rows).
Proof.
  intros [Hids Hnd]. split; [apply select_pending_ids, Hids|].
  unfold select_pending. apply NoDup_fmap_take.
  rewrite order_by_created_at_perm. apply NoDup_fmap_filter, Hnd.
Qed.

(** One sweep, while nothing fails: it returns, and each selected record
    is then in the table, dealt with. *)
Lemma batch_settles w :
  keyed (notifications w) → (0 ≤ batch_size w)%Z → fault_count (faults w) = 0%nat →
  ∃ w', process_pending_batch w = (Return tt, w') ∧
    ∀ n, n ∈ select_pending (Z.to_nat (batch_size w)) (notifications w) →
      ∃ i n', n_id n = Some i ∧ row i w' = Some n' ∧
        same_identity n n' ∧ dealt_with n' ∧
        n' ∉ select_pending (Z.to_nat (batch_size w')) (notifications w').
Proof.
  intros Hkeyed Hsize H0. rewrite batch_run.
  set (batch := select_pending (Z.to_nat (batch_size w)) (notifications w)).
  destruct (select_pending_keyed (Z.to_nat (batch_size w)) _ Hkeyed) as [Hbids Hbnd].
  fold batch in Hbids, Hbnd.
  unfold mbind at 1, M_bind at 1, bind at 1.
  destruct (no_fault_returns _ (set_session [] w) (pays_select_pending _ Hsize) H0)
    as (refs & w1 & E1 & H1).
  destruct (select_run (batch_size w) (set_session [] w) eq_refl)
    as [(e & w1' & E & _) | (w1' & E & Hs1 & _ & Hn1)]; [congruence|].
  rewrite E1 in E. injection E as -> <-. rewrite E1.
  cbn [notifications set_session] in Hs1, Hn1. fold batch in Hs1 |- *.
  unfold mbind at 1, M_bind at 1, bind at 1.
  destruct (for_each_settles (seq 0 (length batch)) w1 (NoDup_seq _ _) H1)
    as (w2 & E2 & H2 & Hall).
  { intros r Hr. apply elem_of_seq in Hr.
    destruct (lookup_lt_is_Some_2 batch r ltac:(lia)) as [n Hn].
    exists n. rewrite Hs1. split; [exact Hn|].
    rewrite Forall_forall in Hbids. eapply Hbids, list_elem_of_lookup_2, Hn. }
  rewrite E2.
  destruct (commit_run 0 w2 (fault_count_quiet 1 _ H2)) as (fs & E3 & _).
  rewrite E3. eexists. split; [reflexivity|].
  assert (n_id <$> session w2 = n_id <$> batch) as Hids2.
  { pose proof (frame_for_each _ _ _ ids_framing send_notification
                  (seq 0 (length batch)) ids_send_notification w1) as H.
    rewrite E2 in H. rewrite <- Hs1. apply H. rewrite Hs1. exact Hbids. }
  intros n Hin.
  apply list_elem_of_lookup_1 in Hin as [r Hr].
  pose proof Hbids as Hid. rewrite Forall_forall in Hid.
  destruct (Hid n (list_elem_of_lookup_2 _ _ _ Hr)) as [i Hi].
  assert (r ∈ seq 0 (length batch)) as Hrin.
  { apply elem_of_seq. apply lookup_lt_Some in Hr. lia. }
  rewrite <- Hs1 in Hr.
  destruct (Hall r n Hrin Hr) as (n' & Hn' & Hsame & Hd).
  assert (row i (set_session [] (flush (set_faults fs w2))) = Some n') as Hrow.
  { unfold row. cbn [notifications set_session flush set_next_id set_notifications set_faults
                      session now next_id].
    apply (flush_rows_row i n' _ r).
    - eapply has_ids_fmap; [exact Hids2 | exact Hbids].
    - rewrite Hids2. exact Hbnd.
    - exact Hn'.
    - rewrite (same_identity_id _ _ Hsame). exact Hi.
    - pose proof (frame_for_each _ _ _ (stays_framing i) send_notification
                    (seq 0 (length batch)) (stays_send_notification i) w1) as H.
      rewrite E2 in H. apply H. unfold row. rewrite Hn1.
      apply (find_is_Some _ _ n).
      + apply (select_pending_in (Z.to_nat (batch_size w))).
        rewrite Hs1 in Hr. eapply list_elem_of_lookup_2, Hr.
      + apply bool_decide_eq_true_2, Hi. }
  exists i, n'. split; [exact Hi|]. split; [exact Hrow|]. split; [exact Hsame|].
  split; [exact Hd|].
  intros Hsel.
  pose proof (select_pending_pending (Z.to_nat (batch_size
                (set_session [] (flush (set_faults fs w2)))))
                (notifications (set_session [] (flush (set_faults fs w2))))) as Hp.
  rewrite Forall_forall in Hp. specialize (Hp n' Hsel).
  destruct Hd as [Hd | Hd]; rewrite Hd in Hp; discriminate.
Qed.

(** X29. One sweep deals with every record it selects: when the store and
    the SMTP server work, [process_pending_batch] returns, and each selected
    record is then in the table as the same record with status "sent" or
    "failed", so that the next sweep does not select it again. *)
Theorem sweep_settles_selected w :
  keyed (notifications w) → (0 ≤ batch_size w)%Z → fault_count (faults w) = 0%nat →
  ∃ w', process_pending_batch w = (Return tt, w') ∧
    ∀ n, n ∈ select_pending (Z.to_nat (batch_size w)) (notifications w) →
      ∃ i n', n_id n = Some i ∧ row i w' = Some n' ∧
        same_identity n n' ∧ dealt_with n' ∧
        n' ∉ select_pending (Z.to_nat (batch_size w')) (notifications w').
Proof. exact (batch_settles w). Qed.

Lemma sweep_settles_selected_witness :
  keyed (notifications (three_pending 5 6 7)) ∧
  ∃ w', process_pending_batch (three_pending 5 6 7) = (Return tt, w') ∧
    ∀ n, n ∈ select_pending 2 (notifications (three_pending 5 6 7)) →
      ∃ i n', n_id n = Some i ∧ row i w' = Some n' ∧ dealt_with n'.
Proof.
  assert (keyed (notifications (three_pending 5 6 7))) as H.
  { split; [repeat constructor; eexists; reflexivity|].
    cbn. repeat (apply NoDup_cons; split; [rewrite ?elem_of_cons, ?elem_of_nil; intuition congruence|]).
    apply NoDup_nil_2. }
  split; [exact H|].
  destruct (sweep_settles_selected (three_pending 5 6 7) H ltac:(cbn; lia) eq_refl)
    as (w' & E & Hall).
  exists w'. split; [exact E|].
  intros n Hn. destruct (Hall n Hn) as (i & n' & Hi & Hrow & _ & Hd & _). eauto.
Defined.

(** * From the request to the mailbox *)

Lemma select_pending_quiet limit w :
  faults w = [] → (0 ≤ limit)%Z →
  db_select_pending limit w
  = (Return (seq (length (session w))
               (length (select_pending (Z.to_nat limit) (notifications w)))),
     set_session (session w ++ select_pending (Z.to_nat limit) (notifications w)) w).
Proof.
  intros Hf Hl. unfold db_select_pending, call. unfold_m. rewrite Hf.
  destruct (Z.ltb_spec limit 0); [lia | reflexivity].
Qed.

Lemma select_pending_new limit rows n :
  Forall (λ x, n_status x ≠ "pending") rows → n_status n = "pending" → (0 < limit)%nat →
  select_pending limit (rows ++ [n]) = [n].
Proof.
  intros Hrows Hn Hl. unfold select_pending.
  assert (List.filter is_pending (rows ++ [n]) = [n]) as ->.
  { rewrite List.filter_app. rewrite (filter_none is_pending rows).
    - cbn. unfold is_pending. rewrite Hn. reflexivity.
    - eapply Forall_impl; [exact Hrows|]. intros x Hx. apply String.eqb_neq, Hx. }
  destruct limit; [lia|]. cbn. rewrite take_nil. reflexivity.
Qed.

(** X30. From the request to the mailbox: after [send_test_notification]
    for a user whose "email" preference has an address, the next sweep
    delivers the test record when the provider is configured, nothing else
    is pending and nothing fails. The message goes to the address of the
    preference with the subject "Test Notification", and the record with
    the id the route returned is then stored with status "sent". *)
Theorem test_notification_delivered u p a w :
  u ≠ "" →
  List.find (matches_preference u "email") (notification_preferences w) = Some p →
  p_email p = Some a → a ≠ "" →
  configured (email_provider w) = true →
  Forall (λ n, n_status n ≠ "pending") (notifications w) →
  (0 < batch_size w)%Z → faults w = [] →
  ∃ w1 w2 m n',
    send_test_notification u "email" w
    = (Return ("Test notification created successfully", Some (next_id w)), w1) ∧
    process_pending_batch w1 = (Return tt, w2) ∧
    smtp_sends (trace w2) = m :: smtp_sends (trace w) ∧
    msg_To m = a ∧ msg_Subject m = Some "Test Notification" ∧
    row (next_id w) w2 = Some n' ∧ n_status n' = "sent" ∧ n_user_id n' = Some u.
Proof.
  intros Hu F Ha Hane Hconf Hrows Hsize Hfs.
  destruct (send_test_notification_run u "email" w p F)
    as (w1 & E1 & Hn1 & _ & Hs1 & Hf1 & Ht1 & (Hnow1 & Hp1 & Hm1) & Hb1).
  { rewrite Hfs. reflexivity. }
  rewrite Hfs in Hf1. cbn [drop] in Hf1.
  set (rec := inserted (next_id w) (now w) (test_record u "email")) in *.
  assert (select_pending (Z.to_nat (batch_size w1)) (notifications w1) = [rec]) as Hsel.
  { rewrite Hn1, Hb1. apply select_pending_new; [exact Hrows | reflexivity | lia]. }
  exists w1. rewrite batch_run.
  unfold mbind at 1, M_bind at 1, bind at 1.
  rewrite (select_pending_quiet (batch_size w1) (set_session [] w1) Hf1) by lia.
  cbn [notifications session set_session length app]. rewrite Hsel.
  cbn [length seq for_each app].
  set (w1' := set_session [rec] (set_session [] w1)).
  assert ("email" = "email") as Hc by reflexivity.
  destruct (email_record_run 0 w1' rec u p a eq_refl (ex_intro _ (next_id w) eq_refl)
              Hc eq_refl Hu) as (w2 & n' & m & E2 & Hn2 & Hst & _ & _ & Hsm & Hto & Hsubj);
    [cbn; rewrite Hp1; exact F | exact Ha | exact Hane
    | cbn; rewrite Hm1; exact Hconf | cbn; rewrite Hf1; reflexivity |].
  rewrite (bind_Return _ _ w1' tt w2)
    by (rewrite (bind_Return _ _ _ _ _ E2); reflexivity).
  pose proof (pays_send_notification 0 w1') as Hpay. rewrite E2 in Hpay.
  assert (fault_count (faults w2) = 0%nat) as H0.
  { assert (fault_count (faults w1') = 0%nat) as H0'
      by (unfold w1'; cbn [faults set_session]; rewrite Hf1; reflexivity).
    cbn beta iota in Hpay. lia. }
  destruct (commit_run 0 w2 (fault_count_quiet 1 _ H0)) as (fs & E3 & _).
  rewrite E3. eexists _, m, n'. split; [exact E1|]. split; [reflexivity|].
  split.
  { cbn [trace set_session flush set_faults set_next_id set_notifications].
    rewrite Hsm. unfold w1'. cbn [trace set_session]. rewrite Ht1. reflexivity. }
  split; [exact Hto|]. split; [exact Hsubj|].
  destruct (send_notification_object 0 w1' w2 rec eq_refl (ex_intro _ (next_id w) eq_refl) E2)
    as (n2 & Hn2' & Hsame & _).
  rewrite Hn2 in Hn2'. injection Hn2' as <-.
  pose proof (same_identity_id _ _ Hsame) as Hid2. cbn in Hid2.
  pose proof (ids_send_notification 0 w1') as Hids. rewrite E2 in Hids.
  specialize (Hids ltac:(repeat constructor; eexists; reflexivity)).
  cbn [snd session w1' set_session fmap list_fmap] in Hids.
  assert (session w2 = [n']) as Hs2.
  { destruct (session w2) as [|x [|y l]]; try discriminate.
    cbn in Hn2. congruence. }
  split.
  - unfold row.
    cbn [notifications set_session flush set_next_id set_notifications set_faults
         session now next_id].
    apply (flush_rows_row (next_id w) n' _ 0%nat).
    + rewrite Hs2. repeat constructor. rewrite Hid2. eauto.
    + rewrite Hs2. cbn. apply NoDup_singleton.
    + exact Hn2.
    + exact Hid2.
    + pose proof (stays_send_notification (next_id w) 0 w1') as Hstay.
      rewrite E2 in Hstay. apply Hstay. unfold row.
      cbn [notifications w1' set_session]. rewrite Hn1.
      apply (find_is_Some _ _ rec); [apply elem_of_app; right; apply list_elem_of_here|].
      apply bool_decide_eq_true_2. reflexivity.
  - split; [exact Hst|]. destruct Hsame as (_ & Huser & _). exact Huser.
Qed.

Lemma test_notification_delivered_witness :
  configured (email_provider (mail_world [])) = true ∧
  ∃ w0, faults w0 = [] ∧
  ∃ w1 w2 m n',
    send_test_notification "u1" "email" w0
    = (Return ("Test notification created successfully", Some 10), w1) ∧
    process_pending_batch w1 = (Return tt, w2) ∧
    smtp_sends (trace w2) = [m] ∧ msg_To m = "u1@example.com" ∧
    row 10 w2 = Some n' ∧ n_status n' = "sent".
Proof.
  split; [reflexivity|].
  exists (set_notifications [sent_record] (mail_world [])). split; [reflexivity|].
  assert ("u1" ≠ "") as H1 by discriminate.
  assert ("u1@example.com" ≠ "") as H2 by discriminate.
  assert (Forall (λ n, n_status n ≠ "pending")
            (notifications (set_notifications [sent_record] (mail_world [])))) as H3
    by (repeat constructor; discriminate).
  destruct (test_notification_delivered "u1" disabled_preference "u1@example.com"
              (set_notifications [sent_record] (mail_world []))
              H1 eq_refl eq_refl H2 eq_refl H3 ltac:(cbn; lia) eq_refl)
    as (w1 & w2 & m & n' & E1 & E2 & Hsm & Hto & _ & Hrow & Hst & _).
  exists w1, w2, m, n'. auto 10.
Defined.

(** * One record, whatever the store does *)

(** ** What a call that returns leaves in the table *)

Lemma ids_alter f r (l : list Notification) :
  (∀ n, n_id (f n) = n_id n) → n_id <$> alter f r l = n_id <$> l.
Proof.
  intros Hf. apply list_eq. intros j. rewrite !list_lookup_fmap.
  destruct (decide (j = r)) as [->|Hne].
  - rewrite list_lookup_alter_eq. destruct (l !! r); cbn; [|reflexivity].
    rewrite Hf. reflexivity.
  - rewrite list_lookup_alter_ne by auto. reflexivity.
Qed.

Lemma keyed_ids (l l' : list Notification) :
  n_id <$> l' = n_id <$> l → keyed l → keyed l'.
Proof.
  intros E [Hids Hnd]. split; [eapply has_ids_fmap; eauto|]. rewrite E. exact Hnd.
Qed.

(** A commit that goes through writes the object behind [r] to the row
    with its id. *)
Lemma commit_row w w' r o i :
  db_commit w = (Return tt, w') → keyed (session w) →
  session w !! r = Some o → n_id o = Some i → is_Some (row i w) →
  row i w' = Some o ∧ session w' = session w.
Proof.
  intros E [Hids Hnd] Hr Hi Hrow. unfold db_commit in E.
  apply bind_inv_Return in E as ([] & w0 & E0 & E).
  rewrite call_next in E0. injection E0 as _ <-.
  injection E as <-. split.
  - unfold row. cbn. apply (flush_rows_row i o _ r); auto.
  - cbn. apply flush_session_ids, Hids.
Qed.

(** The world in which [record_outcome] calls [db.commit()]. *)
Lemma record_outcome_commit r b w n :
  session w !! r = Some n →
  ∃ w0, record_outcome r b w = db_commit w0 ∧
    session w0 !! r = Some (settled b (now w) n) ∧
    n_id <$> session w0 = n_id <$> session w ∧
    notifications w0 = notifications w ∧ faults w0 = faults w.
Proof.
  intros Hn. unfold record_outcome. destruct b.
  - eexists. split; [reflexivity|]. cbn.
    rewrite !list_lookup_alter_eq, Hn, !ids_alter by reflexivity. auto.
  - eexists. split; [reflexivity|]. cbn.
    rewrite !list_lookup_alter_eq, Hn, !ids_alter by reflexivity. auto.
Qed.

Lemma mark_processing_commit r w n :
  session w !! r = Some n →
  ∃ w0, mark_processing r w = db_commit w0 ∧
    session w0 !! r = Some (taken_up (now w) n) ∧
    n_id <$> session w0 = n_id <$> session w ∧
    notifications w0 = notifications w ∧ faults w0 = faults w.
Proof.
  intros Hn. unfold mark_processing.
  eexists. split; [reflexivity|]. cbn.
  rewrite !list_lookup_alter_eq, Hn, !ids_alter by reflexivity. auto.
Qed.

Lemma row_notifications i w w' : notifications w' = notifications w → row i w' = row i w.
Proof. intros E. unfold row. rewrite E. reflexivity. Qed.

(** A block that ends with a commit and returns: the object it leaves
    behind [r] is the row with its id. *)
Lemma record_outcome_row r b w w' n i :
  record_outcome r b w = (Return tt, w') → keyed (session w) →
  session w !! r = Some n → n_id n = Some i → is_Some (row i w) →
  row i w' = Some (settled b (now w) n) ∧
  session w' !! r = Some (settled b (now w) n).
Proof.
  intros E Hk Hn Hi Hrow.
  destruct (record_outcome_commit r b w n Hn) as (w0 & E0 & Hn0 & Hids & Hrows & _).
  rewrite E0 in E.
  destruct (commit_row w0 w' r _ i E (keyed_ids _ _ Hids Hk) Hn0) as [H1 H2].
  { destruct b; exact Hi. }
  { rewrite (row_notifications i w w0 Hrows). exact Hrow. }
  split; [exact H1|]. rewrite H2. exact Hn0.
Qed.

Lemma mark_processing_row r w w' n i :
  mark_processing r w = (Return tt, w') → keyed (session w) →
  session w !! r = Some n → n_id n = Some i → is_Some (row i w) →
  row i w' = Some (taken_up (now w) n) ∧
  session w' !! r = Some (taken_up (now w) n) ∧
  n_id <$> session w' = n_id <$> session w.
Proof.
  intros E Hk Hn Hi Hrow.
  destruct (mark_processing_commit r w n Hn) as (w0 & E0 & Hn0 & Hids & Hrows & _).
  rewrite E0 in E.
  destruct (commit_row w0 w' r _ i E (keyed_ids _ _ Hids Hk) Hn0 Hi) as [H1 H2].
  { rewrite (row_notifications i w w0 Hrows). exact Hrow. }
  split; [exact H1|]. rewrite H2. auto.
Qed.

Lemma stays_channel i r : frame (stays i) (send_notification_channel r).
Proof. eapply frame_channel; eauto using stays_framing; cbn; auto. Qed.

Lemma except_commit r e w n :
  deactivated w = false → session w !! r = Some n →
  ∃ w0, send_notification_except r e w = db_commit w0 ∧
    session w0 !! r = Some (given_up e (now w) n) ∧
    n_id <$> session w0 = n_id <$> session w ∧
    notifications w0 = notifications w ∧ faults w0 = faults w ∧
    trace w0 = EvStatus (n_id n) (n_status n) "failed" :: trace w.
Proof.
  intros Hd Hn. unfold send_notification_except.
  rewrite (bind_Return _ _ w tt w (loaded_run w Hd)).
  eexists. split; [reflexivity|]. cbn. unfold object.
  rewrite !list_lookup_alter_eq, Hn, !ids_alter by reflexivity. auto 10.
Qed.

Lemma ids_try r : frame same_ids (send_notification_try r).
Proof. eapply frame_send_notification_try; eauto using ids_framing; cbn; auto. Qed.

Lemma stays_try i r : frame (stays i) (send_notification_try r).
Proof. eapply frame_send_notification_try; eauto using stays_framing; cbn; auto. Qed.

Lemma identity_try r n :
  is_Some (n_id n) → frame (keeps r (same_identity n)) (send_notification_try r).
Proof.
  intros Hid. eapply frame_send_notification_try; eauto using identity_framing; cbn; auto.
Qed.

(** A call that returns leaves the object behind [r] in the row with its
    id: its last commit, in the [try] block or in the [except] block, has
    gone through. *)
Lemma send_notification_row r w w' n i :
  send_notification r w = (Return tt, w') → keyed (session w) →
  session w !! r = Some n → n_id n = Some i → is_Some (row i w) →
  ∃ n', row i w' = Some n' ∧ session w' !! r = Some n'.
Proof.
  intros E Hk Hn Hi Hrow.
  destruct (send_notification_try r w) as [[[]|e] w1] eqn:Et.
  - unfold send_notification, try_except in E. rewrite Et in E. injection E as ->.
    apply try_inv in Et as (wa & b & wb & E1 & E2 & E3).
    destruct (mark_processing_row r w wa n i E1 Hk Hn Hi Hrow) as (Hra & Hna & Hids).
    pose proof (channel_session r wa) as Hs. pose proof (stays_channel i r wa) as Hst.
    rewrite E2 in Hs, Hst. cbn [snd] in Hs, Hst.
    rewrite <- Hs in Hna, Hids.
    destruct (record_outcome_row r b wb w' _ i E3 (keyed_ids _ _ Hids Hk) Hna Hi) as [H1 H2].
    { apply Hst. rewrite Hra. eauto. }
    eauto.
  - assert (deactivated w1 = false) as Hd.
    { destruct (deactivated w1) eqn:Hd; [|reflexivity].
      rewrite (send_notification_deactivated r w e w1 Et Hd) in E. discriminate. }
    unfold send_notification, try_except in E. rewrite Et in E.
    pose proof (ids_try r w) as Hids. pose proof (stays_try i r w) as Hst.
    pose proof (identity_try r n (ex_intro _ i Hi) w n Hn) as Hobj.
    rewrite Et in Hids, Hst, Hobj. cbn [snd] in Hids, Hst, Hobj.
    destruct Hobj as (n1 & Hn1 & Hsame); [repeat split|].
    specialize (Hids (proj1 Hk)).
    destruct (except_commit r e w1 n1 Hd Hn1) as (w0 & E0 & Hn0 & Hids0 & Hrows0 & _).
    rewrite E0 in E.
    destruct (commit_row w0 w' r (given_up e (now w1) n1) i E) as [H1 H2].
    + eapply keyed_ids; [|exact Hk]. congruence.
    + exact Hn0.
    + cbn. rewrite (same_identity_id _ _ Hsame). exact Hi.
    + rewrite (row_notifications i w1 w0 Hrows0). apply Hst, Hrow.
    + rewrite H2. eauto.
Qed.

Lemma channel_notifications r w :
  notifications (snd (send_notification_channel r w)) = notifications w.
Proof.
  unfold send_notification_channel, db_first_preference.
  unfold mbind, M_bind, bind, getattr, get_world, mret, M_ret, ret.
  destruct (String.eqb _ "email"); [|destruct (String.eqb _ "database"); reflexivity].
  destruct (str_truthy _); [|reflexivity].
  rewrite call_next. destruct (next_call (faults w)) as [[]|e]; [|reflexivity].
  destruct (List.find _ _) as [p|]; [|reflexivity].
  destruct (str_truthy (p_email p)); [|reflexivity].
  match goal with |- context [send_email ?a ?b ?c ?d ?e ?f ?w0] =>
    destruct (send_email_returns a b c d e f w0) as (b0 & w' & E & _ & Hn & _); rewrite E end.
  exact Hn.
Qed.

(** ** The status assignments of [send_notification] *)

Lemma transitions_commit w : transitions (trace (snd (db_commit w))) = transitions (trace w).
Proof. exact (frame_commit _ _ _ (same_framing transition_of) w). Qed.

Lemma transitions_channel r w :
  transitions (trace (snd (send_notification_channel r w))) = transitions (trace w).
Proof.
  apply (frame_channel _ _ _ (same_framing transition_of)); reflexivity.
Qed.

(** The status assignments of one call: the one to "processing", and then
    at most one more, from "processing" to "sent" or to "failed". *)
Lemma send_notification_steps r w n :
  session w !! r = Some n → is_Some (n_id n) →
  ∃ ts, transitions (trace (snd (send_notification r w)))
        = ts ++ (n_id n, n_status n, "processing") :: transitions (trace w) ∧
    (ts = [] ∨ ts = [(n_id n, "processing", "sent")]
     ∨ ts = [(n_id n, "processing", "failed")]).
Proof.
  intros Hn Hid.
  destruct (mark_processing_next r w n Hn Hid) as (w1 & E1 & Hf1 & Hn1 & Ht1 & _).
  unfold send_notification, try_except, send_notification_try.
  destruct (next_call (faults w)) as [[]|e1] eqn:Hnext.
  2:{ rewrite (bind_Raise _ _ _ _ _ E1).
      destruct (faults w) as [|[text|] rest]; try discriminate. cbn in Hf1.
      rewrite (except_deactivated r e1 w1 (deactivated_refused _ _ Hf1)). cbn [snd].
      exists []. rewrite Ht1. split; [reflexivity | auto]. }
  rewrite (bind_Return _ _ _ _ _ E1).
  pose proof (transitions_channel r w1) as Htr.
  pose proof (channel_session r w1) as Hs.
  unfold mbind at 1, M_bind at 1, bind at 1.
  destruct (send_notification_channel r w1) as [[b|e2] w2]; cbn [snd] in Htr, Hs.
  - rewrite <- Hs in Hn1.
    destruct (record_outcome_next r b w2 _ Hn1 Hid) as (w3 & E3 & Hf3 & _ & Ht3 & _).
    assert (transitions (trace w3)
            = (n_id n, "processing", if b then "sent" else "failed")
              :: (n_id n, n_status n, "processing") :: transitions (trace w)) as Hts.
    { rewrite Ht3. cbn. change (omap transition_of (trace w2)) with (transitions (trace w2)).
      rewrite Htr, Ht1. reflexivity. }
    exists [(n_id n, "processing", if b then "sent" else "failed")].
    split; [|destruct b; auto].
    destruct (faults w2) as [|[text|] rest] eqn:Hf2;
      cbn [next_call answered refused tail] in E3, Hf3; rewrite E3; cbn [snd];
      try exact Hts.
    rewrite (except_deactivated r _ w3 (deactivated_refused _ _ Hf3)). exact Hts.
  - destruct (deactivated w2) eqn:Hd.
    + rewrite (except_deactivated r e2 w2 Hd). cbn [snd].
      exists []. split; [|auto]. rewrite Htr, Ht1. reflexivity.
    + rewrite <- Hs in Hn1.
      destruct (except_commit r e2 w2 _ Hd Hn1) as (w0 & E0 & _ & _ & _ & _ & Ht0).
      rewrite E0, transitions_commit, Ht0.
      exists [(n_id n, "processing", "failed")]. split; [|auto].
      cbn. change (omap transition_of (trace w2)) with (transitions (trace w2)).
      rewrite Htr, Ht1. reflexivity.
Qed.

Lemma on_path_steps n ts :
  n_status n = "pending" →
  ts = [] ∨ ts = [(n_id n, "processing", "sent")] ∨ ts = [(n_id n, "processing", "failed")] →
  Forall on_path (ts ++ [(n_id n, n_status n, "processing")]).
Proof.
  intros Hp H. rewrite Hp.
  assert (on_path (n_id n, "pending", "processing")) as H0 by (left; auto).
  destruct H as [-> | [-> | ->]]; cbn [app];
    repeat (apply Forall_cons; split); try apply Forall_nil; auto; right; auto.
Qed.

(** A loop over distinct references to pending records: every status
    assignment it makes is along the path. *)
Lemma for_each_on_path l : ∀ w,
  NoDup l →
  (∀ r, r ∈ l → ∃ n, session w !! r = Some n ∧ is_Some (n_id n) ∧ n_status n = "pending") →
  ∃ more, transitions (trace (snd (for_each send_notification l w)))
          = more ++ transitions (trace w) ∧ Forall on_path more.
Proof.
  induction l as [|r0 l IH]; intros w Hnd Hobj.
  { exists []. split; [reflexivity | constructor]. }
  apply NoDup_cons in Hnd as [Hnin Hnd].
  destruct (Hobj r0 (list_elem_of_here _ _)) as (n0 & Hn0 & Hid0 & Hp0).
  destruct (send_notification_steps r0 w n0 Hn0 Hid0) as (ts & Hts & Hcases).
  pose proof (on_path_steps n0 ts Hp0 Hcases) as Hpath.
  pose proof (others_send_notification r0 w) as Hoth.
  cbn [for_each]. unfold mbind, M_bind, bind.
  destruct (send_notification r0 w) as [[[]|e] w1]; cbn [snd] in *.
  - destruct (IH w1 Hnd) as (more & Hmore & Hall).
    { intros r Hin. destruct (Hobj r (list_elem_of_further _ _ _ Hin)) as (n & Hn & Hid & Hp).
      exists n. split; [|auto]. apply Hoth; auto. intros ->. contradiction. }
    exists (more ++ ts ++ [(n_id n0, n_status n0, "processing")]).
    rewrite Hmore, Hts, <- !app_assoc. split; [reflexivity|].
    apply Forall_app. split; [exact Hall | exact Hpath].
  - exists (ts ++ [(n_id n0, n_status n0, "processing")]).
    rewrite Hts, <- app_assoc. split; [reflexivity | exact Hpath].
Qed.

(** Every status assignment of a batch is along the path. *)
Lemma batch_on_path w :
  Forall (λ n, is_Some (n_id n)) (notifications w) →
  ∃ more, transitions (trace (snd (process_pending_batch w)))
          = more ++ transitions (trace w) ∧ Forall on_path more.
Proof.
  intros Hwf. rewrite batch_run.
  set (batch := select_pending (Z.to_nat (batch_size w)) (notifications w)).
  unfold mbind, M_bind, bind.
  destruct (select_run (batch_size w) (set_session [] w) eq_refl)
    as [(e & w1 & E & Ht & _) | (w1 & E & Hs & Ht & _)]; rewrite E.
  - exists []. cbn [fst snd trace set_session set_faults]. rewrite Ht.
    split; [reflexivity | constructor].
  - cbn [notifications set_session] in *. fold batch in Hs |- *.
    destruct (for_each_on_path (seq 0 (length batch)) w1 (NoDup_seq _ _))
      as (more & Hmore & Hall).
    { intros r Hr. apply elem_of_seq in Hr.
      destruct (lookup_lt_is_Some_2 batch r ltac:(lia)) as [n Hn].
      exists n. rewrite Hs. split; [exact Hn|].
      pose proof (select_pending_ids (Z.to_nat (batch_size w)) _ Hwf) as Hids.
      pose proof (select_pending_pending (Z.to_nat (batch_size w)) (notifications w)) as Hp.
      rewrite Forall_forall in Hids, Hp.
      split; [apply Hids | apply Hp]; eapply list_elem_of_lookup_2, Hn. }
    exists more. split; [|exact Hall].
    destruct (for_each send_notification (seq 0 (length batch)) w1) as [[[]|e] w2];
      cbn [fst snd] in *.
    + pose proof (transitions_commit w2) as Hc.
      destruct (db_commit w2) as [[[]|e] w3]; cbn [fst snd trace set_session set_faults] in *;
        rewrite Hc, Hmore, Ht; reflexivity.
    + cbn [fst snd trace set_session set_faults]. rewrite Hmore, Ht. reflexivity.
Qed.

Lemma keyed_row rows i n m :
  keyed rows → List.find (λ x, bool_decide (n_id x = Some i)) rows = Some n →
  m ∈ rows → n_id m = Some i → m = n.
Proof.
  intros [_ Hnd] F Hm Hi.
  apply find_some in F as [Hin Hn]. apply bool_decide_eq_true_1 in Hn.
  apply list_elem_of_In in Hin.
  apply list_elem_of_lookup_1 in Hm as [a Ha]. apply list_elem_of_lookup_1 in Hin as [b Hb].
  assert (a = b) as ->.
  { eapply NoDup_lookup; [exact Hnd| |]; rewrite list_lookup_fmap.
    - rewrite Ha. cbn. rewrite Hi. reflexivity.
    - rewrite Hb. cbn. rewrite Hn. reflexivity. }
  congruence.
Qed.

(** A row that is not pending is not selected, and so it is left as it
    is. *)
Lemma batch_spares_settled w i n :
  keyed (notifications w) → row i w = Some n → n_status n ≠ "pending" →
  row i (snd (process_pending_batch w)) = Some n.
Proof.
  intros Hk Hrow Hs. rewrite <- Hrow. apply batch_spares; [apply Hk|].
  apply Forall_forall. intros m Hm Hi.
  pose proof (select_pending_pending (Z.to_nat (batch_size w)) (notifications w)) as Hp.
  rewrite Forall_forall in Hp. specialize (Hp m Hm).
  apply select_pending_in in Hm.
  rewrite (keyed_row _ i n m Hk Hrow Hm Hi) in Hp. contradiction.
Qed.

(** C2. The status assignments of [send_notification] are along the path
    from "pending" to "processing" and then to "sent" or "failed". One
    call assigns "processing", from the status the record has, and then at
    most one more status, "sent" or "failed", from "processing"; this holds
    whatever the store and the SMTP server do. The sweep, which alone calls
    [send_notification], passes only records that its query has found
    "pending", so that every assignment of a batch is one of pending to
    processing, processing to sent and processing to failed, and a row that
    is not pending (one that is "sent" or "failed", say) is not passed and
    is left as it is. *)
Theorem send_notification_transitions :
  (∀ r w n, session w !! r = Some n → is_Some (n_id n) →
     ∃ ts, transitions (trace (snd (send_notification r w)))
           = ts ++ (n_id n, n_status n, "processing") :: transitions (trace w) ∧
       (ts = [] ∨ ts = [(n_id n, "processing", "sent")]
        ∨ ts = [(n_id n, "processing", "failed")])) ∧
  (∀ limit rows, Forall (λ n, n_status n = "pending") (select_pending limit rows)) ∧
  (∀ w, Forall (λ n, is_Some (n_id n)) (notifications w) →
     ∃ more, transitions (trace (snd (process_pending_batch w)))
             = more ++ transitions (trace w) ∧ Forall on_path more) ∧
  (∀ w i n, keyed (notifications w) → row i w = Some n → n_status n ≠ "pending" →
     row i (snd (process_pending_batch w)) = Some n).
Proof.
  split; [exact send_notification_steps|].
  split; [exact select_pending_pending|].
  split; [exact batch_on_path | exact batch_spares_settled].
Qed.

Lemma send_notification_transitions_witness :
  keyed (notifications (world_with [sent_record] [] [])) ∧
  row 1 (world_with [sent_record] [] []) = Some sent_record ∧
  n_status sent_record ≠ "pending" ∧
  row 1 (snd (process_pending_batch (world_with [sent_record] [] []))) = Some sent_record ∧
  ∃ ts, transitions (trace (snd (send_notification 0
                                   (world_with [email_record] [email_record] []))))
        = ts ++ [(Some 1, "pending", "processing")].
Proof.
  assert (keyed (notifications (world_with [sent_record] [] []))) as Hk.
  { split; [repeat constructor; eexists; reflexivity|]. cbn. apply NoDup_singleton. }
  assert (n_status sent_record ≠ "pending") as Hs by discriminate.
  split; [exact Hk|]. split; [reflexivity|]. split; [exact Hs|]. split.
  - exact (proj2 (proj2 (proj2 send_notification_transitions))
             (world_with [sent_record] [] []) 1 sent_record Hk eq_refl Hs).
  - destruct (proj1 send_notification_transitions 0%nat
                (world_with [email_record] [email_record] []) email_record
                eq_refl (ex_intro _ 1 eq_refl)) as (ts & Hts & _).
    exists ts. exact Hts.
Defined.

(** ** What reaches the caller *)

Lemma mark_processing_world r w :
  ∃ w0, mark_processing r w = db_commit w0 ∧
    notifications w0 = notifications w ∧ faults w0 = faults w.
Proof. unfold mark_processing. eexists. split; [reflexivity|]. cbn. auto. Qed.

Lemma except_world r e w :
  deactivated w = false →
  ∃ w0, send_notification_except r e w = db_commit w0 ∧ faults w0 = faults w.
Proof.
  intros Hd. unfold send_notification_except.
  rewrite (bind_Return _ _ w tt w (loaded_run w Hd)).
  eexists. split; [reflexivity|]. reflexivity.
Qed.

Lemma deactivated_head w :
  deactivated w = true → head (faults w) = Some (Some rolled_back).
Proof.
  unfold deactivated. destruct (faults w) as [|[t|] fs]; try discriminate.
  intros H. apply String.eqb_eq in H. subst t. reflexivity.
Qed.

Lemma head_deactivated w text :
  head (faults w) = Some (Some text) → deactivated w = true → text = rolled_back.
Proof.
  unfold deactivated. destruct (faults w) as [|[t|] fs]; try discriminate.
  intros [= ->] H. apply String.eqb_eq, H.
Qed.

Lemma commit_raises w e w' :
  db_commit w = (Raise e, w') → ∃ text, head (faults w) = Some (Some text) ∧ e = Error text.
Proof.
  unfold db_commit. intros H.
  apply bind_inv_Raise in H as [H | ([] & w1 & _ & H)]; [|discriminate].
  rewrite call_next in H. destruct (faults w) as [|[t|] fs]; try discriminate.
  injection H as <- _. eauto.
Qed.

(** When the store refuses the first commit, the call raises and the
    table is as it was. *)
Lemma first_commit_propagates r w :
  next_call (faults w) ≠ Return tt →
  ∃ w', send_notification r w = (Raise (Error rolled_back), w') ∧
    notifications w' = notifications w.
Proof.
  intros Hnext.
  destruct (mark_processing_world r w) as (w0 & E0 & Hrows & Hf0).
  destruct (faults w) as [|[text|] rest] eqn:Hfs; try (exfalso; apply Hnext; reflexivity).
  pose proof (commit_fails w0 text rest Hf0) as E1. rewrite <- E0 in E1.
  exists (set_faults (Some rolled_back :: rest) w0). split; [|exact Hrows].
  apply (send_notification_deactivated r w (Error text)); [|reflexivity].
  unfold send_notification_try. rewrite (bind_Raise _ _ _ _ _ E1). reflexivity.
Qed.

(** The call raises exactly when the [try] block has raised and the store
    refuses the next call of the session, which it does whenever a commit of
    the [try] block was refused. *)
Lemma send_notification_raises r w e :
  (∃ w', send_notification r w = (Raise e, w')) ↔
  ∃ e1 w1 text, send_notification_try r w = (Raise e1, w1) ∧
                head (faults w1) = Some (Some text) ∧ e = Error text.
Proof.
  unfold send_notification, try_except. split.
  - intros (w' & E).
    destruct (send_notification_try r w) as [[[]|e1] w1]; [discriminate|].
    exists e1, w1. destruct (deactivated w1) eqn:Hd.
    + rewrite (except_deactivated r e1 w1 Hd) in E. injection E as <- _.
      exists rolled_back. split; [reflexivity|].
      split; [apply deactivated_head, Hd | reflexivity].
    + destruct (except_world r e1 w1 Hd) as (w0 & E0 & Hf0). rewrite E0 in E.
      destruct (commit_raises w0 e w' E) as (text & Hh & ->).
      exists text. rewrite <- Hf0. auto.
  - intros (e1 & w1 & text & E & Hh & ->). rewrite E.
    destruct (deactivated w1) eqn:Hd.
    + rewrite (head_deactivated w1 text Hh Hd).
      exists w1. apply except_deactivated, Hd.
    + destruct (except_world r e1 w1 Hd) as (w0 & E0 & Hf0). rewrite E0.
      destruct (faults w1) as [|[t|] rest] eqn:Hf1; try discriminate.
      injection Hh as ->. eexists. apply (commit_fails w0 text rest Hf0).
Qed.

(** A call on a record of a channel that is not known returns when the
    store takes its two commits. *)
Lemma unknown_channel_returns r w n :
  session w !! r = Some n → n_channel n ≠ "email" → n_channel n ≠ "database" →
  quiet 2 (faults w) = true → ∃ w', send_notification r w = (Return tt, w').
Proof.
  intros Hn H1 H2 Hq.
  destruct (mark_processing_quiet r 1 w Hq) as (wa & E1 & Hqa).
  pose proof (message_mark_processing r n w n Hn (same_message_refl n)) as (na & Ha & Hma).
  rewrite E1 in Ha; cbn in Ha. destruct Hma as (Hc & _). rewrite <- Hc in H1, H2.
  pose proof (channel_unknown r wa na Ha H1 H2) as E2.
  destruct (record_outcome_quiet r false 0 wa Hqa) as (w3 & E3 & _).
  exists w3. unfold send_notification, try_except.
  rewrite (try_run _ _ _ _ _ _ _ E1 E2 E3). reflexivity.
Qed.

(** C1 does not hold of the code. [send_notification] catches what its
    [try] block raises, but its [except] block works on the session the
    failure has left, which the code does not roll back: after a refused
    commit the session is deactivated, and the [except] block raises at its
    first line, where it reads [notification.id]. At a pending record of
    the channel "sms" whose first commit the store refuses, the call
    raises and the row is left pending, and so does the batch of the sweep
    that finds that record. In general the call raises whenever the store
    refuses the first commit, and it raises exactly when the [try] block has
    raised and the store refuses the next call of the session. What the
    claim says holds while the store takes the two commits: the call
    returns, and a record of a channel other than "email" and "database" is
    left "failed", in the session and in the table. *)
Theorem send_notification_propagates :
  (∃ w', send_notification 0 (world_with [sms_record] [sms_record] [Some "connection lost"])
         = (Raise (Error rolled_back), w') ∧
     notifications w' = [sms_record]) ∧
  (∃ w', process_pending_batch (world_with [sms_record] [] [None; Some "connection lost"])
         = (Raise (Error rolled_back), w') ∧
     notifications w' = [sms_record]) ∧
  (∀ r w, next_call (faults w) ≠ Return tt →
     ∃ w', send_notification r w = (Raise (Error rolled_back), w') ∧
       notifications w' = notifications w) ∧
  (∀ r w e, (∃ w', send_notification r w = (Raise e, w')) ↔
     ∃ e1 w1 text, send_notification_try r w = (Raise e1, w1) ∧
                   head (faults w1) = Some (Some text) ∧ e = Error text) ∧
  (∀ r w n, session w !! r = Some n →
     n_channel n ≠ "email" → n_channel n ≠ "database" →
     quiet 2 (faults w) = true →
     ∃ w', send_notification r w = (Return tt, w') ∧
       n_status (object r w') = "failed" ∧
       n_error_message (object r w') = Some "Failed to send notification" ∧
       ∀ i, n_id n = Some i → keyed (session w) → is_Some (row i w) →
            row i w' = Some (object r w')).
Proof.
  split; [eexists; split; vm_compute; reflexivity|].
  split; [eexists; split; vm_compute; reflexivity|].
  split; [exact first_commit_propagates|].
  split; [exact send_notification_raises|].
  intros r w n Hn H1 H2 Hq.
  destruct (unknown_channel_returns r w n Hn H1 H2 Hq) as (w' & E).
  destruct (send_notification_returned r w w' n E Hn) as (n' & Hn' & _ & Hs).
  exists w'. split; [exact E|]. unfold object. rewrite Hn'. cbn.
  destruct (Hs H1 H2) as [Hst Hmsg]. split; [exact Hst|]. split; [exact Hmsg|].
  intros i Hi Hk Hrow.
  destruct (send_notification_row r w w' n i E Hk Hn Hi Hrow) as (n2 & Hr2 & Hn2).
  congruence.
Qed.

Lemma send_notification_propagates_witness :
  quiet 2 (faults (world_with [sms_record] [sms_record] [])) = true ∧
  next_call (faults (world_with [sms_record] [sms_record] [Some "connection lost"]))
  ≠ Return tt ∧
  ∃ w1 w2, send_notification 0 (world_with [sms_record] [sms_record] []) = (Return tt, w1) ∧
    n_status (object 0 w1) = "failed" ∧
    send_notification 0 (world_with [sms_record] [sms_record] [Some "connection lost"])
    = (Raise (Error rolled_back), w2) ∧
    notifications w2 = [sms_record].
Proof.
  split; [reflexivity|].
  assert (next_call (faults (world_with [sms_record] [sms_record] [Some "connection lost"]))
          ≠ Return tt) as Hnext by discriminate.
  split; [exact Hnext|].
  assert (n_channel sms_record ≠ "email") as H1 by discriminate.
  assert (n_channel sms_record ≠ "database") as H2 by discriminate.
  destruct (proj2 (proj2 (proj2 (proj2 send_notification_propagates))) 0%nat
              (world_with [sms_record] [sms_record] []) sms_record eq_refl H1 H2 eq_refl)
    as (w1 & E1 & Hs & _).
  destruct (proj1 (proj2 (proj2 send_notification_propagates)) 0%nat
              (world_with [sms_record] [sms_record] [Some "connection lost"]) Hnext)
    as (w2 & E2 & Hrows).
  exists w1, w2. auto.
Defined.

(** C5. A record for the "email" channel whose user has no preference with
    an address (the record may have no user at all): whatever the store
    does, [send_email] is not called and nothing reaches the SMTP client.
    The call returns when none of its three calls into the store (two
    commits and the lookup) is refused, and it raises only when one of them
    is. Whenever it returns, the record has status "failed", the object of
    the session and, for a record with an id whose row exists, the row of
    the table; and its error detail is the fixed message whenever the store
    has not refused the lookup (then the [except] block has recorded the
    text of that refusal). *)
Theorem email_without_preference r w n :
  session w !! r = Some n → n_channel n = "email" → no_address n w →
  email_calls (trace (snd (send_notification r w))) = email_calls (trace w) ∧
  smtp_sends (trace (snd (send_notification r w))) = smtp_sends (trace w) ∧
  (quiet 3 (faults w) = true → fst (send_notification r w) = Return tt) ∧
  (∀ w', send_notification r w = (Return tt, w') →
     n_status (object r w') = "failed" ∧
     (quiet 2 (faults w) = true →
      n_error_message (object r w') = Some "Failed to send notification") ∧
     ∀ i, n_id n = Some i → keyed (session w) → is_Some (row i w) →
          row i w' = Some (object r w')) ∧
  (∀ e w', send_notification r w = (Raise e, w') → quiet 3 (faults w) = false).
Proof.
  intros Hn Hc Hno.
  pose proof (message_mark_processing r n w n Hn (same_message_refl n)) as (na & Ha & Hma).
  pose proof (preferences_mark_processing r w) as Hp. unfold fixes in Hp.
  assert (∀ wa, mark_processing r w = (Return tt, wa) →
            ∃ o wb, send_notification_channel r wa = (o, wb) ∧
              (∀ b, o = Return b → b = false) ∧
              (∀ k, quiet (S k) (faults wa) = true →
                    o = Return false ∧ quiet k (faults wb) = true)) as Hchannel.
  { intros wa E1. rewrite E1 in Ha, Hp; cbn in Ha, Hp.
    destruct (channel_no_preference r wa na Ha) as (o & wb & E2 & _ & Hfalse & Hquiet).
    { destruct Hma as (-> & _). exact Hc. }
    { eapply no_address_same; eauto. }
    eauto 10. }
  assert (quiet 3 (faults w) = true → fst (send_notification r w) = Return tt) as Hret.
  { intros Hq.
    destruct (mark_processing_quiet r 2 w Hq) as (wa & E1 & Hqa).
    destruct (Hchannel wa E1) as (o & wb & E2 & _ & Hquiet).
    destruct (Hquiet 1%nat Hqa) as (-> & Hqb).
    destruct (record_outcome_quiet r false 0 wb Hqb) as (w3 & E3 & _).
    unfold send_notification, try_except.
    rewrite (try_run _ _ _ _ _ _ _ E1 E2 E3). reflexivity. }
  assert (∀ X (f : Event → option X), (∀ nid old v, f (EvStatus nid old v) = None) →
            same f w (snd (send_notification r w))) as Hsame.
  { intros X f Hf. pose proof (try_no_preference_same f r w n Hf Hn Hc Hno) as F.
    unfold send_notification, try_except.
    destruct (send_notification_try r w) as [[[]|e] w1]; cbn in *; [exact F|].
    pose proof (calls_except f r e Hf w1) as F2. unfold same in *. congruence. }
  split; [apply (Hsame _ call_of); reflexivity|].
  split; [apply (Hsame _ smtp_of); reflexivity|].
  split; [exact Hret|]. split.
  - intros w' E.
    destruct (send_notification_returned r w w' n E Hn) as (n' & Hn' & _).
    assert (n_status n' = "failed" ∧
            (quiet 2 (faults w) = true →
             n_error_message n' = Some "Failed to send notification")) as [Hst Hmsg].
    { destruct (send_notification_try r w) as [[[]|e] w1] eqn:Et.
      - unfold send_notification, try_except in E. rewrite Et in E. injection E as ->.
        destruct (send_notification_cases r w w' n Hn Et)
          as (n2 & wa & na2 & b & wb & Hn2 & E1 & _ & _ & _ & E2 & _ & Hs & He).
        destruct (Hchannel wa E1) as (o & wb' & E2' & Hfalse & _).
        rewrite E2 in E2'. injection E2' as <- <-.
        rewrite (Hfalse b eq_refl) in Hs.
        rewrite Hn' in Hn2. injection Hn2 as <-. split; [exact Hs | intros _; auto].
      - assert (deactivated w1 = false) as Hd.
        { destruct (deactivated w1) eqn:Hd; [|reflexivity].
          rewrite (send_notification_deactivated r w e w1 Et Hd) in E. discriminate. }
        pose proof (message_try r n w n Hn (same_message_refl n)) as (n1 & Hn1 & _).
        rewrite Et in Hn1; cbn in Hn1.
        destruct (except_status r e w1 n1 Hd Hn1) as (n2 & Hn2 & Hs & _).
        unfold send_notification, try_except in E. rewrite Et in E.
        rewrite E in Hn2; cbn in Hn2. rewrite Hn' in Hn2. injection Hn2 as <-.
        split; [exact Hs|]. intros Hq. exfalso.
        destruct (mark_processing_quiet r 1 w Hq) as (wa & E1 & Hqa).
        destruct (Hchannel wa E1) as (o & wb & E2 & _ & Hquiet).
        destruct (Hquiet 0%nat Hqa) as (-> & _).
        apply try_inv_Raise in Et as [E1' | (wa' & E1' & [E2' | (b & wb' & E2' & E3)])].
        + congruence.
        + rewrite E1 in E1'. injection E1' as <-. congruence.
        + rewrite (deactivates_record_outcome r b wb' e w1 E3) in Hd. discriminate. }
    unfold object. rewrite Hn'. cbn.
    split; [exact Hst|]. split; [exact Hmsg|].
    intros i Hi Hk Hrow.
    destruct (send_notification_row r w w' n i E Hk Hn Hi Hrow) as (n2 & Hr2 & Hn2).
    congruence.
  - intros e w' E.
    destruct (quiet 3 (faults w)) eqn:Hq; [|reflexivity].
    rewrite E in Hret. discriminate (Hret eq_refl).
Qed.

Lemma email_without_preference_witness :
  session (world_with [email_record] [email_record] []) !! 0%nat = Some email_record ∧
  n_channel email_record = "email" ∧
  quiet 3 (faults (world_with [email_record] [email_record] [])) = true ∧
  fst (send_notification 0 (world_with [email_record] [email_record] [])) = Return tt ∧
  smtp_sends (trace (snd (send_notification 0 (world_with [email_record] [email_record] []))))
  = smtp_sends (trace (world_with [email_record] [email_record] [])).
Proof.
  split; [reflexivity|]. split; [reflexivity|]. split; [reflexivity|].
  assert (no_address email_record (world_with [email_record] [email_record] [])) as Hno.
  { intros u p _ Hin. vm_compute in Hin. inversion Hin. }
  pose proof (email_without_preference 0 (world_with [email_record] [email_record] [])
                email_record eq_refl eq_refl Hno) as (_ & Hsm & Hret & _ & _).
  split; [exact (Hret eq_refl) | exact Hsm].
Defined.

(** X12. When the store refuses the first commit of [send_notification],
    nothing is recorded: the session is left deactivated, the [except]
    block raises at its first line, and the call raises. The table is as it
    was, so that a pending row stays pending; the channel block is not run
    and no e-mail is sent; and the only status assignment is the one to
    "processing". *)
Theorem first_commit_refused r w n text rest :
  session w !! r = Some n → is_Some (n_id n) →
  faults w = Some text :: rest →
  ∃ w', send_notification r w = (Raise (Error rolled_back), w') ∧
    notifications w' = notifications w ∧
    transitions (trace w')
    = (n_id n, n_status n, "processing") :: transitions (trace w) ∧
    email_calls (trace w') = email_calls (trace w) ∧
    smtp_sends (trace w') = smtp_sends (trace w) ∧
    deactivated w' = true.
Proof.
  intros Hn Hid Hfs.
  destruct (mark_processing_commit r w n Hn) as (w0 & E0 & _ & _ & Hrows & Hf0).
  destruct (mark_processing_next r w n Hn Hid) as (w1 & E1 & Hf1 & _ & Ht1 & _).
  rewrite Hfs in E1, Hf1, Hf0. cbn [next_call answered refused] in E1, Hf1.
  pose proof (deactivated_refused _ _ Hf1) as Hd.
  exists w1. split.
  { unfold send_notification, try_except, send_notification_try.
    rewrite (bind_Raise _ _ _ _ _ E1). apply except_deactivated, Hd. }
  split.
  { rewrite E0, (commit_fails w0 text rest Hf0) in E1. injection E1 as <-. exact Hrows. }
  rewrite Ht1. repeat split; auto.
Qed.

Lemma first_commit_refused_witness :
  faults (world_with [email_record] [email_record] [Some "connection lost"])
  = Some "connection lost" :: [] ∧
  ∃ w', send_notification 0 (world_with [email_record] [email_record]
                               [Some "connection lost"])
        = (Raise (Error rolled_back), w') ∧
    notifications w' = [email_record].
Proof.
  split; [reflexivity|].
  destruct (first_commit_refused 0
              (world_with [email_record] [email_record] [Some "connection lost"])
              email_record "connection lost" [] eq_refl (ex_intro _ 1 eq_refl) eq_refl)
    as (w' & E & Hn & _).
  exists w'. split; [exact E | exact Hn].
Defined.

(** X13. An e-mail that was handed to the SMTP server can stay unrecorded:
    when the store refuses the commit that records the outcome, the call
    raises, the message has been sent, and the row of the record is left as
    the first commit wrote it, with status "processing" and its [sent_at]
    as it was. No later sweep selects it, since it is not pending. *)
Theorem delivered_but_unrecorded r w n i u p a text rest :
  session w !! r = Some n → n_id n = Some i → keyed (session w) → is_Some (row i w) →
  n_channel n = "email" → n_user_id n = Some u → u ≠ "" →
  List.find (matches_preference u "email") (notification_preferences w) = Some p →
  p_email p = Some a → a ≠ "" →
  configured (email_provider w) = true →
  faults w = None :: None :: None :: Some text :: rest →
  ∃ w' m, send_notification r w = (Raise (Error rolled_back), w') ∧
    smtp_sends (trace w') = m :: smtp_sends (trace w) ∧ msg_To m = a ∧
    row i w' = Some (taken_up (now w) n) ∧
    ∀ limit, taken_up (now w) n ∉ select_pending limit (notifications w').
Proof.
  intros Hn Hi Hk Hrow Hc Hu Hne F Ha Hane Hconf Hfs.
  assert (is_Some (n_id n)) as Hid by eauto.
  destruct (mark_processing_next r w n Hn Hid)
    as (w1 & E1 & Hf1 & Hn1 & Ht1 & Hnow1 & Hp1 & Hm1).
  rewrite Hfs in E1, Hf1. cbn [next_call answered tail] in E1, Hf1.
  destruct (mark_processing_row r w w1 n i E1 Hk Hn Hi Hrow) as (Hr1 & _ & _).
  rewrite <- Hp1 in F.
  assert (quiet 1 (faults w1) = true) as Hq1 by (rewrite Hf1; reflexivity).
  destruct (channel_email_run r w1 _ u p a Hn1 Hc Hu Hne F Ha Hane Hq1)
    as (w2 & E2 & Hs2 & (Hnow2 & _) & Hcalls & Htr & Hf2 & Hsm).
  rewrite Hm1, Hconf, Hf1 in E2, Hf2. rewrite Hm1, Hconf in Hsm.
  cbn [next_call tail negb andb] in E2, Hf2. destruct Hsm as (m & Hsm & Hto & _).
  pose proof (channel_notifications r w1) as Hrows2. rewrite E2 in Hrows2. cbn [snd] in Hrows2.
  rewrite <- Hs2 in Hn1.
  destruct (record_outcome_commit r true w2 _ Hn1) as (w0 & E0 & _ & _ & Hrows0 & Hf0).
  destruct (record_outcome_next r true w2 _ Hn1 Hid) as (w3 & E3 & Hf3 & _ & Ht3 & _).
  rewrite Hf2 in E3, Hf3, Hf0. cbn [next_call answered refused] in E3, Hf3.
  assert (notifications w3 = notifications w1) as Hrows3.
  { rewrite E0, (commit_fails w0 text rest Hf0) in E3. injection E3 as <-.
    cbn [notifications set_faults]. congruence. }
  exists w3, m. split.
  { unfold send_notification, try_except. rewrite (try_run _ _ _ _ _ _ _ E1 E2 E3).
    apply except_deactivated, (deactivated_refused _ _ Hf3). }
  split.
  { rewrite Ht3. change (smtp_sends (?e :: ?t)) with (smtp_sends t).
    rewrite Hsm, Ht1. reflexivity. }
  split; [exact Hto|].
  split; [rewrite (row_notifications i w1 w3 Hrows3); exact Hr1|].
  intros limit Hsel.
  pose proof (select_pending_pending limit (notifications w3)) as Hp.
  rewrite Forall_forall in Hp. specialize (Hp _ Hsel). discriminate.
Qed.

Lemma delivered_but_unrecorded_witness :
  configured (email_provider (mail_world [None; None; None; Some "connection lost"])) = true ∧
  ∃ w' m, send_notification 0 (mail_world [None; None; None; Some "connection lost"])
          = (Raise (Error rolled_back), w') ∧
    smtp_sends (trace w') = [m] ∧ msg_To m = "u1@example.com" ∧
    row 1 w' = Some (taken_up 100 email_record).
Proof.
  split; [reflexivity|].
  assert ("u1" ≠ "") as H1 by discriminate.
  assert ("u1@example.com" ≠ "") as H2 by discriminate.
  assert (keyed (session (mail_world [None; None; None; Some "connection lost"]))) as Hk.
  { split; [repeat constructor; eexists; reflexivity|]. cbn. apply NoDup_singleton. }
  destruct (delivered_but_unrecorded 0 (mail_world [None; None; None; Some "connection lost"])
              email_record 1 "u1" disabled_preference "u1@example.com" "connection lost" []
              eq_refl eq_refl Hk (ex_intro _ email_record eq_refl) eq_refl eq_refl H1
              eq_refl eq_refl H2 eq_refl eq_refl)
    as (w' & m & E & Hsm & Hto & Hrow & _).
  exists w', m. auto.
Defined.

(** * The sweep takes the oldest records first *)

Lemma select_pending_run limit w :
  faults w = [] → (0 ≤ limit)%Z →
  db_select_pending limit w
  = (Return (seq (length (session w))
               (length (select_pending (Z.to_nat limit) (notifications w)))),
     set_session (session w ++ select_pending (Z.to_nat limit) (notifications w)) w).
Proof.
  intros Hf Hl. unfold db_select_pending, call. unfold_m. rewrite Hf.
  destruct (Z.ltb_spec limit 0) as [|_]; [lia|]. reflexivity.
Qed.

(** The table after the batch of the scenario: the two oldest records
    are "sent", the third is as it was. *)
Lemma three_pending_rows t1 t2 t3 :
  t1 < t2 < t3 →
  notifications (snd (process_pending_batch (three_pending t1 t2 t3)))
  = [record 3 None "database" "pending" t3;
     settled true 100 (taken_up 100 (record 1 None "database" "pending" t1));
     settled true 100 (taken_up 100 (record 2 None "database" "pending" t2))].
Proof.
  intros H. rewrite batch_run.
  unfold mbind at 1, M_bind at 1, bind at 1.
  rewrite (select_pending_run _ (set_session [] (three_pending t1 t2 t3)) eq_refl)
    by (cbn; lia).
  change (notifications (set_session [] (three_pending t1 t2 t3)))
    with (notifications (three_pending t1 t2 t3)).
  rewrite (three_pending_batch t1 t2 t3 H).
  vm_compute. reflexivity.
Qed.

(** C6. The query of the sweep returns at most [limit] records, all
    pending, in ascending order of creation, and no pending record it
    leaves out is older than one it returns. A batch sets the selected
    records to "processing" one after the other in that order (all of them
    when it returns, which it does when no collaborator fails and the batch
    size is not negative), and a row whose id is not among the selected ones
    is left as it is. When it returns, each selected record is in the table
    with status "sent" or "failed": none of them is left pending. So with
    pending records created at [t1 < t2 < t3] and a batch size of 2, one
    batch processes the records of [t1] and [t2], in that order, both
    are "sent" afterwards, and the record of [t3] stays as it was,
    pending. *)
Theorem sweep_takes_oldest_first :
  (∀ limit rows,
     (length (select_pending limit rows) ≤ limit)%nat ∧
     Forall (λ n, n_status n = "pending") (select_pending limit rows) ∧
     StronglySorted created_before (select_pending limit rows) ∧
     ∃ rest,
       select_pending limit rows ++ rest ≡ₚ List.filter is_pending rows ∧
       (∀ n m, n ∈ select_pending limit rows → m ∈ rest → created_before n m) ∧
       (rest ≠ [] → length (select_pending limit rows) = limit)) ∧
  (∀ w, Forall (λ n, is_Some (n_id n)) (notifications w) →
     (∃ j, started (trace (snd (process_pending_batch w)))
           = reverse (n_id <$> take j (select_pending (Z.to_nat (batch_size w))
                                         (notifications w)))
             ++ started (trace w) ∧
           (fst (process_pending_batch w) = Return tt →
            j = length (select_pending (Z.to_nat (batch_size w)) (notifications w)))) ∧
     ((0 ≤ batch_size w)%Z → fault_count (faults w) = 0%nat →
      fst (process_pending_batch w) = Return tt) ∧
     (∀ i, Forall (λ n, n_id n ≠ Some i)
             (select_pending (Z.to_nat (batch_size w)) (notifications w)) →
           row i (snd (process_pending_batch w)) = row i w)) ∧
  (∀ w, keyed (notifications w) → (0 ≤ batch_size w)%Z → fault_count (faults w) = 0%nat →
     ∀ n, n ∈ select_pending (Z.to_nat (batch_size w)) (notifications w) →
       ∃ i n', n_id n = Some i ∧ row i (snd (process_pending_batch w)) = Some n' ∧
         same_identity n n' ∧ dealt_with n') ∧
  (∀ t1 t2 t3, t1 < t2 < t3 →
     started (trace (snd (process_pending_batch (three_pending t1 t2 t3))))
     = [Some 2; Some 1] ∧
     (∃ n1 n2,
        row 1 (snd (process_pending_batch (three_pending t1 t2 t3))) = Some n1 ∧
        n_created_at n1 = Some t1 ∧ n_status n1 = "sent" ∧
        row 2 (snd (process_pending_batch (three_pending t1 t2 t3))) = Some n2 ∧
        n_created_at n2 = Some t2 ∧ n_status n2 = "sent") ∧
     row 3 (snd (process_pending_batch (three_pending t1 t2 t3)))
     = Some (record 3 None "database" "pending" t3)).
Proof.
  split; [apply select_pending_spec|]. split; [|split].
  - intros w Hwf. split; [apply batch_started, Hwf|].
    split; [apply batch_returns | intros i; apply batch_spares, Hwf].
  - intros w Hk Hb Hf n Hn.
    destruct (batch_settles w Hk Hb Hf) as (w' & E & Hall).
    destruct (Hall n Hn) as (i & n' & Hi & Hrow & Hsame & Hd & _).
    exists i, n'. rewrite E. auto.
  - intros t1 t2 t3 H.
    assert (Forall (λ n, is_Some (n_id n)) (notifications (three_pending t1 t2 t3))) as Hwf.
    { repeat constructor; eexists; reflexivity. }
    pose proof (three_pending_batch t1 t2 t3 H) as Hb. split; [|split].
    + destruct (batch_started _ Hwf) as (j & Hj & Hlen).
      rewrite Hb in Hj, Hlen.
      assert (0 ≤ batch_size (three_pending t1 t2 t3))%Z as H0 by (cbn; lia).
      rewrite Hj, (Hlen (batch_returns _ H0 eq_refl)). reflexivity.
    + unfold row. rewrite (three_pending_rows t1 t2 t3 H).
      eexists _, _. repeat split.
    + rewrite (batch_spares _ 3 Hwf).
      * reflexivity.
      * rewrite Hb. repeat constructor; discriminate.
Qed.

Lemma sweep_takes_oldest_first_witness :
  5 < 6 < 7 ∧
  started (trace (snd (process_pending_batch (three_pending 5 6 7)))) = [Some 2; Some 1] ∧
  (∃ n1 n2,
     row 1 (snd (process_pending_batch (three_pending 5 6 7))) = Some n1 ∧
     n_created_at n1 = Some 5 ∧ n_status n1 = "sent" ∧
     row 2 (snd (process_pending_batch (three_pending 5 6 7))) = Some n2 ∧
     n_created_at n2 = Some 6 ∧ n_status n2 = "sent") ∧
  row 3 (snd (process_pending_batch (three_pending 5 6 7)))
  = Some (record 3 None "database" "pending" 7).
Proof.
  assert (5 < 6 < 7) as H by lia.
  split; [exact H|].
  exact (proj2 (proj2 (proj2 sweep_takes_oldest_first)) 5 6 7 H).
Defined.
